(** * Docker registry web UI: the filesystem-backed registry core

    A shallow embedding of [webapp/main.py]: digest validation, the
    repository and registry caches with their TTL-gated reloads, the blob
    store, and manifest / config resolution.

    Conventions of the embedding
    - a Python [str] and a Python [bytes] are both a [string] (a sequence of
      8-bit characters); text decoding of file contents is not modelled;
    - a Python [int] is a [Z]; a Python [float] (a reading of [time.time()],
      a load time, a TTL) is a binary64 float, with the addition and the
      comparison of the hardware;
    - a [pathlib.Path] is the list of its segments;
    - a raised exception is the [Raise] case of [Result]; code that mutates
      [self] before it raises leaves the mutated state behind, as in Python;
    - a [dict] is a [gmap]; the JSON object handed to a pydantic model is an
      association list, taken to have no member named [__pydantic_self__]
      (the name of the constructor's own first parameter, for which the call
      raises TypeError before any validation). *)

From Stdlib Require Import ZArith Ascii String List Bool Lia DecimalString.
From Stdlib Require PrimFloat Uint63.
From stdpp Require Import base option list gmap strings fin_maps.

Local Open Scope Z_scope.

#[local] Arguments String.append !_ _ / : simpl nomatch.

(** ** Python floats *)

Module PyFloat.
Definition t : Set := PrimFloat.float.

(** [x + y]: the sum, rounded to the nearest float, ties to even *)
Definition add (x y : t) : t := PrimFloat.add x y.

(** [x > y] *)
Definition gt (x y : t) : bool := PrimFloat.ltb y x.

(** [float(z)] for an integer [0 <= z < 2**63] *)
Definition of_Z (z : Z) : t := PrimFloat.of_uint63 (Uint63.of_Z z).

(** the default [0] of the [last_load] fields, as float arithmetic reads it *)
Definition zero : t := of_Z 0.
End PyFloat.

(** ** Exceptions and results *)

Inductive exn : Type :=
| HTTPException (status_code : Z) (detail : string)
| ValidationError (model : string)
| ValueError (msg : string)
| KeyError (key : string)
| IndexError
| AttributeError (msg : string)
| TypeError (msg : string)
| JSONDecodeError (msg : string)
| UnicodeDecodeError (msg : string)
| FileNotFoundError (msg : string)
| OSError (msg : string).

Inductive Result (A : Type) : Type :=
| Ok (a : A)
| Raise (e : exn).

Arguments Ok {A} a.
Arguments Raise {A} e.

Definition is_ok {A} (r : Result A) : bool :=
  match r with Ok _ => true | Raise _ => false end.

Definition rbind {A B} (r : Result A) (f : A -> Result B) : Result B :=
  match r with
  | Ok a => f a
  | Raise e => Raise e
  end.

Fixpoint mapM_result {A B} (f : A -> Result B) (l : list A) : Result (list B) :=
  match l with
  | [] => Ok []
  | x :: l' => rbind (f x) (fun y => rbind (mapM_result f l') (fun ys => Ok (y :: ys)))
  end.

(** ** Strings *)

Module Str.

Fixpoint strip_prefix (p s : string) : option string :=
  match p with
  | EmptyString => Some s
  | String a p' =>
      match s with
      | EmptyString => None
      | String b s' => if Ascii.eqb a b then strip_prefix p' s' else None
      end
  end.

(** [s.split(sep)] for a one-character separator. *)
Fixpoint split (sep : ascii) (s : string) : list string :=
  match s with
  | EmptyString => [EmptyString]
  | String c s' =>
      if Ascii.eqb c sep then EmptyString :: split sep s'
      else match split sep s' with
           | h :: t => String c h :: t
           | [] => [String c EmptyString]
           end
  end.

(** [s[0:n]] *)
Fixpoint take (n : nat) (s : string) : string :=
  match n, s with
  | O, _ => EmptyString
  | S _, EmptyString => EmptyString
  | S n', String c s' => String c (take n' s')
  end.

Fixpoint all (p : ascii -> bool) (s : string) : bool :=
  match s with
  | EmptyString => true
  | String c s' => p c && all p s'
  end.

(** [sep.join(l)] *)
Fixpoint join (sep : string) (l : list string) : string :=
  match l with
  | [] => EmptyString
  | [x] => x
  | x :: rest => x +:+ sep +:+ join sep rest
  end.

End Str.

(** ** Regular expressions, as far as [re.compile(...).fullmatch] is used *)

Module Re.

Inductive regex : Type :=
| Lit (s : string)                       (* literal text *)
| Class (ranges : list (ascii * ascii))  (* [a-f0-9] *)
| Seq (r1 r2 : regex)
| Alt (r1 r2 : regex)                    (* r1|r2 *)
| Rep (n : nat) (r : regex)              (* r{n} *)
| Bol                                    (* ^ *)
| Eol.                                   (* $ *)

Definition in_range (c : ascii) (r : ascii * ascii) : bool :=
  (N.leb (N_of_ascii (fst r)) (N_of_ascii c)
   && N.leb (N_of_ascii c) (N_of_ascii (snd r)))%bool.

Definition in_class (ranges : list (ascii * ascii)) (c : ascii) : bool :=
  existsb (in_range c) ranges.

(** [$] without MULTILINE: at the end of the string, or just before a
    newline that ends the string. *)
Definition at_eol (rest : string) : bool :=
  match rest with
  | EmptyString => true
  | String c EmptyString => Ascii.eqb c "010"%char
  | _ => false
  end.

(** Backtracking matcher in continuation-passing style: [pos] characters
    have been consumed, [s] is what remains, [k] decides on the rest. *)
Fixpoint run (r : regex) (pos : nat) (s : string)
    (k : nat -> string -> bool) {struct r} : bool :=
  match r with
  | Lit l =>
      match Str.strip_prefix l s with
      | Some rest => k (pos + String.length l)%nat rest
      | None => false
      end
  | Class ranges =>
      match s with
      | String c rest => if in_class ranges c then k (S pos) rest else false
      | EmptyString => false
      end
  | Seq r1 r2 => run r1 pos s (fun pos' s' => run r2 pos' s' k)
  | Alt r1 r2 => run r1 pos s k || run r2 pos s k
  | Rep n r' =>
      (fix rep (n : nat) (pos : nat) (s : string) : bool :=
         match n with
         | O => k pos s
         | S n' => run r' pos s (fun pos' s' => rep n' pos' s')
         end) n pos s
  | Bol => if Nat.eqb pos 0 then k pos s else false
  | Eol => if at_eol s then k pos s else false
  end.

(** [pattern.fullmatch(s) is not None] *)
Definition fullmatch (r : regex) (s : string) : bool :=
  run r 0 s (fun _ rest => match rest with EmptyString => true | _ => false end).

(** What a regex matches: [den r pos w rest] says that [r], started after
    [pos] characters, consumes exactly [w] when [rest] follows. *)
Fixpoint den (r : regex) (pos : nat) (w rest : string) {struct r} : Prop :=
  match r with
  | Lit l => w = l
  | Class ranges => exists c, w = String c EmptyString /\ in_class ranges c = true
  | Seq r1 r2 =>
      exists w1 w2, w = w1 +:+ w2 /\ den r1 pos w1 (w2 +:+ rest)
                    /\ den r2 (pos + String.length w1)%nat w2 rest
  | Alt r1 r2 => den r1 pos w rest \/ den r2 pos w rest
  | Rep n r' =>
      (fix denrep (n : nat) (pos : nat) (w : string) : Prop :=
         match n with
         | O => w = EmptyString
         | S n' =>
             exists w1 w2, w = w1 +:+ w2 /\ den r' pos w1 (w2 +:+ rest)
                           /\ denrep n' (pos + String.length w1)%nat w2
         end) n pos w
  | Bol => w = EmptyString /\ pos = O
  | Eol => w = EmptyString /\ at_eol rest = true
  end.

End Re.

(** ** OciDigest *)

Module OciDigest.

Record t : Type := mk { value : string }.

Inductive Algorithm : Type := SHA256 | SHA512.

Definition Algorithm_value (a : Algorithm) : string :=
  match a with SHA256 => "sha256" | SHA512 => "sha512" end.

(** [Algorithm(s)]: the member whose value is [s], else ValueError. *)
Definition Algorithm_of (s : string) : Result Algorithm :=
  if String.eqb s "sha256" then Ok SHA256
  else if String.eqb s "sha512" then Ok SHA512
  else Raise (ValueError (s +:+ " is not a valid OciDigest.Algorithm")).

Module Validator.

Definition hex_class : Re.regex :=
  Re.Class [("a"%char, "f"%char); ("0"%char, "9"%char)].

(** 'sha256:[a-f0-9]{64}' *)
Definition RE_SHA256 : Re.regex :=
  Re.Seq (Re.Lit "sha256:") (Re.Rep 64 hex_class).

(** 'sha512:[a-f0-9]{128}' *)
Definition RE_SHA512 : Re.regex :=
  Re.Seq (Re.Lit "sha512:") (Re.Rep 128 hex_class).

(** f'^({RE_SHA256}|{RE_SHA512})$' *)
Definition RE_VALIDATE : Re.regex :=
  Re.Seq Re.Bol (Re.Seq (Re.Alt RE_SHA256 RE_SHA512) Re.Eol).

Definition validate (value : string) : Result string :=
  if Re.fullmatch RE_VALIDATE value then Ok value
  else Raise (ValueError (value +:+ " is not a valid OCI digest")).

End Validator.

(** [OciDigest(value=s)]: pydantic runs the field validator and reports
    its ValueError as a ValidationError of the model. *)
Definition init (s : string) : Result t :=
  match Validator.validate s with
  | Ok v => Ok (mk v)
  | Raise _ => Raise (ValidationError "OciDigest")
  end.

(** [xs[i]] on a list *)
Definition index {A} (l : list A) (i : nat) : Result A :=
  match l !! i with
  | Some x => Ok x
  | None => Raise IndexError
  end.

Definition algorithm (self : t) : Result Algorithm :=
  rbind (index (Str.split ":"%char (value self)) 0) Algorithm_of.

Definition encoded (self : t) : Result string :=
  index (Str.split ":"%char (value self)) 1.

Definition from_raw_digest (algorithm : Algorithm) (digest : string) : Result t :=
  init (Algorithm_value algorithm +:+ ":" +:+ digest).

End OciDigest.

(** ** JSON documents and the pydantic schema layer *)

#[warnings="-register-all"]
Inductive json : Type :=
| JNull
| JBool (b : bool)
| JInt (z : Z)
| JFloat (literal : string)
| JStr (s : string)
| JArr (items : list json)
| JObj (members : list (string * json)).

(** [d.get(key)] on the members of a JSON object. *)
Fixpoint dict_get (key : string) (d : list (string * json)) : option json :=
  match d with
  | [] => None
  | (k, v) :: d' => if String.eqb k key then Some v else dict_get key d'
  end.

(** [v == s] for a Python string [s]: only an equal [str] compares equal. *)
Definition json_eq_str (v : option json) (s : string) : bool :=
  match v with
  | Some (JStr s') => String.eqb s' s
  | _ => false
  end.

(** The libraries this program is linked against.  [json.loads] and the
    per-type coercions of pydantic (what a field declared [str], [int],
    [list[...]], [dict[...]] or as a nested model accepts, and what it turns
    the input into) are library code: they are parameters of the model. *)
Class JsonLib : Type := {
  json_loads : string -> Result json
}.

Class Pydantic : Type := {
  pyd_str : json -> option string;
  pyd_int : json -> option Z;
  pyd_list : json -> option (list json);
  pyd_dict : json -> option (list (string * json))
}.

(** The coercions are the identity on a value that already has the declared
    type. *)
Class PydanticLawful (P : Pydantic) : Prop := {
  pyd_str_str : forall s, pyd_str (JStr s) = Some s;
  pyd_int_int : forall z, pyd_int (JInt z) = Some z;
  pyd_list_arr : forall l, pyd_list (JArr l) = Some l;
  pyd_dict_obj : forall d, pyd_dict (JObj d) = Some d
}.

(** The coercions that accept a value of exactly the declared type and
    nothing else; used to run the model on concrete documents. *)
Definition exact_types : Pydantic := {|
  pyd_str := fun v => match v with JStr s => Some s | _ => None end;
  pyd_int := fun v => match v with JInt z => Some z | _ => None end;
  pyd_list := fun v => match v with JArr l => Some l | _ => None end;
  pyd_dict := fun v => match v with JObj d => Some d | _ => None end
|}.

Module Field.
Section Fields.
Context {P : Pydantic} {A : Type}.

(** a field without default: the key must be there and not null *)
Definition required (data : list (string * json)) (key : string)
    (conv : json -> option A) : option A :=
  match dict_get key data with
  | None => None
  | Some JNull => None
  | Some v => conv v
  end.

(** [name: T = None] *)
Definition optional (data : list (string * json)) (key : string)
    (conv : json -> option A) : option (option A) :=
  match dict_get key data with
  | None => Some None
  | Some JNull => Some None
  | Some v => Some <$> conv v
  end.

(** [name: T = Field(default_factory=...)] *)
Definition defaulted (data : list (string * json)) (key : string)
    (conv : json -> option A) (dflt : A) : option A :=
  match dict_get key data with
  | None => Some dflt
  | Some JNull => None
  | Some v => conv v
  end.

Definition item (conv : json -> option A) (v : json) : option A :=
  match v with
  | JNull => None
  | _ => conv v
  end.

(** [list[T]] *)
Definition list_of (conv : json -> option A) (v : json) : option (list A) :=
  l ← pyd_list v; mapM (item conv) l.

(** [dict[str, T]] *)
Definition dict_of (conv : json -> option A) (v : json)
    : option (list (string * A)) :=
  d ← pyd_dict v;
  mapM (fun kv => x ← item conv (snd kv); Some (fst kv, x)) d.

(** a nested model *)
Definition model (fields : list (string * json) -> option A) (v : json)
    : option A :=
  d ← pyd_dict v; fields d.
End Fields.
End Field.

Definition Z_to_string (z : Z) : string :=
  NilZero.string_of_int (Z.to_int z).

Definition schema_revision_validator (value : Z) : Result Z :=
  let expected := 2 in
  if negb (value =? expected)
  then Raise (ValueError ("Invalid schemaVersion=" +:+ Z_to_string value
                          +:+ " (must be " +:+ Z_to_string expected +:+ ")"))
  else Ok value.

(** A validator applied to a coerced field: its ValueError makes the field
    (and so the model) invalid. *)
Definition validated {A} (validator : A -> Result A) (x : option A) : option A :=
  v ← x; match validator v with Ok v' => Some v' | Raise _ => None end.

Module OciMediaType.
Definition oci_descriptor : string := "application/vnd.oci.descriptor.v1+json".
Definition oci_layout : string := "application/vnd.oci.layout.header.v1+json".
Definition oci_image_index : string := "application/vnd.oci.image.index.v1+json".
Definition oci_image_manifest : string := "application/vnd.oci.image.manifest.v1+json".
Definition oci_image_config : string := "application/vnd.oci.image.config.v1+json".
Definition oci_layer_tar : string := "application/vnd.oci.image.layer.v1.tar".
Definition oci_layer_tar_gz : string := "application/vnd.oci.image.layer.v1.tar+gzip".
Definition oci_layer_tar_zstd : string := "application/vnd.oci.image.layer.v1.tar+zstd".
Definition oci_empty : string := "application/vnd.oci.empty.v1+json".
Definition in_toto : string := "application/vnd.in-toto+json".
End OciMediaType.

Module OciPlatform.
Record t : Type := mk {
  architecture : string;
  os : string;
  os_version : option string;
  os_features : option (list string);
  variant : option string;
  features : option (list string)
}.

Definition fields `{Pydantic} (data : list (string * json)) : option t :=
  architecture ← Field.required data "architecture" pyd_str;
  os ← Field.required data "os" pyd_str;
  os_version ← Field.optional data "os.version" pyd_str;
  os_features ← Field.optional data "os.features" (Field.list_of pyd_str);
  variant ← Field.optional data "variant" pyd_str;
  features ← Field.optional data "features" (Field.list_of pyd_str);
  Some (mk architecture os os_version os_features variant features).
End OciPlatform.

Module OciContentDescriptor.
Record t : Type := mk {
  mediaType : string;
  digest : string;
  size : Z;
  platform : option OciPlatform.t;
  urls : list string;
  annotations : list (string * string);
  data : option string;
  artifactType : option string
}.

Definition fields `{Pydantic} (doc : list (string * json)) : option t :=
  mediaType ← Field.required doc "mediaType" pyd_str;
  digest ← Field.required doc "digest" pyd_str;
  size ← Field.required doc "size" pyd_int;
  platform ← Field.optional doc "platform" (Field.model OciPlatform.fields);
  urls ← Field.defaulted doc "urls" (Field.list_of pyd_str) [];
  annotations ← Field.defaulted doc "annotations" (Field.dict_of pyd_str) [];
  data ← Field.optional doc "data" pyd_str;
  artifactType ← Field.optional doc "artifactType" pyd_str;
  Some (mk mediaType digest size platform urls annotations data artifactType).
End OciContentDescriptor.

Module OciImageManifest.
Record t : Type := mk {
  schemaVersion : Z;
  mediaType : string;
  artifactType : option string;
  config : OciContentDescriptor.t;
  layers : list OciContentDescriptor.t;
  subject : option OciContentDescriptor.t;
  annotations : list (string * string)
}.

Definition media_type_validator (v : string) : Result string :=
  let expected := OciMediaType.oci_image_manifest in
  if negb (String.eqb v expected)
  then Raise (ValueError ("Image manifest mediaType must be " +:+ expected))
  else Ok v.

Definition fields `{Pydantic} (data : list (string * json)) : option t :=
  schemaVersion ← validated schema_revision_validator
                     (Field.required data "schemaVersion" pyd_int);
  mediaType ← validated media_type_validator
                 (Field.required data "mediaType" pyd_str);
  artifactType ← Field.optional data "artifactType" pyd_str;
  config ← Field.required data "config" (Field.model OciContentDescriptor.fields);
  layers ← Field.required data "layers"
              (Field.list_of (Field.model OciContentDescriptor.fields));
  subject ← Field.optional data "subject" (Field.model OciContentDescriptor.fields);
  annotations ← Field.defaulted data "annotations" (Field.dict_of pyd_str) [];
  Some (mk schemaVersion mediaType artifactType config layers subject annotations).

(** the constructor call [OciImageManifest] with the members of [data] as keyword arguments *)
Definition init `{Pydantic} (data : list (string * json)) : Result t :=
  match fields data with
  | Some m => Ok m
  | None => Raise (ValidationError "OciImageManifest")
  end.

Definition size (self : t) : Z :=
  let total := OciContentDescriptor.size (config self) in
  fold_left (fun total layer => total + OciContentDescriptor.size layer)
            (layers self) total.
End OciImageManifest.

Module OciImageIndex.
Record t : Type := mk {
  schemaVersion : Z;
  mediaType : string;
  manifests : list OciContentDescriptor.t;
  artifactType : option string;
  subject : option OciContentDescriptor.t
}.

Definition media_type_validator (v : string) : Result string :=
  let expected := OciMediaType.oci_image_index in
  if negb (String.eqb v expected)
  then Raise (ValueError ("Image manifest mediaType must be " +:+ expected))
  else Ok v.

Definition fields `{Pydantic} (data : list (string * json)) : option t :=
  schemaVersion ← validated schema_revision_validator
                     (Field.required data "schemaVersion" pyd_int);
  mediaType ← validated media_type_validator
                 (Field.required data "mediaType" pyd_str);
  manifests ← Field.defaulted data "manifests"
                 (Field.list_of (Field.model OciContentDescriptor.fields)) [];
  artifactType ← Field.optional data "artifactType" pyd_str;
  subject ← Field.optional data "subject" (Field.model OciContentDescriptor.fields);
  Some (mk schemaVersion mediaType manifests artifactType subject).

(** the constructor call [OciImageIndex] with the members of [data] as keyword arguments *)
Definition init `{Pydantic} (data : list (string * json)) : Result t :=
  match fields data with
  | Some m => Ok m
  | None => Raise (ValidationError "OciImageIndex")
  end.
End OciImageIndex.

Module OciImageConfig.
Module Config.
Record t : Type := mk {
  User : option string;
  ExposedPorts : option (list (string * list (string * json)));
  Env : option (list string);
  Entrypoint : option (list string);
  Cmd : option (list string);
  Volumes : option (list (string * list (string * json)));
  WorkingDir : option string;
  Labels : option (list (string * string));
  StopSignal : option string;
  Memory : option Z;
  MemorySwap : option Z;
  CpuShares : option Z;
  Healthcheck : option (list (string * json))
}.

Definition fields `{Pydantic} (data : list (string * json)) : option t :=
  User ← Field.optional data "User" pyd_str;
  ExposedPorts ← Field.optional data "ExposedPorts" (Field.dict_of pyd_dict);
  Env ← Field.optional data "Env" (Field.list_of pyd_str);
  Entrypoint ← Field.optional data "Entrypoint" (Field.list_of pyd_str);
  Cmd ← Field.optional data "Cmd" (Field.list_of pyd_str);
  Volumes ← Field.optional data "Volumes" (Field.dict_of pyd_dict);
  WorkingDir ← Field.optional data "WorkingDir" pyd_str;
  Labels ← Field.optional data "Labels" (Field.dict_of pyd_str);
  StopSignal ← Field.optional data "StopSignal" pyd_str;
  Memory ← Field.optional data "Memory" pyd_int;
  MemorySwap ← Field.optional data "MemorySwap" pyd_int;
  CpuShares ← Field.optional data "CpuShares" pyd_int;
  Healthcheck ← Field.optional data "Healthcheck" pyd_dict;
  Some (mk User ExposedPorts Env Entrypoint Cmd Volumes WorkingDir Labels
           StopSignal Memory MemorySwap CpuShares Healthcheck).
End Config.

Module RootFilesystem.
Record t : Type := mk {
  type : string;
  diff_ids : list string
}.

Definition fields `{Pydantic} (data : list (string * json)) : option t :=
  type ← Field.required data "type" pyd_str;
  diff_ids ← Field.required data "diff_ids" (Field.list_of pyd_str);
  Some (mk type diff_ids).
End RootFilesystem.

Record t : Type := mk {
  architecture : string;
  os : string;
  rootfs : RootFilesystem.t;
  os_version : option string;
  os_features : option (list string);
  variant : option string;
  created : option string;
  author : option string;
  config : option Config.t
}.

Definition fields `{Pydantic} (data : list (string * json)) : option t :=
  architecture ← Field.required data "architecture" pyd_str;
  os ← Field.required data "os" pyd_str;
  rootfs ← Field.required data "rootfs" (Field.model RootFilesystem.fields);
  os_version ← Field.optional data "os.version" pyd_str;
  os_features ← Field.optional data "os.features" (Field.list_of pyd_str);
  variant ← Field.optional data "variant" pyd_str;
  created ← Field.optional data "created" pyd_str;
  author ← Field.optional data "author" pyd_str;
  config ← Field.optional data "config" (Field.model Config.fields);
  Some (mk architecture os rootfs os_version os_features variant created
           author config).

(** the constructor call [OciImageConfig] with the members of [data] as keyword arguments *)
Definition init `{Pydantic} (data : list (string * json)) : Result t :=
  match fields data with
  | Some m => Ok m
  | None => Raise (ValidationError "OciImageConfig")
  end.
End OciImageConfig.

(** ** The outside world: filesystem, clock, log *)

Definition Path : Type := list string.

Definition path_div (p : Path) (segment : string) : Path := p ++ [segment].
Notation "p // s" := (path_div p s) (at level 40, left associativity).

Module PathOps.
Definition parent (p : Path) : Path := removelast p.

Fixpoint strip (base p : Path) : option Path :=
  match base with
  | [] => Some p
  | b :: base' =>
      match p with
      | [] => None
      | x :: p' => if String.eqb b x then strip base' p' else None
      end
  end.

Definition relative_to (p base : Path) : Result Path :=
  match strip base p with
  | Some rel => Ok rel
  | None => Raise (ValueError "path is not in the subpath of base")
  end.

Definition as_posix (p : Path) : string :=
  match p with
  | [] => "."
  | _ => Str.join "/" p
  end.
End PathOps.

(** What the program asks of the filesystem. [fs_iterdir] gives the names of
    the children of a directory, [fs_rglob] the paths below a directory whose
    last segment is the pattern; both may fail, as may reading a file. *)
Record FS : Type := {
  fs_rglob : Path -> string -> Result (list Path);
  fs_iterdir : Path -> Result (list string);
  fs_read_text : Path -> Result string;
  fs_read_bytes : Path -> Result string
}.

Inductive event : Type :=
| EvRglob (p : Path) (pattern : string)
| EvIterdir (p : Path)
| EvOpenText (p : Path)
| EvOpenBinary (p : Path)
| EvLogError (msg : string).

(** [clock] gives the successive readings of [time.time()], [ticks] counts
    the readings taken so far, [trace] records the filesystem accesses and
    the log lines in the order they happen. The two [load_ttl] are the class
    attributes [Registry.load_ttl] and [Repository.load_ttl]. *)
Record World : Type := mkWorld {
  fs : FS;
  clock : nat -> PyFloat.t;
  ticks : nat;
  trace : list event;
  registry_load_ttl : PyFloat.t;
  repository_load_ttl : PyFloat.t
}.

Definition world_emit (ev : event) (w : World) : World :=
  mkWorld (fs w) (clock w) (ticks w) (trace w ++ [ev])
          (registry_load_ttl w) (repository_load_ttl w).

(** several events at once *)
Definition world_log (evs : list event) (w : World) : World :=
  mkWorld (fs w) (clock w) (ticks w) (trace w ++ evs)
          (registry_load_ttl w) (repository_load_ttl w).

Definition world_tick (w : World) : World :=
  mkWorld (fs w) (clock w) (S (ticks w)) (trace w)
          (registry_load_ttl w) (repository_load_ttl w).

(** ** Programs: state of [self], the world, and exceptions *)

Definition M (S A : Type) : Type := S -> World -> Result A * S * World.

Module Prog.
Section Ops.
Context {S : Type}.

Definition ret {A} (a : A) : M S A := fun s w => (Ok a, s, w).

Definition bind {A B} (m : M S A) (f : A -> M S B) : M S B :=
  fun s w =>
    match m s w with
    | (Ok a, s', w') => f a s' w'
    | (Raise e, s', w') => (Raise e, s', w')
    end.

Definition raise {A} (e : exn) : M S A := fun s w => (Raise e, s, w).

Definition lift {A} (r : Result A) : M S A := fun s w => (r, s, w).

(** run [m] and hand its outcome, raised or not, to the handlers *)
Definition attempt {A} (m : M S A) : M S (Result A) :=
  fun s w => match m s w with (r, s', w') => (Ok r, s', w') end.

Definition get : M S S := fun s w => (Ok s, s, w).

Definition modify (f : S -> S) : M S unit := fun s w => (Ok tt, f s, w).

Definition ask {A} (f : World -> A) : M S A := fun s w => (Ok (f w), s, w).

Definition emit (ev : event) : M S unit :=
  fun s w => (Ok tt, s, world_emit ev w).

(** [time.time()] *)
Definition time_time : M S PyFloat.t :=
  fun s w => (Ok (clock w (ticks w)), s, world_tick w).

(** [logger.error(msg)] *)
Definition logger_error (msg : string) : M S unit := emit (EvLogError msg).

(** [list(path.iterdir())], as the names of the children *)
Definition iterdir (p : Path) : M S (list string) :=
  fun s w => (fs_iterdir (fs w) p, s, world_emit (EvIterdir p) w).

(** [list(path.rglob(pattern))] *)
Definition rglob (p : Path) (pattern : string) : M S (list Path) :=
  fun s w => (fs_rglob (fs w) p pattern, s, world_emit (EvRglob p pattern) w).

(** [with path.open('r') as f: f.read()] *)
Definition read_text (p : Path) : M S string :=
  fun s w => (fs_read_text (fs w) p, s, world_emit (EvOpenText p) w).

(** [with open(path, 'rb') as f: f.read()] *)
Definition read_bytes (p : Path) : M S string :=
  fun s w => (fs_read_bytes (fs w) p, s, world_emit (EvOpenBinary p) w).

(** [for x in l: body(x)] *)
Fixpoint for_each {A} (l : list A) (body : A -> M S unit) : M S unit :=
  match l with
  | [] => ret tt
  | x :: l' => bind (body x) (fun _ => for_each l' body)
  end.

(** [acc = []; for x in l: acc.append(body(x))] *)
Fixpoint for_collect {A B} (l : list A) (body : A -> M S B) : M S (list B) :=
  match l with
  | [] => ret []
  | x :: l' =>
      bind (body x) (fun y =>
      bind (for_collect l' body) (fun ys => ret (y :: ys)))
  end.
End Ops.
End Prog.

Declare Scope prog_scope.
Delimit Scope prog_scope with prog.
Notation "x <- c1 ;; c2" := (Prog.bind c1 (fun x => c2))
  (at level 100, c1 at next level, right associativity) : prog_scope.
Notation "c1 ;; c2" := (Prog.bind c1 (fun _ => c2))
  (at level 100, right associativity) : prog_scope.

(** The binary reads of a run, in order: the only place where blob content
    is read. *)
Definition blob_reads (tr : list event) : list Path :=
  omap (fun ev => match ev with EvOpenBinary p => Some p | _ => None end) tr.

(** The directory scans of a run. *)
Definition registry_scans (tr : list event) : list Path :=
  omap (fun ev => match ev with EvRglob p _ => Some p | _ => None end) tr.

Definition log_lines (tr : list event) : list string :=
  omap (fun ev => match ev with EvLogError msg => Some msg | _ => None end) tr.

(** ** Blob, Tag, Revision *)

Module Blob.
Record t : Type := mk {
  digest : string;
  content : string;
  last_load : Z
}.

Definition init (digest content : string) : Result t :=
  match OciDigest.Validator.validate digest with
  | Ok d => Ok (mk d content 0)
  | Raise _ => Raise (ValidationError "Blob")
  end.
End Blob.

Module Tag.
Record t : Type := mk {
  name : string;
  digest : string
}.

Definition init (name digest : string) : Result t :=
  match OciDigest.Validator.validate digest with
  | Ok d => Ok (mk name d)
  | Raise _ => Raise (ValidationError "Tag")
  end.
End Tag.

Module Revision.
Record t : Type := mk {
  digest : string;
  tags : list Tag.t
}.

Definition init (digest : string) : Result t :=
  match OciDigest.Validator.validate digest with
  | Ok d => Ok (mk d [])
  | Raise _ => Raise (ValidationError "Revision")
  end.

(** [self.tags.append(tag)] *)
Definition tags_append (tag : Tag.t) (self : t) : t :=
  mk (digest self) (tags self ++ [tag]).
End Revision.

(** ** Repository *)

Module Repository.
Record t : Type := mk {
  path : Path;
  name : string;
  cached_revisions : gmap string Revision.t;
  last_load : PyFloat.t
}.

(** [Repository(path=..., name=...)] *)
Definition init (path : Path) (name : string) : t :=
  mk path name ∅ PyFloat.zero.

Definition set_cached_revisions (revs : gmap string Revision.t) (self : t) : t :=
  mk (path self) (name self) revs (last_load self).

Definition set_last_load (now : PyFloat.t) (self : t) : t :=
  mk (path self) (name self) (cached_revisions self) now.

Definition revisions_path (self : t) : Path :=
  path self // "_manifests" // "revisions" // "sha256".

Definition tags_path (self : t) : Path :=
  path self // "_manifests" // "tags".

Local Open Scope prog_scope.

Definition hash_for_tag (tag : string) : M t OciDigest.t :=
  self <- Prog.get;;
  let path := tags_path self // tag // "current" // "link" in
  content <- Prog.read_text path;;
  Prog.lift (OciDigest.init content).

Definition load : M t unit :=
  self <- Prog.get;;
  let path := revisions_path self in
  Prog.modify (set_cached_revisions ∅);;
  children <- Prog.iterdir path;;
  Prog.for_each children (fun child =>
    digest <- Prog.lift (OciDigest.from_raw_digest OciDigest.SHA256 child);;
    revision <- Prog.lift (Revision.init (OciDigest.value digest));;
    Prog.modify (fun self =>
      set_cached_revisions
        (<[OciDigest.value digest := revision]> (cached_revisions self)) self));;
  let path := tags_path self in
  children <- Prog.iterdir path;;
  tags <- Prog.for_collect children (fun child =>
    digest <- hash_for_tag child;;
    Prog.lift (Tag.init child (OciDigest.value digest)));;
  Prog.for_each tags (fun tag =>
    self <- Prog.get;;
    match cached_revisions self !! Tag.digest tag with
    | None => Prog.raise (KeyError (Tag.digest tag))
    | Some revision =>
        Prog.modify (set_cached_revisions
          (<[Tag.digest tag := Revision.tags_append tag revision]>
             (cached_revisions self)))
    end);;
  now <- Prog.time_time;;
  Prog.modify (set_last_load now).

Definition revisions (self : t) : Result (list (OciDigest.t * Revision.t)) :=
  mapM_result
    (fun kv => rbind (OciDigest.init (fst kv)) (fun d => Ok (d, snd kv)))
    (map_to_list (cached_revisions self)).

Definition revision (self : t) (digest : OciDigest.t) : Result Revision.t :=
  match cached_revisions self !! OciDigest.value digest with
  | Some r => Ok r
  | None => Raise (HTTPException 404 "Revision not found")
  end.
End Repository.

(** ** Registry *)

(** What [manifest] returns: [OciImageManifest | OciImageIndex]. *)
Inductive Manifest : Type :=
| Image (m : OciImageManifest.t)
| Index (i : OciImageIndex.t).

(** [str(e)] as far as the log lines need it *)
Definition exn_str (e : exn) : string :=
  match e with
  | HTTPException _ detail => detail
  | ValidationError model => "validation error for " +:+ model
  | ValueError msg | KeyError msg | AttributeError msg | TypeError msg
  | JSONDecodeError msg
  | UnicodeDecodeError msg | FileNotFoundError msg | OSError msg => msg
  | IndexError => "list index out of range"
  end.

Module Registry.
Record t : Type := mk {
  root : Path;
  cached_repositories : gmap string Repository.t;
  last_load : PyFloat.t
}.

(** [Registry(root=...)] *)
Definition init (root : Path) : t := mk root ∅ PyFloat.zero.

Definition set_cached_repositories (repos : gmap string Repository.t) (self : t) : t :=
  mk (root self) repos (last_load self).

Definition set_last_load (now : PyFloat.t) (self : t) : t :=
  mk (root self) (cached_repositories self) now.

Definition base_v2_path (self : t) : Path :=
  root self // "docker" // "registry" // "v2".

Definition repositories_path (self : t) : Path :=
  base_v2_path self // "repositories".

Definition blobs_path (self : t) : Path :=
  base_v2_path self // "blobs".

Definition Algorithm_eqb (a b : OciDigest.Algorithm) : bool :=
  match a, b with
  | OciDigest.SHA256, OciDigest.SHA256 => true
  | OciDigest.SHA512, OciDigest.SHA512 => true
  | _, _ => false
  end.

Definition blob_path (self : t) (digest : OciDigest.t) : Result Path :=
  rbind (OciDigest.algorithm digest) (fun algorithm =>
  if negb (Algorithm_eqb algorithm OciDigest.SHA256)
  then Raise (HTTPException 500 "Invalid digest type")
  else
    rbind (OciDigest.encoded digest) (fun digest =>
    Ok (blobs_path self // "sha256" // Str.take 2 digest // digest // "data"))).

Local Open Scope prog_scope.

Definition load : M t unit :=
  self <- Prog.get;;
  let path := repositories_path self in
  Prog.modify (set_cached_repositories ∅);;
  found <- Prog.rglob path "_manifests";;
  Prog.for_each found (fun manifest_path =>
    let repo_path := PathOps.parent manifest_path in
    rel <- Prog.lift (PathOps.relative_to repo_path path);;
    let scoped_name := PathOps.as_posix rel in
    let repo := Repository.init repo_path scoped_name in
    Prog.modify (fun self =>
      set_cached_repositories
        (<[scoped_name := repo]> (cached_repositories self)) self));;
  now <- Prog.time_time;;
  Prog.modify (set_last_load now).

Definition repositories : M t (gmap string Repository.t) :=
  now <- Prog.time_time;;
  self <- Prog.get;;
  ttl <- Prog.ask registry_load_ttl;;
  (if PyFloat.gt now (PyFloat.add (last_load self) ttl)
   then load else Prog.ret tt);;
  self <- Prog.get;;
  Prog.ret (cached_repositories self).

(** Run a method of the repository object stored under [name]: the object
    is shared with [cached_repositories], so what the method does to it is
    seen there, also when the method raises. *)
Definition on_repository {A} (name : string) (repository : Repository.t)
    (m : M Repository.t A) : M t (A * Repository.t) :=
  fun self w =>
    match m repository w with
    | (r, repository', w') =>
        (match r with Ok a => Ok (a, repository') | Raise e => Raise e end,
         set_cached_repositories
           (<[name := repository']> (cached_repositories self)) self,
         w')
    end.

Definition repository (name : string) : M t Repository.t :=
  repositories <- repositories;;
  match repositories !! name with
  | None => Prog.raise (HTTPException 404 "Repository not found")
  | Some repository =>
      now <- Prog.time_time;;
      ttl <- Prog.ask repository_load_ttl;;
      if PyFloat.gt now (PyFloat.add (Repository.last_load repository) ttl)
      then
        r <- on_repository name repository Repository.load;;
        Prog.ret (snd r)
      else Prog.ret repository
  end.

Definition blob (digest : OciDigest.t) : M t Blob.t :=
  self <- Prog.get;;
  path <- Prog.lift (blob_path self digest);;
  r <- Prog.attempt (Prog.read_bytes path);;
  match r with
  | Ok content => Prog.lift (Blob.init (OciDigest.value digest) content)
  | Raise (FileNotFoundError _) =>
      Prog.raise (HTTPException 404 "Blob not found")
  | Raise (OSError e) =>
      Prog.logger_error
        ("Failed to read blob " +:+ OciDigest.value digest +:+ ": " +:+ e);;
      Prog.raise (HTTPException 500 "Internal Server Error (Blob)")
  | Raise e => Prog.raise e
  end.

Section Resolve.
Context {J : JsonLib} {P : Pydantic}.

Definition manifest (repository : string) (digest : OciDigest.t) : M t Manifest :=
  repository <- Registry.repository repository;;
  revision <- Prog.lift (Repository.revision repository digest);;
  digest <- Prog.lift (OciDigest.init (Revision.digest revision));;
  blob <- blob digest;;
  (* Manifests are JSON-blobs *)
  match json_loads (Blob.content blob) with
  | Raise (JSONDecodeError e) =>
      Prog.logger_error
        ("Failed to parse manifest " +:+ Revision.digest revision +:+ ": " +:+ e);;
      Prog.raise (HTTPException 500 "Internal Server Error (JSON-blob)")
  | Raise e => Prog.raise e
  | Ok data =>
      (* handle different types of OCI images *)
      match data with
      | JObj data =>
          if json_eq_str (dict_get "mediaType" data) OciMediaType.oci_image_index
          then
            match OciImageIndex.init data with
            | Ok i => Prog.ret (Index i)
            | Raise (ValidationError m) =>
                Prog.logger_error (exn_str (ValidationError m));;
                Prog.raise (HTTPException 500 "Internal Server Error (OciImageIndex)")
            | Raise e => Prog.raise e
            end
          else if json_eq_str (dict_get "mediaType" data) OciMediaType.oci_image_manifest
          then
            match OciImageManifest.init data with
            | Ok m => Prog.ret (Image m)
            | Raise (ValidationError m) =>
                Prog.logger_error (exn_str (ValidationError m));;
                Prog.raise (HTTPException 500 "Internal Server Error (OciImageManifest)")
            | Raise e => Prog.raise e
            end
          else Prog.raise (HTTPException 500 "Internal Server Error (MediaType)")
      | _ =>
          (* [data.get] on a value that is not a dict *)
          Prog.raise (AttributeError "object has no attribute 'get'")
      end
  end.

Definition config (digest : OciDigest.t) : M t OciImageConfig.t :=
  blob <- blob digest;;
  match json_loads (Blob.content blob) with
  | Raise (JSONDecodeError e) =>
      Prog.logger_error
        ("Failed to parse config " +:+ OciDigest.value digest +:+ ": " +:+ e);;
      Prog.raise (HTTPException 500 "Internal Server Error (JSON-blob)")
  | Raise e => Prog.raise e
  | Ok data =>
      match data with
      | JObj data => Prog.lift (OciImageConfig.init data)
      | _ =>
          (* [**data] on a value that is not a mapping *)
          Prog.raise (TypeError "argument after ** must be a mapping")
      end
  end.
End Resolve.
End Registry.

(** ** The digest format, as the specification words it *)

Module DigestFormat.

(** a lowercase hexadecimal character *)
Definition lower_hex (c : ascii) : bool :=
  match c with
  | "0" | "1" | "2" | "3" | "4" | "5" | "6" | "7" | "8" | "9"
  | "a" | "b" | "c" | "d" | "e" | "f" => true
  | _ => false
  end%char.

(** [prefix] followed by exactly [n] lowercase hex characters *)
Definition form (prefix : string) (n : nat) (s : string) : Prop :=
  exists h, s = prefix +:+ h /\ String.length h = n /\ Str.all lower_hex h = true.

(** 'sha256:' + 64 lowercase hex chars, or 'sha512:' + 128 lowercase hex
    chars *)
Definition well_formed (s : string) : Prop :=
  form "sha256:" 64 s \/ form "sha512:" 128 s.

Definition sha256_of_a : string :=
  "sha256:aaaaaaaaaaaaaaaaaaaaaaaaaaaaaaaaaaaaaaaaaaaaaaaaaaaaaaaaaaaaaaaa".

Definition hex_of_a : string :=
  "aaaaaaaaaaaaaaaaaaaaaaaaaaaaaaaaaaaaaaaaaaaaaaaaaaaaaaaaaaaaaaaa".

Definition sha512_of_b : string :=
  "sha512:bbbbbbbbbbbbbbbbbbbbbbbbbbbbbbbbbbbbbbbbbbbbbbbbbbbbbbbbbbbbbbbbbbbbbbbbbbbbbbbbbbbbbbbbbbbbbbbbbbbbbbbbbbbbbbbbbbbbbbbbbbbbbbbb".

End DigestFormat.

(** ** What a run may do to the world *)

(** [steps P w w']: from [w] to [w'] nothing changes but the clock readings
    taken and the trace, which grows by events that satisfy [P]. *)
Definition steps (P : event -> Prop) (w w' : World) : Prop :=
  fs w' = fs w
  /\ clock w' = clock w
  /\ registry_load_ttl w' = registry_load_ttl w
  /\ repository_load_ttl w' = repository_load_ttl w
  /\ (ticks w <= ticks w')%nat
  /\ exists evs, trace w' = trace w ++ evs /\ Forall P evs.

(** a program all of whose runs, completed or not, are [steps P] *)
Definition emits {S A} (P : event -> Prop) (m : M S A) : Prop :=
  forall s w, steps P w (m s w).2.

(** the events of [Repository.load] *)
Definition repository_event (ev : event) : Prop :=
  match ev with
  | EvIterdir _ | EvOpenText _ => True
  | _ => False
  end.

(** the events of [Registry.load] *)
Definition registry_event (ev : event) : Prop :=
  match ev with
  | EvRglob _ _ => True
  | _ => False
  end.

(** the events of [Registry.repository] *)
Definition cache_event (ev : event) : Prop :=
  repository_event ev \/ registry_event ev.

(** ** The on-disk layout of a repository, as the specification words it *)

Module RepositoryLayout.

(** the digest string of the revision stored in directory [child] of
    revisions/sha256 *)
Definition key (child : string) : string := "sha256:" +:+ child.

(** a revision entry without tags for directory [child] *)
Definition add_revision (m : gmap string Revision.t) (child : string)
    : gmap string Revision.t :=
  <[key child := Revision.mk (key child) []]> m.

(** tags/<tagName>/current/link *)
Definition link (self : Repository.t) (tag : string) : Path :=
  Repository.tags_path self // tag // "current" // "link".

(** the tags among [tags] that point at digest [k], in order *)
Definition tags_of (k : string) (tags : list Tag.t) : list Tag.t :=
  filter (fun t => Tag.digest t = k) tags.

(** the revision entry for key [k] once the tags of [tags] are linked *)
Definition linked (tags : list Tag.t) (k : string) (r : Revision.t) : Revision.t :=
  Revision.mk (Revision.digest r) (Revision.tags r ++ tags_of k tags).

End RepositoryLayout.

(** ** Derived size, as the specification words it *)

(** sum(layer.size for layer in layers) *)
Definition sum_sizes (layers : list OciContentDescriptor.t) : Z :=
  foldr (fun layer acc => OciContentDescriptor.size layer + acc) 0 layers.

(** ** Sample documents *)

Module Samples.

Definition descriptor_doc (mediaType digest : string) (size : Z) : json :=
  JObj [("mediaType", JStr mediaType); ("digest", JStr digest); ("size", JInt size)].

Definition layer_doc (size : Z) : json :=
  descriptor_doc OciMediaType.oci_layer_tar_gz DigestFormat.sha256_of_a size.

(** an image manifest: config of size 100, layers of sizes 50 and 75 *)
Definition manifest_members (schemaVersion : Z) : list (string * json) :=
  [("schemaVersion", JInt schemaVersion);
   ("mediaType", JStr OciMediaType.oci_image_manifest);
   ("config", descriptor_doc OciMediaType.oci_image_config
                DigestFormat.sha256_of_a 100);
   ("layers", JArr [layer_doc 50; layer_doc 75])].

Definition index_members (schemaVersion : Z) : list (string * json) :=
  [("schemaVersion", JInt schemaVersion);
   ("mediaType", JStr OciMediaType.oci_image_index);
   ("manifests", JArr [descriptor_doc OciMediaType.oci_image_manifest
                         DigestFormat.sha256_of_a 7])].

(** an image config that (needlessly) carries a schemaVersion of 3 *)
Definition config_members_v3 : list (string * json) :=
  [("schemaVersion", JInt 3);
   ("architecture", JStr "amd64");
   ("os", JStr "linux");
   ("rootfs", JObj [("type", JStr "layers"); ("diff_ids", JArr [])])].

Definition hex_of_c : string :=
  "cccccccccccccccccccccccccccccccccccccccccccccccccccccccccccccccc".
Definition hex_of_d : string :=
  "dddddddddddddddddddddddddddddddddddddddddddddddddddddddddddddddd".
Definition hex_of_e : string :=
  "eeeeeeeeeeeeeeeeeeeeeeeeeeeeeeeeeeeeeeeeeeeeeeeeeeeeeeeeeeeeeeee".
Definition hex_of_f : string :=
  "ffffffffffffffffffffffffffffffffffffffffffffffffffffffffffffffff".

(** [json.dumps] without whitespace, for strings that need no escape *)
Definition quoted (s : string) : string :=
  String "034"%char (s +:+ String "034"%char EmptyString).

Fixpoint dumps (v : json) : string :=
  match v with
  | JNull => "null"
  | JBool true => "true"
  | JBool false => "false"
  | JInt z => Z_to_string z
  | JFloat literal => literal
  | JStr s => quoted s
  | JArr items =>
      "[" +:+ (fix go (l : list json) : string :=
                 match l with
                 | [] => EmptyString
                 | x :: l' =>
                     dumps x +:+ match l' with [] => EmptyString | _ => "," +:+ go l' end
                 end) items +:+ "]"
  | JObj members =>
      "{" +:+ (fix go (l : list (string * json)) : string :=
                 match l with
                 | [] => EmptyString
                 | (k, x) :: l' =>
                     quoted k +:+ ":" +:+ dumps x
                     +:+ match l' with [] => EmptyString | _ => "," +:+ go l' end
                 end) members +:+ "}"
  end.

(** the documents stored in the sample registry *)
Definition known_documents : list json :=
  [JObj (manifest_members 2); JObj (index_members 2); JObj config_members_v3;
   JArr []; JObj []].

(** a [json.loads] that parses the stored documents and rejects everything
    else *)
Definition sample_json : JsonLib := {|
  json_loads := fun s =>
    match find (fun d => String.eqb (dumps d) s) known_documents with
    | Some d => Ok d
    | None => Raise (JSONDecodeError "Expecting value")
    end
|}.

Fixpoint path_eqb (p q : Path) : bool :=
  match p, q with
  | [], [] => true
  | a :: p', b :: q' => String.eqb a b && path_eqb p' q'
  | _, _ => false
  end.

Definition root : Path := ["srv"].

Definition sample_registry : Registry.t := Registry.init root.

Definition app_path : Path := Registry.repositories_path sample_registry // "app".

Definition app : Repository.t := Repository.init app_path "app".

Definition blob_file (hex : string) : Path :=
  Registry.blobs_path sample_registry // "sha256" // Str.take 2 hex // hex // "data".

Definition no_such_file {A} : Result A :=
  Raise (FileNotFoundError "No such file or directory").

(** One repository, app, with four revisions and the tag v1 on the
    first one. The blobs: a manifest, a JSON array, an empty JSON object,
    text that is not JSON, and one whose data is a directory. *)
Definition sample_fs : FS := {|
  fs_rglob := fun p pattern =>
    if path_eqb p (Registry.repositories_path sample_registry)
       && String.eqb pattern "_manifests"
    then Ok [app_path // "_manifests"] else Ok [];
  fs_iterdir := fun p =>
    if path_eqb p (Repository.revisions_path app)
    then Ok [DigestFormat.hex_of_a; hex_of_c; hex_of_d; hex_of_f]
    else if path_eqb p (Repository.tags_path app) then Ok ["v1"]
    else no_such_file;
  fs_read_text := fun p =>
    if path_eqb p (RepositoryLayout.link app "v1")
    then Ok DigestFormat.sha256_of_a else no_such_file;
  fs_read_bytes := fun p =>
    if path_eqb p (blob_file DigestFormat.hex_of_a)
    then Ok (dumps (JObj (manifest_members 2)))
    else if path_eqb p (blob_file hex_of_c) then Ok "[]"
    else if path_eqb p (blob_file hex_of_e) then Ok "{}"
    else if path_eqb p (blob_file hex_of_f) then Ok "not json"
    else if path_eqb p (blob_file hex_of_d)
    then Raise (OSError "[Errno 21] Is a directory")
    else no_such_file
|}.

Definition sample_world : World :=
  mkWorld sample_fs (fun n => PyFloat.of_Z (1000 + Z.of_nat n)) 0 []
    (PyFloat.of_Z 3) (PyFloat.of_Z 3).

Definition digest_of (hex : string) : OciDigest.t :=
  OciDigest.mk ("sha256:" +:+ hex).

End Samples.

(** ** The request handlers *)

Module Routes.

(** {'tags': [...]} *)
Record RevisionTags : Type := mkTags { tags : list string }.

(** {'revisions': {digest: {'tags': [...]}}} *)
Record RepositoryResponse : Type := mkRepositoryResponse {
  revisions : gmap string RevisionTags
}.

Record IndexEntry : Type := mkIndexEntry {
  entry_digest : string;
  entry_platform : string
}.

Record LayerEntry : Type := mkLayerEntry {
  media_type : string;
  layer_digest : string;
  layer_size : Z
}.

Record Metadata : Type := mkMetadata {
  created : option string;
  author : option string;
  size : Z;
  annotations : list (string * string)
}.

Record Configuration : Type := mkConfiguration {
  environment : option (list string);
  entrypoint : option (list string);
  command : option (list string);
  working_directory : option string
}.

Inductive RevisionResponse : Type :=
| IndexResponse (manifests : list IndexEntry)
| ImageResponse (metadata : Metadata) (configuration : Configuration)
    (layers : list LayerEntry).

(** one element of the comprehension over [manifest.manifests]: the digest
    is validated first, then the platform is formatted *)
Definition index_entry (m : OciContentDescriptor.t) : Result IndexEntry :=
  rbind (OciDigest.init (OciContentDescriptor.digest m)) (fun d =>
  match OciContentDescriptor.platform m with
  | None => Raise (AttributeError "'NoneType' object has no attribute 'os'")
  | Some platform =>
      Ok (mkIndexEntry (OciDigest.value d)
            (OciPlatform.os platform +:+ "-" +:+ OciPlatform.architecture platform))
  end).

Definition layer_entry (layer : OciContentDescriptor.t) : LayerEntry :=
  mkLayerEntry (OciContentDescriptor.mediaType layer)
    (OciContentDescriptor.digest layer) (OciContentDescriptor.size layer).

(** the dict comprehension of [read_repository]: a later item with the same
    key replaces an earlier one *)
Definition revisions_dict (items : list (OciDigest.t * Revision.t))
    : gmap string RevisionTags :=
  foldl (fun acc item =>
           <[OciDigest.value item.1 :=
               mkTags (map Tag.name (Revision.tags item.2))]> acc)
        ∅ items.

Section Handlers.
Context {J : JsonLib} {P : Pydantic}.

Local Open Scope prog_scope.

(** GET /repositories/{full_name:path}, on [app.state.registry] *)
Definition read_repository (full_name : string) : M Registry.t RepositoryResponse :=
  repository <- Registry.repository full_name;;
  items <- Prog.lift (Repository.revisions repository);;
  Prog.ret (mkRepositoryResponse (revisions_dict items)).

(** GET /revisions/{revision}/repository/{full_name:path} *)
Definition read_revision (revision full_name : string) : M Registry.t RevisionResponse :=
  digest <- Prog.lift (OciDigest.init revision);;
  manifest <- Registry.manifest full_name digest;;
  match manifest with
  | Index manifest =>
      entries <- Prog.lift
                   (mapM_result index_entry (OciImageIndex.manifests manifest));;
      Prog.ret (IndexResponse entries)
  | Image manifest =>
      digest <- Prog.lift
                  (OciDigest.init
                     (OciContentDescriptor.digest (OciImageManifest.config manifest)));;
      config <- Registry.config digest;;
      match OciImageConfig.config config with
      | None =>
          Prog.raise (AttributeError "'NoneType' object has no attribute 'Env'")
      | Some c =>
          Prog.ret
            (ImageResponse
               (mkMetadata (OciImageConfig.created config)
                  (OciImageConfig.author config)
                  (OciImageManifest.size manifest)
                  (OciImageManifest.annotations manifest))
               (mkConfiguration (OciImageConfig.Config.Env c)
                  (OciImageConfig.Config.Entrypoint c)
                  (OciImageConfig.Config.Cmd c)
                  (OciImageConfig.Config.WorkingDir c))
               (map layer_entry (OciImageManifest.layers manifest)))
      end
  end.

End Handlers.
End Routes.

(** ** Invariants of the caches *)

(** [ensures I J m]: started in a state that satisfies [I], a run of [m] that
    raises leaves a state that satisfies [I], and a run that completes one
    that satisfies [J]. *)
Definition ensures {S A} (I J : S -> Prop) (m : M S A) : Prop :=
  forall s w,
    I s ->
    match m s w with
    | (Ok _, s', _) => J s'
    | (Raise _, s', _) => I s'
    end.

(** Every cached revision is stored under its own digest, a well-formed
    one, and every tag in its list points at it. *)
Definition revisions_consistent (m : gmap string Revision.t) : Prop :=
  forall k rev,
    m !! k = Some rev ->
    DigestFormat.well_formed k
    /\ Revision.digest rev = k
    /\ Forall (fun t => Tag.digest t = k) (Revision.tags rev).

(** Every cached repository is stored under its own name and its revision
    cache is consistent. *)
Definition registry_consistent (reg : Registry.t) : Prop :=
  forall name repo,
    Registry.cached_repositories reg !! name = Some repo ->
    Repository.name repo = name
    /\ revisions_consistent (Repository.cached_revisions repo).

(** the first tag of [tags] whose digest is not among [keys] *)
Definition first_orphan (keys : list string) (tags : list Tag.t) : option Tag.t :=
  List.find (fun t => negb (bool_decide (Tag.digest t ∈ keys))) tags.

(** ** A second sample registry *)

Module Samples2.

Fixpoint replicate (n : nat) (c : ascii) : string :=
  match n with
  | O => EmptyString
  | S n' => String c (replicate n' c)
  end.

Definition hex64 (c : ascii) : string := replicate 64 c.

Definition sha (c : ascii) : string := "sha256:" +:+ hex64 c.

Definition image_members (config_digest : string) : list (string * json) :=
  [("schemaVersion", JInt 2);
   ("mediaType", JStr OciMediaType.oci_image_manifest);
   ("config", Samples.descriptor_doc OciMediaType.oci_image_config config_digest 100);
   ("layers", JArr [Samples.layer_doc 50; Samples.layer_doc 75])].

Definition runtime_members : list (string * json) :=
  [("Env", JArr [JStr "PATH=/usr/bin"]);
   ("Entrypoint", JArr [JStr "/app"]);
   ("Cmd", JArr [JStr "serve"]);
   ("WorkingDir", JStr "/srv")].

Definition config_members (runtime : option (list (string * json)))
    : list (string * json) :=
  [("architecture", JStr "amd64");
   ("os", JStr "linux");
   ("rootfs", JObj [("type", JStr "layers"); ("diff_ids", JArr [])]);
   ("author", JStr "someone")]
  ++ match runtime with
     | Some members => [("config", JObj members)]
     | None => []
     end.

Definition platform_doc : json :=
  JObj [("architecture", JStr "amd64"); ("os", JStr "linux")].

Definition index_members (platform : option json) : list (string * json) :=
  [("schemaVersion", JInt 2);
   ("mediaType", JStr OciMediaType.oci_image_index);
   ("manifests",
    JArr [JObj ([("mediaType", JStr OciMediaType.oci_image_manifest);
                 ("digest", JStr (sha "a"));
                 ("size", JInt 7)]
                ++ match platform with
                   | Some p => [("platform", p)]
                   | None => []
                   end)])].

Definition known_documents : list json :=
  [JObj (image_members (sha "e")); JObj (image_members (sha "1"));
   JObj (config_members (Some runtime_members)); JObj (config_members None);
   JObj (index_members (Some platform_doc)); JObj (index_members None)].

Definition sample_json : JsonLib := {|
  json_loads := fun s =>
    match find (fun d => String.eqb (Samples.dumps d) s) known_documents with
    | Some d => Ok d
    | None => Raise (JSONDecodeError "Expecting value")
    end
|}.

Definition sample_registry : Registry.t := Registry.init ["srv"].

Definition repos : Path := Registry.repositories_path sample_registry.

Definition app : Repository.t :=
  Repository.init (repos // "library" // "app") "library/app".

Definition orphan : Repository.t := Repository.init (repos // "orphan") "orphan".

Definition newline : Repository.t := Repository.init (repos // "newline") "newline".

Definition blob_file (c : ascii) : Path :=
  Registry.blobs_path sample_registry // "sha256" // Str.take 2 (hex64 c)
  // hex64 c // "data".

(** Three repositories: library/app with four revisions and the tag latest;
    orphan, whose tag stale points at a digest that is not one of its
    revisions; newline, whose link file ends with a line feed. *)
Definition sample_fs : FS := {|
  fs_rglob := fun p pattern =>
    if Samples.path_eqb p repos && String.eqb pattern "_manifests"
    then Ok [repos // "library" // "app" // "_manifests";
             repos // "orphan" // "_manifests";
             repos // "newline" // "_manifests"]
    else Ok [];
  fs_iterdir := fun p =>
    if Samples.path_eqb p (Repository.revisions_path app)
    then Ok [hex64 "a"; hex64 "b"; hex64 "c"; hex64 "d"]
    else if Samples.path_eqb p (Repository.tags_path app) then Ok ["latest"]
    else if Samples.path_eqb p (Repository.revisions_path orphan)
    then Ok [hex64 "a"]
    else if Samples.path_eqb p (Repository.tags_path orphan) then Ok ["stale"]
    else if Samples.path_eqb p (Repository.revisions_path newline)
    then Ok [hex64 "a"]
    else if Samples.path_eqb p (Repository.tags_path newline) then Ok ["v1"]
    else Samples.no_such_file;
  fs_read_text := fun p =>
    if Samples.path_eqb p (RepositoryLayout.link app "latest") then Ok (sha "a")
    else if Samples.path_eqb p (RepositoryLayout.link orphan "stale")
    then Ok (sha "f")
    else if Samples.path_eqb p (RepositoryLayout.link newline "v1")
    then Ok (sha "a" +:+ String "010"%char EmptyString)
    else Samples.no_such_file;
  fs_read_bytes := fun p =>
    if Samples.path_eqb p (blob_file "a")
    then Ok (Samples.dumps (JObj (image_members (sha "e"))))
    else if Samples.path_eqb p (blob_file "b")
    then Ok (Samples.dumps (JObj (image_members (sha "1"))))
    else if Samples.path_eqb p (blob_file "c")
    then Ok (Samples.dumps (JObj (index_members (Some platform_doc))))
    else if Samples.path_eqb p (blob_file "d")
    then Ok (Samples.dumps (JObj (index_members None)))
    else if Samples.path_eqb p (blob_file "e")
    then Ok (Samples.dumps (JObj (config_members (Some runtime_members))))
    else if Samples.path_eqb p (blob_file "1")
    then Ok (Samples.dumps (JObj (config_members None)))
    else Samples.no_such_file
|}.

Definition sample_world : World :=
  mkWorld sample_fs (fun n => PyFloat.of_Z (1000 + Z.of_nat n)) 0 []
    (PyFloat.of_Z 3) (PyFloat.of_Z 3).

(** the sample world with a registry TTL of 100 and a repository TTL of 3 *)
Definition slow_scan_world : World :=
  mkWorld sample_fs (fun n => PyFloat.of_Z (1000 + Z.of_nat n)) 0 []
    (PyFloat.of_Z 100) (PyFloat.of_Z 3).

(** a clock that reads 1000, then 2**53, then 2**53 + 4 ever after, with
    TTLs of 3: the float sum 2**53 + 3 is 2**53 + 4 *)
Definition rounding_world : World :=
  mkWorld sample_fs
    (fun n =>
       match n with
       | O => PyFloat.of_Z 1000
       | S O => PyFloat.of_Z (2 ^ 53)
       | _ => PyFloat.of_Z (2 ^ 53 + 4)
       end) 0 [] (PyFloat.of_Z 3) (PyFloat.of_Z 3).

Definition digest_of (c : ascii) : OciDigest.t := OciDigest.mk (sha c).

Definition digest_a : OciDigest.t := digest_of "a".

End Samples2.

(** ** States of a reload *)

(** What holds of a repository while [load] runs, after the cache has been
    cleared: path, name and load time are those of the start, and the cache
    is consistent. *)
Definition loading (p : Path) (n : string) (t : PyFloat.t)
    (s : Repository.t) : Prop :=
  Repository.path s = p /\ Repository.name s = n /\ Repository.last_load s = t
  /\ revisions_consistent (Repository.cached_revisions s).

Definition loaded (p : Path) (n : string) (s : Repository.t) : Prop :=
  Repository.path s = p /\ Repository.name s = n
  /\ revisions_consistent (Repository.cached_revisions s).

(** ** The registry scan, as a fold over what [rglob] found *)

Module RegistryLayout.

(** the entry a found [_manifests] path adds to the cache *)
Definition add_repository (path : Path) (m : gmap string Repository.t)
    (manifest_path : Path) : gmap string Repository.t :=
  match PathOps.relative_to (PathOps.parent manifest_path) path with
  | Ok rel =>
      <[PathOps.as_posix rel :=
          Repository.init (PathOps.parent manifest_path) (PathOps.as_posix rel)]> m
  | Raise _ => m
  end.

(** a repository as the scan creates it: nothing cached, never loaded *)
Definition fresh (name : string) (repo : Repository.t) : Prop :=
  exists path, repo = Repository.init path name.

Definition all_fresh (m : gmap string Repository.t) : Prop :=
  forall name repo, m !! name = Some repo -> fresh name repo.

End RegistryLayout.

(** ** The responses, entry by entry *)

Module ResponseLayout.

(** the entry of a revision in the response of [read_repository] *)
Definition tags_entry (rev : Revision.t) : Routes.RevisionTags :=
  Routes.mkTags (map Tag.name (Revision.tags rev)).

(** one entry of the index response *)
Definition listed (m : OciContentDescriptor.t) (e : Routes.IndexEntry) : Prop :=
  Routes.entry_digest e = OciContentDescriptor.digest m
  /\ exists p,
      OciContentDescriptor.platform m = Some p
      /\ Routes.entry_platform e
         = OciPlatform.os p +:+ "-" +:+ OciPlatform.architecture p.

End ResponseLayout.

(** ** Link files *)

Module LinkLayout.

(** the links of [tagnames] are readable and hold well-formed digests *)
Definition good_links (f : FS) (self : Repository.t)
    (tagnames contents : list string) : Prop :=
  Forall2 (fun n c => fs_read_text f (RepositoryLayout.link self n) = Ok c
                      /\ DigestFormat.well_formed c) tagnames contents.

End LinkLayout.

(** * Properties *)

(** ** Strings and the matcher *)

Module StrFacts.

Lemma append_nil_r (s : string) : s +:+ EmptyString = s.
Proof. induction s as [|c s IH]; simpl; [reflexivity | now rewrite IH]. Qed.

Lemma append_assoc (a b c : string) : (a +:+ b) +:+ c = a +:+ (b +:+ c).
Proof. induction a as [|x a IH]; simpl; [reflexivity | now rewrite IH]. Qed.

Lemma length_append (a b : string) :
  String.length (a +:+ b) = (String.length a + String.length b)%nat.
Proof. induction a as [|x a IH]; simpl; [reflexivity | now rewrite IH]. Qed.

Lemma append_inv_l (a b c : string) : a +:+ b = a +:+ c -> b = c.
Proof. induction a as [|x a IH]; simpl; intros H; [assumption | injection H; auto]. Qed.

Lemma strip_prefix_spec (p s rest : string) :
  Str.strip_prefix p s = Some rest <-> s = p +:+ rest.
Proof.
  revert s; induction p as [|a p IH]; intros s; simpl.
  - split; intros H; [now injection H | now subst].
  - destruct s as [|b s].
    + split; intros H; discriminate.
    + destruct (Ascii.eqb_spec a b) as [->|Hne].
      * rewrite IH. split; intros H; [now subst | now injection H].
      * split; intros H; [discriminate | injection H; intros; now subst].
Qed.

Lemma split_no_sep (sep : ascii) (s : string) :
  Str.all (fun c => negb (Ascii.eqb c sep)) s = true ->
  Str.split sep s = [s].
Proof.
  induction s as [|c s IH]; simpl; [reflexivity|].
  intros H. apply andb_prop in H as [Hc Hs].
  apply negb_true_iff in Hc. rewrite Hc, (IH Hs). reflexivity.
Qed.

Lemma split_append (sep : ascii) (a b : string) :
  Str.all (fun c => negb (Ascii.eqb c sep)) a = true ->
  Str.split sep (a +:+ String sep b) = a :: Str.split sep b.
Proof.
  induction a as [|c a IH]; simpl.
  - intros _. now rewrite Ascii.eqb_refl.
  - intros H. apply andb_prop in H as [Hc Ha].
    apply negb_true_iff in Hc. rewrite Hc, (IH Ha). reflexivity.
Qed.

End StrFacts.

Module ReFacts.
Import Re StrFacts.

(** The matcher accepts exactly what the regex denotes. *)
Lemma run_den (r : regex) :
  forall pos s k,
    run r pos s k = true <->
    exists w rest, s = w +:+ rest /\ den r pos w rest
                   /\ k (pos + String.length w)%nat rest = true.
Proof.
  induction r as [l | ranges | r1 IH1 r2 IH2 | r1 IH1 r2 IH2 | n r IH | | ];
    intros pos s k.
  - (* Lit *)
    simpl. destruct (Str.strip_prefix l s) as [rest|] eqn:E.
    + apply strip_prefix_spec in E. split.
      * intros Hk. exists l, rest. auto.
      * intros (w & rest' & Hs & -> & Hk). subst s.
        apply append_inv_l in Hs. now subst.
    + split; [discriminate|].
      intros (w & rest & Hs & -> & _).
      apply strip_prefix_spec in Hs. congruence.
  - (* Class *)
    simpl. destruct s as [|c s].
    + split; [discriminate|].
      intros (w & rest & Hs & (c & -> & _) & _). discriminate.
    + split.
      * destruct (in_class ranges c) eqn:E; [|discriminate].
        intros Hk. exists (String c EmptyString), s.
        split; [reflexivity|]. split; [eauto|].
        simpl. now replace (pos + 1)%nat with (S pos) by lia.
      * intros (w & rest & Hs & (c' & -> & Hc) & Hk).
        simpl in Hs. injection Hs as -> ->. rewrite Hc.
        simpl in Hk. now replace (pos + 1)%nat with (S pos) in Hk by lia.
  - (* Seq *)
    simpl. rewrite IH1. split.
    + intros (w1 & rest1 & -> & H1 & H2). apply IH2 in H2.
      destruct H2 as (w2 & rest & -> & H2 & Hk).
      exists (w1 +:+ w2), rest. rewrite append_assoc. split; [reflexivity|].
      split; [exists w1, w2; auto|].
      now rewrite length_append, Nat.add_assoc.
    + intros (w & rest & -> & (w1 & w2 & -> & H1 & H2) & Hk).
      exists w1, (w2 +:+ rest). rewrite append_assoc. split; [reflexivity|].
      split; [assumption|]. apply IH2. exists w2, rest.
      rewrite length_append, Nat.add_assoc in Hk. auto.
  - (* Alt *)
    simpl. rewrite orb_true_iff, IH1, IH2. split.
    + intros [(w & rest & ? & ? & ?)|(w & rest & ? & ? & ?)];
        exists w, rest; auto.
    + intros (w & rest & ? & [?|?] & ?); [left|right]; exists w, rest; auto.
  - (* Rep *)
    simpl. revert pos s. induction n as [|n IHn]; intros pos s.
    + split.
      * intros Hk. exists EmptyString, s. simpl. now rewrite Nat.add_0_r.
      * intros (w & rest & -> & -> & Hk). simpl in *. now rewrite Nat.add_0_r in Hk.
    + rewrite IH. split.
      * intros (w1 & rest1 & -> & H1 & H2). apply IHn in H2.
        destruct H2 as (w2 & rest & -> & H2 & Hk).
        exists (w1 +:+ w2), rest. rewrite append_assoc. split; [reflexivity|].
        split; [exists w1, w2; auto|].
        now rewrite length_append, Nat.add_assoc.
      * intros (w & rest & -> & (w1 & w2 & -> & H1 & H2) & Hk).
        exists w1, (w2 +:+ rest). rewrite append_assoc. split; [reflexivity|].
        split; [assumption|]. apply IHn. exists w2, rest.
        rewrite length_append, Nat.add_assoc in Hk. auto.
  - (* Bol *)
    simpl. destruct (Nat.eqb_spec pos 0) as [->|Hne].
    + split.
      * intros Hk. exists EmptyString, s. auto.
      * intros (w & rest & -> & (-> & _) & Hk). exact Hk.
    + split; [discriminate|]. intros (w & rest & _ & (_ & ?) & _). contradiction.
  - (* Eol *)
    simpl. destruct (at_eol s) eqn:E.
    + split.
      * intros Hk. exists EmptyString, s. simpl. now rewrite Nat.add_0_r.
      * intros (w & rest & -> & (-> & _) & Hk). simpl in *.
        now rewrite Nat.add_0_r in Hk.
    + split; [discriminate|].
      intros (w & rest & -> & (-> & He) & _). simpl in E. congruence.
Qed.

(** [c{n}] for a character class consumes exactly [n] characters of the
    class. *)
Lemma den_rep_class (ranges : list (ascii * ascii)) (rest : string) (n : nat) :
  forall pos w,
    den (Rep n (Class ranges)) pos w rest <->
    String.length w = n /\ Str.all (in_class ranges) w = true.
Proof.
  induction n as [|n IH]; intros pos w.
  - simpl. split.
    + intros ->. auto.
    + intros [H _]. now destruct w.
  - change (den (Rep (S n) (Class ranges)) pos w rest) with
      (exists w1 w2, w = w1 +:+ w2
         /\ den (Class ranges) pos w1 (w2 +:+ rest)
         /\ den (Rep n (Class ranges)) (pos + String.length w1)%nat w2 rest).
    split.
    + intros (w1 & w2 & -> & (c & -> & Hc) & H2). apply IH in H2 as [Hl Ha].
      simpl. rewrite Hc, Hl, Ha. auto.
    + intros [Hl Ha]. destruct w as [|c w]; [discriminate|].
      simpl in Hl, Ha. apply andb_prop in Ha as [Hc Ha].
      exists (String c EmptyString), w. split; [reflexivity|].
      split; [simpl; eauto|]. apply IH. split; [lia | assumption].
Qed.

Lemma fullmatch_den (r : regex) (s : string) :
  fullmatch r s = true <-> den r 0 s EmptyString.
Proof.
  unfold fullmatch. rewrite run_den. split.
  - intros (w & rest & -> & H & Hk). destruct rest; [|discriminate].
    now rewrite append_nil_r.
  - intros H. exists s, EmptyString. now rewrite append_nil_r.
Qed.

End ReFacts.

(** ** Digests *)

Module DigestFacts.
Import Re StrFacts ReFacts DigestFormat OciDigest.

Lemma hex_class_lower_hex (c : ascii) :
  in_class [("a"%char, "f"%char); ("0"%char, "9"%char)] c = lower_hex c.
Proof. destruct c as [[] [] [] [] [] [] [] []]; reflexivity. Qed.

Lemma all_hex_class (h : string) :
  Str.all (in_class [("a"%char, "f"%char); ("0"%char, "9"%char)]) h
  = Str.all lower_hex h.
Proof.
  induction h as [|c h IH]; [reflexivity|].
  cbn [Str.all]. now rewrite hex_class_lower_hex, IH.
Qed.

Lemma den_prefixed_hex (prefix : string) (n pos : nat) (w rest : string) :
  den (Seq (Lit prefix) (Rep n Validator.hex_class)) pos w rest
  <-> form prefix n w.
Proof.
  unfold form. split.
  - intros (w1 & w2 & -> & Hl & Hr). simpl in Hl. subst w1.
    apply den_rep_class in Hr as [Hlen Hall]. rewrite all_hex_class in Hall.
    eauto.
  - intros (h & -> & Hlen & Hall). exists prefix, h.
    split; [reflexivity|]. split; [reflexivity|].
    apply den_rep_class. now rewrite all_hex_class.
Qed.

Lemma fullmatch_well_formed (s : string) :
  fullmatch Validator.RE_VALIDATE s = true <-> well_formed s.
Proof.
  rewrite fullmatch_den. unfold Validator.RE_VALIDATE, well_formed. split.
  - intros (w1 & w2 & -> & (-> & _) & (w3 & w4 & -> & Halt & (-> & _))).
    simpl. rewrite append_nil_r.
    destruct Halt as [H|H]; [left|right];
      eapply den_prefixed_hex; exact H.
  - intros H. exists EmptyString, s. split; [reflexivity|].
    split; [split; reflexivity|].
    exists s, EmptyString. rewrite append_nil_r. split; [reflexivity|].
    split; [|split; reflexivity].
    destruct H as [H|H]; [left|right];
      apply den_prefixed_hex; exact H.
Qed.

Lemma validate_cases (s : string) :
  (well_formed s /\ Validator.validate s = Ok s)
  \/ (~ well_formed s /\
      Validator.validate s
      = Raise (ValueError (s +:+ " is not a valid OCI digest"))).
Proof.
  destruct (fullmatch Validator.RE_VALIDATE s) eqn:E.
  - left. split; [now apply fullmatch_well_formed|].
    unfold Validator.validate. now rewrite E.
  - right. split.
    + intros H. apply fullmatch_well_formed in H. congruence.
    + unfold Validator.validate. now rewrite E.
Qed.

Lemma init_cases (s : string) :
  (well_formed s /\ init s = Ok (mk s))
  \/ (~ well_formed s /\ init s = Raise (ValidationError "OciDigest")).
Proof.
  unfold init. destruct (validate_cases s) as [[Hw ->]|[Hw ->]]; auto.
Qed.

Lemma init_ok_inv (s : string) (d : t) :
  init s = Ok d -> well_formed s /\ d = mk s.
Proof.
  destruct (init_cases s) as [[Hw E]|[Hw E]]; rewrite E; intros H;
    [injection H as <-; auto | discriminate].
Qed.

Lemma lower_hex_no_colon (h : string) :
  Str.all lower_hex h = true ->
  Str.all (fun c => negb (Ascii.eqb c ":"%char)) h = true.
Proof.
  induction h as [|c h IH]; simpl; [reflexivity|].
  intros H. apply andb_prop in H as [Hc Hh]. rewrite (IH Hh), andb_true_r.
  destruct c as [[] [] [] [] [] [] [] []]; try reflexivity; discriminate.
Qed.

(** The two accessors on a well-formed digest. *)
Lemma accessors_of_form (a : Algorithm) (h : string) :
  Str.all lower_hex h = true ->
  algorithm (mk (Algorithm_value a +:+ ":" +:+ h)) = Ok a
  /\ encoded (mk (Algorithm_value a +:+ ":" +:+ h)) = Ok h.
Proof.
  intros Hh. unfold algorithm, encoded. cbn [value].
  assert (Hs : Str.split ":"%char (Algorithm_value a +:+ ":" +:+ h)
               = [Algorithm_value a; h]).
  { change (Algorithm_value a +:+ ":" +:+ h)
      with (Algorithm_value a +:+ String ":"%char h).
    rewrite split_append by (destruct a; reflexivity).
    now rewrite (split_no_sep _ _ (lower_hex_no_colon _ Hh)). }
  rewrite Hs. split; [destruct a|]; reflexivity.
Qed.

Lemma well_formed_parts (s : string) :
  well_formed s ->
  exists a h, s = Algorithm_value a +:+ ":" +:+ h
              /\ Str.all lower_hex h = true
              /\ String.length h = match a with SHA256 => 64 | SHA512 => 128 end%nat.
Proof.
  intros [(h & -> & Hl & Hh)|(h & -> & Hl & Hh)];
    [exists SHA256, h | exists SHA512, h]; auto.
Qed.

End DigestFacts.

(** C2. A string is accepted as an OciDigest exactly when it is 'sha256:'
    followed by 64 lowercase hex characters or 'sha512:' followed by 128 of
    them; every other string is rejected: the field validator raises its
    ValueError, which the constructor reports as a validation error. *)
Theorem digest_accepted_iff_well_formed (s : string) :
  ((exists d, OciDigest.init s = Ok d) <-> DigestFormat.well_formed s)
  /\ (DigestFormat.well_formed s ->
      OciDigest.init s = Ok (OciDigest.mk s)
      /\ OciDigest.Validator.validate s = Ok s)
  /\ (~ DigestFormat.well_formed s ->
      OciDigest.init s = Raise (ValidationError "OciDigest")
      /\ OciDigest.Validator.validate s
         = Raise (ValueError (s +:+ " is not a valid OCI digest"))).
Proof.
  destruct (DigestFacts.init_cases s) as [[Hw Ei]|[Hw Ei]];
    destruct (DigestFacts.validate_cases s) as [[Hw' Ev]|[Hw' Ev]];
    try contradiction; rewrite Ei, Ev.
  - split; [split; eauto|]. split; [auto | intros; contradiction].
  - split; [split; [intros [d Hd]; discriminate | intros; contradiction]|].
    split; [intros; contradiction | auto].
Qed.

Lemma digest_accepted_iff_well_formed_witness :
  OciDigest.init DigestFormat.sha256_of_a = Ok (OciDigest.mk DigestFormat.sha256_of_a)
  /\ OciDigest.init DigestFormat.sha512_of_b = Ok (OciDigest.mk DigestFormat.sha512_of_b)
  /\ OciDigest.init "sha256:AAAA" = Raise (ValidationError "OciDigest").
Proof.
  split; [|split].
  - apply (digest_accepted_iff_well_formed DigestFormat.sha256_of_a).
    left. exists DigestFormat.hex_of_a. repeat split; reflexivity.
  - apply (digest_accepted_iff_well_formed DigestFormat.sha512_of_b).
    right. eexists. split; [reflexivity|]. split; reflexivity.
  - apply (digest_accepted_iff_well_formed "sha256:AAAA").
    intros [(h & E & Hl & _)|(h & E & _)]; [|discriminate].
    injection E as <-. discriminate.
Defined.

(** C10. Round trip of a digest through its accessors: for an accepted
    string [s], the algorithm and the encoded hash of the digest rebuild [s],
    and [from_raw_digest] on them gives the digest back; and
    [from_raw_digest a h] succeeds exactly when 'a:h' is a well-formed digest
    string, since it runs the same validation. *)
Theorem digest_round_trip :
  (forall (s : string) (d : OciDigest.t),
      OciDigest.init s = Ok d ->
      exists a h,
        OciDigest.algorithm d = Ok a
        /\ OciDigest.encoded d = Ok h
        /\ OciDigest.Algorithm_value a +:+ ":" +:+ h = s
        /\ OciDigest.from_raw_digest a h = Ok d)
  /\ (forall (a : OciDigest.Algorithm) (h : string),
         ((exists d, OciDigest.from_raw_digest a h = Ok d)
          <-> DigestFormat.well_formed (OciDigest.Algorithm_value a +:+ ":" +:+ h))
         /\ (~ DigestFormat.well_formed (OciDigest.Algorithm_value a +:+ ":" +:+ h)
             -> OciDigest.from_raw_digest a h = Raise (ValidationError "OciDigest"))).
Proof.
  split.
  - intros s d H. apply DigestFacts.init_ok_inv in H as [Hw ->].
    destruct (DigestFacts.well_formed_parts s Hw) as (a & h & -> & Hh & _).
    destruct (DigestFacts.accessors_of_form a h Hh) as [Ha He].
    exists a, h. repeat split; try assumption.
    unfold OciDigest.from_raw_digest.
    destruct (DigestFacts.init_cases (OciDigest.Algorithm_value a +:+ ":" +:+ h))
      as [[_ E]|[Hn _]]; [exact E | contradiction].
  - intros a h. unfold OciDigest.from_raw_digest.
    destruct (DigestFacts.init_cases (OciDigest.Algorithm_value a +:+ ":" +:+ h))
      as [[Hw E]|[Hw E]]; rewrite E.
    + split; [split; eauto | intros; contradiction].
    + split; [split; [intros [d Hd]; discriminate | intros; contradiction] | auto].
Qed.

Lemma digest_round_trip_witness :
  exists a h,
    OciDigest.algorithm (OciDigest.mk DigestFormat.sha256_of_a) = Ok a
    /\ OciDigest.encoded (OciDigest.mk DigestFormat.sha256_of_a) = Ok h
    /\ OciDigest.Algorithm_value a +:+ ":" +:+ h = DigestFormat.sha256_of_a
    /\ OciDigest.from_raw_digest a h = Ok (OciDigest.mk DigestFormat.sha256_of_a).
Proof.
  apply (proj1 digest_round_trip DigestFormat.sha256_of_a
           (OciDigest.mk DigestFormat.sha256_of_a)).
  reflexivity.
Defined.

(** ** The schema layer *)

Module SchemaFacts.

Lemma fold_size_acc (layers : list OciContentDescriptor.t) (total : Z) :
  fold_left (fun total layer => total + OciContentDescriptor.size layer)
            layers total
  = total + sum_sizes layers.
Proof.
  revert total. induction layers as [|layer layers IH]; intros total; simpl.
  - lia.
  - rewrite IH. unfold sum_sizes. simpl. lia.
Qed.

Lemma validated_schema_version (x : option Z) (v : Z) :
  validated schema_revision_validator x = Some v -> x = Some 2 /\ v = 2.
Proof.
  destruct x as [z|]; simpl; [|discriminate].
  unfold schema_revision_validator.
  destruct (Z.eqb_spec z 2) as [->|Hne]; simpl; [|discriminate].
  intros H. injection H as <-. auto.
Qed.

Section WithPydantic.
Context {P : Pydantic}.

Lemma manifest_fields_schema_version (data : list (string * json))
    (m : OciImageManifest.t) :
  OciImageManifest.fields data = Some m ->
  Field.required data "schemaVersion" pyd_int = Some 2
  /\ OciImageManifest.schemaVersion m = 2.
Proof.
  unfold OciImageManifest.fields. intros H.
  destruct (validated schema_revision_validator
              (Field.required data "schemaVersion" pyd_int)) as [v|] eqn:E;
    [|discriminate].
  apply validated_schema_version in E as [E ->].
  split; [exact E|]. simpl in H.
  repeat match type of H with
         | context [mbind _ ?x] => destruct x; simpl in H; [|discriminate]
         end.
  now injection H as <-.
Qed.

Lemma index_fields_schema_version (data : list (string * json))
    (i : OciImageIndex.t) :
  OciImageIndex.fields data = Some i ->
  Field.required data "schemaVersion" pyd_int = Some 2
  /\ OciImageIndex.schemaVersion i = 2.
Proof.
  unfold OciImageIndex.fields. intros H.
  destruct (validated schema_revision_validator
              (Field.required data "schemaVersion" pyd_int)) as [v|] eqn:E;
    [|discriminate].
  apply validated_schema_version in E as [E ->].
  split; [exact E|]. simpl in H.
  repeat match type of H with
         | context [mbind _ ?x] => destruct x; simpl in H; [|discriminate]
         end.
  now injection H as <-.
Qed.
End WithPydantic.

End SchemaFacts.

(** C9. The size of an image manifest is the size of its config plus the sum
    of the sizes of its layers; config size 100 with layer sizes 50 and 75
    gives 225. [OciImageManifest.size] is a function of the record alone: it
    takes no state and no world, so it reads and changes nothing. *)
Theorem manifest_size_is_config_plus_layers (m : OciImageManifest.t) :
  OciImageManifest.size m
  = OciContentDescriptor.size (OciImageManifest.config m)
    + sum_sizes (OciImageManifest.layers m)
  /\ (OciContentDescriptor.size (OciImageManifest.config m) = 100 ->
      map OciContentDescriptor.size (OciImageManifest.layers m) = [50; 75] ->
      OciImageManifest.size m = 225).
Proof.
  assert (E : OciImageManifest.size m
              = OciContentDescriptor.size (OciImageManifest.config m)
                + sum_sizes (OciImageManifest.layers m)).
  { unfold OciImageManifest.size. apply SchemaFacts.fold_size_acc. }
  split; [exact E|].
  intros Hc Hl. rewrite E, Hc.
  destruct (OciImageManifest.layers m) as [|l1 [|l2 [|l3 ls]]]; try discriminate.
  injection Hl as H1 H2. unfold sum_sizes. simpl. lia.
Qed.

Lemma manifest_size_is_config_plus_layers_witness :
  exists m,
    @OciImageManifest.init exact_types (Samples.manifest_members 2) = Ok m
    /\ OciImageManifest.size m = 225.
Proof.
  destruct (@OciImageManifest.init exact_types (Samples.manifest_members 2))
    as [m|e] eqn:E; [|discriminate E].
  exists m. split; [reflexivity|].
  apply (manifest_size_is_config_plus_layers m);
    vm_compute in E; injection E as <-; reflexivity.
Defined.

(** C8, amended. An image manifest or an image index is valid only if its
    [schemaVersion] field is there and is coerced to the integer 2: in every
    other case both constructors raise a validation error, and a validated
    record carries schemaVersion 2. *)
Theorem schema_version_checked_on_manifest_and_index
    {P : Pydantic} (data : list (string * json)) :
  (Field.required data "schemaVersion" pyd_int <> Some 2 ->
   OciImageManifest.init data = Raise (ValidationError "OciImageManifest")
   /\ OciImageIndex.init data = Raise (ValidationError "OciImageIndex"))
  /\ (forall m, OciImageManifest.init data = Ok m ->
                OciImageManifest.schemaVersion m = 2)
  /\ (forall i, OciImageIndex.init data = Ok i ->
                OciImageIndex.schemaVersion i = 2).
Proof.
  unfold OciImageManifest.init, OciImageIndex.init.
  split; [intros Hne; split | split].
  - destruct (OciImageManifest.fields data) as [m|] eqn:E; [|reflexivity].
    apply SchemaFacts.manifest_fields_schema_version in E as [E _]. contradiction.
  - destruct (OciImageIndex.fields data) as [i|] eqn:E; [|reflexivity].
    apply SchemaFacts.index_fields_schema_version in E as [E _]. contradiction.
  - intros m. destruct (OciImageManifest.fields data) as [m'|] eqn:E;
      [|discriminate].
    intros H. injection H as <-.
    now apply SchemaFacts.manifest_fields_schema_version in E.
  - intros i. destruct (OciImageIndex.fields data) as [i'|] eqn:E;
      [|discriminate].
    intros H. injection H as <-.
    now apply SchemaFacts.index_fields_schema_version in E.
Qed.

Lemma schema_version_checked_on_manifest_and_index_witness :
  (@OciImageManifest.init exact_types (Samples.manifest_members 3)
   = Raise (ValidationError "OciImageManifest")
   /\ @OciImageIndex.init exact_types (Samples.manifest_members 3)
      = Raise (ValidationError "OciImageIndex"))
  /\ is_ok (@OciImageManifest.init exact_types (Samples.manifest_members 2)) = true
  /\ is_ok (@OciImageIndex.init exact_types (Samples.index_members 2)) = true
  /\ @OciImageIndex.init exact_types (Samples.index_members 1)
     = Raise (ValidationError "OciImageIndex").
Proof.
  split; [|split; [|split]].
  - apply (@schema_version_checked_on_manifest_and_index exact_types
             (Samples.manifest_members 3)).
    vm_compute. discriminate.
  - reflexivity.
  - reflexivity.
  - apply (@schema_version_checked_on_manifest_and_index exact_types
             (Samples.index_members 1)).
    vm_compute. discriminate.
Defined.

Lemma exact_types_lawful : PydanticLawful exact_types.
Proof. split; reflexivity. Qed.

(** Whatever the coercions, as long as they leave a value of the declared
    type alone, the sample image config, which carries schemaVersion 3, is
    valid. *)
Lemma config_with_schema_version_is_valid {P : Pydantic} (L : PydanticLawful P) :
  OciImageConfig.init Samples.config_members_v3
  = Ok (OciImageConfig.mk "amd64" "linux"
          (OciImageConfig.RootFilesystem.mk "layers" [])
          None None None None None None).
Proof.
  unfold OciImageConfig.init, OciImageConfig.fields,
    OciImageConfig.RootFilesystem.fields, Field.required, Field.optional,
    Field.model, Field.list_of.
  cbn [Samples.config_members_v3 dict_get String.eqb Ascii.eqb Bool.eqb].
  rewrite !pyd_str_str, pyd_dict_obj.
  cbn [mbind option_bind dict_get String.eqb Ascii.eqb Bool.eqb].
  rewrite pyd_str_str, pyd_list_arr. reflexivity.
Qed.

(** C8 as stated does not hold of every validated document type: an image
    config whose document carries schemaVersion 3 is valid, since
    [OciImageConfig] declares no such field and no validator for it. *)
Lemma schema_version_unchecked_on_config :
  dict_get "schemaVersion" Samples.config_members_v3 = Some (JInt 3)
  /\ 3 <> 2
  /\ @OciImageConfig.init exact_types Samples.config_members_v3
     = Ok (OciImageConfig.mk "amd64" "linux"
             (OciImageConfig.RootFilesystem.mk "layers" [])
             None None None None None None).
Proof. split; [reflexivity|]. split; [lia | reflexivity]. Qed.

(** ** Programs *)

Module ProgFacts.

Lemma bind_run {S A B} (m : M S A) (f : A -> M S B) (s : S) (w : World) :
  Prog.bind m f s w
  = match m s w with
    | (Ok a, s', w') => f a s' w'
    | (Raise e, s', w') => (Raise e, s', w')
    end.
Proof. reflexivity. Qed.

Lemma bind_ok_inv {S A B} (m : M S A) (f : A -> M S B) (s s2 : S)
    (w w2 : World) (b : B) :
  Prog.bind m f s w = (Ok b, s2, w2) ->
  exists a s1 w1, m s w = (Ok a, s1, w1) /\ f a s1 w1 = (Ok b, s2, w2).
Proof.
  rewrite bind_run. destruct (m s w) as [[[a|e] s1] w1]; [eauto | discriminate].
Qed.

(** A loop that completes establishes its invariant for the whole list. *)
Lemma for_each_invariant {S A} (body : A -> M S unit)
    (I : list A -> S -> World -> Prop) :
  (forall pre x s w s' w',
      I pre s w -> body x s w = (Ok tt, s', w') -> I (pre ++ [x]) s' w') ->
  forall l pre s w s' w',
    I pre s w -> Prog.for_each l body s w = (Ok tt, s', w') ->
    I (pre ++ l) s' w'.
Proof.
  intros Hstep. induction l as [|x l IH]; intros pre s w s' w' HI Hrun.
  - simpl in Hrun. injection Hrun as <- <-. now rewrite app_nil_r.
  - simpl in Hrun. apply bind_ok_inv in Hrun as ([] & s1 & w1 & Hx & Hl).
    replace (pre ++ x :: l) with ((pre ++ [x]) ++ l)
      by now rewrite <- app_assoc.
    eapply IH; [|exact Hl]. eapply Hstep; eassumption.
Qed.

Lemma for_collect_invariant {S A B} (body : A -> M S B)
    (I : list A -> list B -> S -> World -> Prop) :
  (forall pre ys x y s w s' w',
      I pre ys s w -> body x s w = (Ok y, s', w') ->
      I (pre ++ [x]) (ys ++ [y]) s' w') ->
  forall l pre ys zs s w s' w',
    I pre ys s w -> Prog.for_collect l body s w = (Ok zs, s', w') ->
    I (pre ++ l) (ys ++ zs) s' w'.
Proof.
  intros Hstep. induction l as [|x l IH]; intros pre ys zs s w s' w' HI Hrun.
  - simpl in Hrun. injection Hrun as <- <- <-. now rewrite !app_nil_r.
  - simpl in Hrun. apply bind_ok_inv in Hrun as (y & s1 & w1 & Hx & Hl).
    apply bind_ok_inv in Hl as (zs' & s2 & w2 & Hl & Hret).
    injection Hret as <- <- <-.
    replace (pre ++ x :: l) with ((pre ++ [x]) ++ l)
      by now rewrite <- app_assoc.
    replace (ys ++ y :: zs') with ((ys ++ [y]) ++ zs')
      by now rewrite <- app_assoc.
    eapply IH; [|exact Hl]. eapply Hstep; eassumption.
Qed.

End ProgFacts.

(** ** Repository *)

Module RepositoryFacts.
Import ProgFacts RepositoryLayout.

Lemma key_inj (a b : string) : key a = key b -> a = b.
Proof. unfold key. intros H. now injection H. Qed.

Lemma revision_init_cases (s : string) :
  (DigestFormat.well_formed s /\ Revision.init s = Ok (Revision.mk s []))
  \/ (~ DigestFormat.well_formed s
      /\ Revision.init s = Raise (ValidationError "Revision")).
Proof.
  unfold Revision.init.
  destruct (DigestFacts.validate_cases s) as [[Hw ->]|[Hw ->]]; auto.
Qed.

Lemma tag_init_cases (n s : string) :
  (DigestFormat.well_formed s /\ Tag.init n s = Ok (Tag.mk n s))
  \/ (~ DigestFormat.well_formed s
      /\ Tag.init n s = Raise (ValidationError "Tag")).
Proof.
  unfold Tag.init.
  destruct (DigestFacts.validate_cases s) as [[Hw ->]|[Hw ->]]; auto.
Qed.

(** One round of the first loop of [load]. *)
Lemma add_revision_step (child : string) (self self' : Repository.t)
    (w w' : World) :
  (Prog.bind (Prog.lift (OciDigest.from_raw_digest OciDigest.SHA256 child))
     (fun digest =>
      Prog.bind (Prog.lift (Revision.init (OciDigest.value digest)))
        (fun revision =>
         Prog.modify (fun self =>
           Repository.set_cached_revisions
             (<[OciDigest.value digest := revision]>
                (Repository.cached_revisions self)) self))))
    self w = (Ok tt, self', w') ->
  w' = w
  /\ self' = Repository.set_cached_revisions
               (add_revision (Repository.cached_revisions self) child) self
  /\ DigestFormat.well_formed (key child).
Proof.
  unfold Prog.bind, Prog.lift, Prog.modify, OciDigest.from_raw_digest.
  change (OciDigest.Algorithm_value OciDigest.SHA256 +:+ ":" +:+ child)
    with (key child).
  destruct (DigestFacts.init_cases (key child)) as [[Hw ->]|[Hw ->]];
    [|discriminate].
  cbn [OciDigest.value].
  destruct (revision_init_cases (key child)) as [[_ ->]|[Hn _]];
    [|contradiction].
  intros H. injection H as <- <-. auto.
Qed.

Lemma lookup_add_revisions_in (names : list string) :
  forall (m : gmap string Revision.t) (n : string),
    n ∈ names ->
    foldl add_revision m names !! key n = Some (Revision.mk (key n) []).
Proof.
  induction names as [|x names IH] using rev_ind; intros m n Hn.
  - now apply elem_of_nil in Hn.
  - rewrite foldl_app. simpl. unfold add_revision at 1.
    destruct (decide (key x = key n)) as [E|Hne].
    + rewrite E. apply lookup_insert_eq.
    + rewrite lookup_insert_ne by assumption.
      apply IH. apply elem_of_app in Hn as [Hn|Hn]; [assumption|].
      apply list_elem_of_singleton in Hn. congruence.
Qed.

Lemma size_add_revisions (names : list string) :
  forall m : gmap string Revision.t,
    NoDup names ->
    (forall n, n ∈ names -> m !! key n = None) ->
    size (foldl add_revision m names) = (size m + length names)%nat.
Proof.
  induction names as [|n names IH]; intros m Hnd Hfresh; simpl.
  - lia.
  - apply NoDup_cons in Hnd as [Hn Hnd].
    rewrite IH; [| assumption |].
    + unfold add_revision. rewrite map_size_insert_None.
      * lia.
      * apply Hfresh, elem_of_cons. now left.
    + intros n' Hn'. unfold add_revision.
      rewrite lookup_insert_ne.
      * apply Hfresh, elem_of_cons. now right.
      * intros E. apply key_inj in E. now subst.
Qed.


Lemma world_log_emit (evs : list event) (ev : event) (w : World) :
  world_emit ev (world_log evs w) = world_log (evs ++ [ev]) w.
Proof. unfold world_emit, world_log. simpl. now rewrite <- app_assoc. Qed.

Lemma world_log_nil (w : World) : world_log [] w = w.
Proof. destruct w. unfold world_log. simpl. now rewrite app_nil_r. Qed.

Lemma hash_for_tag_run (tag : string) (self : Repository.t) (w : World) :
  Repository.hash_for_tag tag self w
  = (rbind (fs_read_text (fs w) (link self tag)) OciDigest.init,
     self, world_emit (EvOpenText (link self tag)) w).
Proof.
  unfold Repository.hash_for_tag, Prog.bind, Prog.get, Prog.read_text,
    Prog.lift, link.
  destruct (fs_read_text _ _); reflexivity.
Qed.

(** One round of the second loop of [load]. *)
Lemma read_tag_step (child : string) (self self' : Repository.t)
    (w w' : World) (tag : Tag.t) :
  (Prog.bind (Repository.hash_for_tag child)
     (fun digest => Prog.lift (Tag.init child (OciDigest.value digest))))
    self w = (Ok tag, self', w') ->
  self' = self
  /\ w' = world_emit (EvOpenText (link self child)) w
  /\ fs_read_text (fs w) (link self child) = Ok (Tag.digest tag)
  /\ tag = Tag.mk child (Tag.digest tag)
  /\ DigestFormat.well_formed (Tag.digest tag).
Proof.
  rewrite bind_run, hash_for_tag_run.
  destruct (fs_read_text (fs w) (link self child)) as [content|e];
    [|discriminate].
  cbn [rbind].
  destruct (DigestFacts.init_cases content) as [[Hw ->]|[Hw ->]];
    [|discriminate].
  unfold Prog.lift. cbn [OciDigest.value].
  destruct (tag_init_cases child content) as [[_ ->]|[Hn _]];
    [|contradiction].
  intros H. inversion H; subst. auto.
Qed.

(** One round of the third loop of [load]. *)
Lemma link_tag_step (tag : Tag.t) (self self' : Repository.t) (w w' : World) :
  (Prog.bind Prog.get (fun self =>
     match Repository.cached_revisions self !! Tag.digest tag with
     | None => Prog.raise (KeyError (Tag.digest tag))
     | Some revision =>
         Prog.modify (Repository.set_cached_revisions
           (<[Tag.digest tag := Revision.tags_append tag revision]>
              (Repository.cached_revisions self)))
     end)) self w = (Ok tt, self', w') ->
  w' = w
  /\ exists revision,
      Repository.cached_revisions self !! Tag.digest tag = Some revision
      /\ self' = Repository.set_cached_revisions
                   (<[Tag.digest tag := Revision.tags_append tag revision]>
                      (Repository.cached_revisions self)) self.
Proof.
  unfold Prog.bind, Prog.get.
  destruct (Repository.cached_revisions self !! Tag.digest tag)
    as [revision|]; [|discriminate].
  unfold Prog.modify. intros H. injection H as <- <-. eauto.
Qed.

Lemma tags_of_snoc (k : string) (tags : list Tag.t) (t : Tag.t) :
  tags_of k (tags ++ [t])
  = tags_of k tags ++ (if decide (Tag.digest t = k) then [t] else []).
Proof.
  unfold tags_of. now rewrite filter_app.
Qed.

Lemma link_tags_loop (tags : list Tag.t) (m0 : gmap string Revision.t)
    (self s s' : Repository.t) (w w' : World) :
  s = Repository.set_cached_revisions m0 self ->
  Prog.for_each tags (fun tag =>
    Prog.bind Prog.get (fun self =>
      match Repository.cached_revisions self !! Tag.digest tag with
      | None => Prog.raise (KeyError (Tag.digest tag))
      | Some revision =>
          Prog.modify (Repository.set_cached_revisions
            (<[Tag.digest tag := Revision.tags_append tag revision]>
               (Repository.cached_revisions self)))
      end)) s w = (Ok tt, s', w') ->
  w' = w
  /\ (forall t, t ∈ tags -> is_Some (m0 !! Tag.digest t))
  /\ exists m, s' = Repository.set_cached_revisions m self
               /\ forall k, m !! k = linked tags k <$> (m0 !! k).
Proof.
  intros Hs Hrun.
  pose (I := fun (pre : list Tag.t) (s' : Repository.t) (w' : World) =>
    w' = w
    /\ (forall t, t ∈ pre -> is_Some (m0 !! Tag.digest t))
    /\ exists m, s' = Repository.set_cached_revisions m self
                 /\ forall k, m !! k = linked pre k <$> (m0 !! k)).
  apply (for_each_invariant _ I) with (pre := []) in Hrun; [exact Hrun | |].
  - clear Hrun. intros pre t s1 w1 s2 w2 (-> & Hin & m & -> & Hm) Hstep.
    apply link_tag_step in Hstep as (-> & revision & Hlook & ->).
    cbn [Repository.cached_revisions Repository.set_cached_revisions] in *.
    split; [reflexivity|]. split.
    + intros t' Ht'. apply elem_of_app in Ht' as [Ht'|Ht']; [auto|].
      apply list_elem_of_singleton in Ht' as ->.
      rewrite Hm in Hlook. destruct (m0 !! Tag.digest t); [eauto | discriminate].
    + eexists. split; [reflexivity|]. intros k.
      unfold linked. rewrite tags_of_snoc.
      destruct (decide (Tag.digest t = k)) as [<-|Hne].
      * rewrite lookup_insert_eq. rewrite Hm in Hlook.
        destruct (m0 !! Tag.digest t) as [r|]; [|discriminate].
        simpl in Hlook. injection Hlook as <-.
        simpl. unfold Revision.tags_append, linked. simpl.
        now rewrite <- app_assoc.
      * rewrite lookup_insert_ne by assumption. rewrite Hm.
        unfold linked. now rewrite app_nil_r.
  - split; [reflexivity|]. split.
    + intros t Ht. now apply elem_of_nil in Ht.
    + exists m0. split; [exact Hs|]. intros k. unfold linked, tags_of.
      rewrite filter_nil. destruct (m0 !! k) as [[d ts]|]; simpl; [|reflexivity].
      now rewrite app_nil_r.
Qed.

Lemma add_revisions_loop (names : list string) (self s s' : Repository.t)
    (w w' : World) :
  s = Repository.set_cached_revisions ∅ self ->
  Prog.for_each names (fun child =>
    Prog.bind (Prog.lift (OciDigest.from_raw_digest OciDigest.SHA256 child))
      (fun digest =>
       Prog.bind (Prog.lift (Revision.init (OciDigest.value digest)))
         (fun revision =>
          Prog.modify (fun self =>
            Repository.set_cached_revisions
              (<[OciDigest.value digest := revision]>
                 (Repository.cached_revisions self)) self)))) s w
  = (Ok tt, s', w') ->
  w' = w
  /\ s' = Repository.set_cached_revisions (foldl add_revision ∅ names) self
  /\ Forall (fun n => DigestFormat.well_formed (key n)) names.
Proof.
  intros Hs Hrun.
  pose (I := fun (pre : list string) (s' : Repository.t) (w' : World) =>
    w' = w
    /\ s' = Repository.set_cached_revisions (foldl add_revision ∅ pre) self
    /\ Forall (fun n => DigestFormat.well_formed (key n)) pre).
  apply (for_each_invariant _ I) with (pre := []) in Hrun; [exact Hrun | |].
  - clear Hrun. intros pre n s1 w1 s2 w2 (-> & -> & Hall) Hstep.
    apply add_revision_step in Hstep as (-> & -> & Hw).
    split; [reflexivity|]. split.
    + rewrite foldl_app. reflexivity.
    + apply Forall_app. split; [assumption|]. now constructor.
  - split; [reflexivity|]. split; [exact Hs | constructor].
Qed.

Lemma read_tags_loop (tagnames : list string) (self : Repository.t)
    (s' : Repository.t) (w w' : World) (tags : list Tag.t) :
  Prog.for_collect tagnames (fun child =>
    Prog.bind (Repository.hash_for_tag child)
      (fun digest => Prog.lift (Tag.init child (OciDigest.value digest))))
    self w = (Ok tags, s', w') ->
  s' = self
  /\ w' = world_log (map (fun n => EvOpenText (link self n)) tagnames) w
  /\ Forall2 (fun n t => t = Tag.mk n (Tag.digest t)
                         /\ fs_read_text (fs w) (link self n) = Ok (Tag.digest t)
                         /\ DigestFormat.well_formed (Tag.digest t))
             tagnames tags.
Proof.
  intros Hrun.
  pose (I := fun (pre : list string) (ys : list Tag.t) (s' : Repository.t)
                 (w' : World) =>
    s' = self
    /\ w' = world_log (map (fun n => EvOpenText (link self n)) pre) w
    /\ Forall2 (fun n t => t = Tag.mk n (Tag.digest t)
                           /\ fs_read_text (fs w) (link self n) = Ok (Tag.digest t)
                           /\ DigestFormat.well_formed (Tag.digest t))
               pre ys).
  apply (for_collect_invariant _ I) with (pre := []) (ys := []) in Hrun;
    [exact Hrun | |].
  - clear Hrun. intros pre ys n t s1 w1 s2 w2 (-> & -> & Hall) Hstep.
    apply read_tag_step in Hstep as (-> & -> & Hread & Ht & Hw).
    split; [reflexivity|]. split.
    + rewrite map_app. apply world_log_emit.
    + apply Forall2_app; [assumption|]. constructor; [|constructor]. auto.
  - split; [reflexivity|]. split; [now rewrite world_log_nil | constructor].
Qed.

(** What a completed [load] has done. *)
Lemma load_ok_inv (self self' : Repository.t) (w w' : World) :
  Repository.load self w = (Ok tt, self', w') ->
  exists names tagnames tags m,
    fs_iterdir (fs w) (Repository.revisions_path self) = Ok names
    /\ fs_iterdir (fs w) (Repository.tags_path self) = Ok tagnames
    /\ Forall (fun n => DigestFormat.well_formed (key n)) names
    /\ Forall2 (fun n t => t = Tag.mk n (Tag.digest t)
                           /\ fs_read_text (fs w) (link self n) = Ok (Tag.digest t)
                           /\ DigestFormat.well_formed (Tag.digest t))
               tagnames tags
    /\ (forall t, t ∈ tags ->
                  is_Some (foldl add_revision ∅ names !! Tag.digest t))
    /\ (forall k, m !! k = linked tags k <$> (foldl add_revision ∅ names !! k))
    /\ self' = Repository.mk (Repository.path self) (Repository.name self) m
                  (clock w (ticks w))
    /\ w' = world_tick
              (world_log
                 (EvIterdir (Repository.revisions_path self)
                  :: EvIterdir (Repository.tags_path self)
                  :: map (fun n => EvOpenText (link self n)) tagnames) w).
Proof.
  unfold Repository.load. intros H.
  apply bind_ok_inv in H as (s0 & s1 & w1 & Hget & H).
  unfold Prog.get in Hget. injection Hget as <- <- <-. cbv zeta in H.
  apply bind_ok_inv in H as ([] & s2 & w2 & Hmod & H).
  unfold Prog.modify in Hmod. injection Hmod as <- <-.
  apply bind_ok_inv in H as (names & s3 & w3 & Hit & H).
  unfold Prog.iterdir in Hit. injection Hit as Hnames <- <-.
  apply bind_ok_inv in H as ([] & s4 & w4 & Hloop1 & H).
  apply (add_revisions_loop names self) in Hloop1 as (-> & -> & Hall);
    [|reflexivity].
  apply bind_ok_inv in H as (tagnames & s5 & w5 & Hit & H).
  unfold Prog.iterdir in Hit. injection Hit as Htags <- <-.
  apply bind_ok_inv in H as (tags & s6 & w6 & Hloop2 & H).
  apply read_tags_loop in Hloop2 as (-> & -> & Hread).
  apply bind_ok_inv in H as ([] & s7 & w7 & Hloop3 & H).
  apply (link_tags_loop tags (foldl add_revision ∅ names) self) in Hloop3
    as (-> & Hsome & m & -> & Hm); [|reflexivity].
  apply bind_ok_inv in H as (now & s8 & w8 & Htime & H).
  unfold Prog.time_time in Htime. injection Htime as <- <- <-.
  unfold Prog.modify in H. injection H as <- <-.
  exists names, tagnames, tags, m.
  repeat split; try assumption.
  unfold world_log, world_emit, world_tick. simpl.
  now rewrite <- !app_assoc.
Qed.

Lemma lookup_add_revisions_inv (names : list string) :
  forall (m : gmap string Revision.t) (k : string) (r : Revision.t),
    foldl add_revision m names !! k = Some r ->
    (exists n, n ∈ names /\ k = key n /\ r = Revision.mk k [])
    \/ m !! k = Some r.
Proof.
  induction names as [|x names IH] using rev_ind; intros m k r H.
  - right. exact H.
  - rewrite foldl_app in H. simpl in H. unfold add_revision at 1 in H.
    destruct (decide (key x = k)) as [<-|Hne].
    + rewrite lookup_insert_eq in H. injection H as <-. left.
      exists x. split; [apply elem_of_app; right; now constructor | auto].
    + rewrite lookup_insert_ne in H by assumption.
      apply IH in H as [(n & Hn & -> & ->)|H]; [left | now right].
      exists n. split; [apply elem_of_app; now left | auto].
Qed.

Lemma lookup_revisions_iff (names : list string) (k : string) :
  is_Some (foldl add_revision (∅ : gmap string Revision.t) names !! k)
  <-> exists n, n ∈ names /\ k = key n.
Proof.
  split.
  - intros [r H]. apply lookup_add_revisions_inv in H
      as [(n & Hn & -> & _)|H]; [eauto|].
    rewrite lookup_empty in H. discriminate.
  - intros (n & Hn & ->). rewrite lookup_add_revisions_in by assumption. eauto.
Qed.

End RepositoryFacts.

(** C7. When [Repository.load] completes, the revision cache has exactly the
    keys 'sha256:' + name for the names listed under the revisions root, each
    key holding the revision of that digest (so one revision per listed
    directory), and every tag directory whose link file was read appears, as
    the tag of that name, in the tag list of the revision its link names; the
    load time is the clock reading taken at the end. *)
Theorem load_builds_revisions_and_links_tags
    (self self' : Repository.t) (w w' : World)
    (Hload : Repository.load self w = (Ok tt, self', w')) :
  exists names tagnames,
    fs_iterdir (fs w) (Repository.revisions_path self) = Ok names
    /\ fs_iterdir (fs w) (Repository.tags_path self) = Ok tagnames
    /\ (forall k, is_Some (Repository.cached_revisions self' !! k)
                  <-> exists n, n ∈ names /\ k = "sha256:" +:+ n)
    /\ (forall k rev, Repository.cached_revisions self' !! k = Some rev ->
                      Revision.digest rev = k)
    /\ (NoDup names ->
        size (Repository.cached_revisions self') = length names)
    /\ (forall n content,
           n ∈ tagnames ->
           fs_read_text (fs w) (Repository.tags_path self // n // "current" // "link")
           = Ok content ->
           exists rev,
             Repository.cached_revisions self' !! content = Some rev
             /\ Tag.mk n content ∈ Revision.tags rev)
    /\ Repository.last_load self' = clock w (ticks w).
Proof.
  apply RepositoryFacts.load_ok_inv in Hload
    as (names & tagnames & tags & m & Hnames & Htags & Hall & Hread & Hsome
        & Hm & -> & ->).
  exists names, tagnames. cbn [Repository.cached_revisions Repository.last_load].
  split; [exact Hnames|]. split; [exact Htags|].
  assert (Hdom : forall k, is_Some (m !! k)
                           <-> exists n, n ∈ names /\ k = RepositoryLayout.key n).
  { intros k. rewrite Hm, <- RepositoryFacts.lookup_revisions_iff.
    apply fmap_is_Some. }
  split; [exact Hdom|]. split; [|split; [|split; [|reflexivity]]].
  - intros k rev Hk. rewrite Hm in Hk.
    destruct (foldl RepositoryLayout.add_revision ∅ names !! k) as [r|] eqn:E;
      [|discriminate].
    simpl in Hk. injection Hk as <-.
    apply RepositoryFacts.lookup_add_revisions_inv in E
      as [(n & _ & _ & ->)|E]; [reflexivity|].
    rewrite lookup_empty in E. discriminate.
  - intros Hnd.
    assert (E : dom m = dom (foldl RepositoryLayout.add_revision
                               (∅ : gmap string Revision.t) names)).
    { apply set_eq. intros k. rewrite !elem_of_dom, Hm. apply fmap_is_Some. }
    rewrite <- size_dom, E, size_dom.
    rewrite RepositoryFacts.size_add_revisions; [now rewrite map_size_empty | exact Hnd |].
    intros n _. apply lookup_empty.
  - intros n content Hn Hc.
    apply list_elem_of_lookup in Hn as [i Hi].
    destruct (Forall2_lookup_l _ _ _ _ _ Hread Hi) as (t & Ht & Heq & Hrd & _).
    unfold RepositoryLayout.link in Hrd. rewrite Hc in Hrd. injection Hrd as ->.
    assert (Hin : t ∈ tags) by (apply list_elem_of_lookup; eauto).
    destruct (Hsome t Hin) as [r Hr].
    exists (RepositoryLayout.linked tags (Tag.digest t) r).
    split; [now rewrite Hm, Hr|].
    unfold RepositoryLayout.linked. cbn [Revision.tags].
    apply elem_of_app. right. rewrite <- Heq.
    unfold RepositoryLayout.tags_of. apply list_elem_of_filter. auto.
Qed.

(** The example of the specification: revision sha256:aaaa... and tag
    directory v1 whose link holds sha256:aaaa...: after [load] the tag list of
    that revision contains v1. *)
Lemma load_builds_revisions_and_links_tags_witness :
  exists self' w' rev,
    Repository.load Samples.app Samples.sample_world = (Ok tt, self', w')
    /\ Repository.cached_revisions self' !! DigestFormat.sha256_of_a = Some rev
    /\ Tag.mk "v1" DigestFormat.sha256_of_a ∈ Revision.tags rev.
Proof.
  destruct (Repository.load Samples.app Samples.sample_world)
    as [[r self'] w'] eqn:E.
  assert (Hr : r = Ok tt).
  { change r with (fst (fst (r, self', w'))). rewrite <- E. vm_compute. reflexivity. }
  subst r.
  destruct (load_builds_revisions_and_links_tags _ _ _ _ E)
    as (names & tagnames & Hnames & Htags & _ & _ & _ & Hlink & _).
  vm_compute in Htags. injection Htags as <-.
  destruct (Hlink "v1" DigestFormat.sha256_of_a) as (rev & Hrev & Hin).
  - apply elem_of_cons. now left.
  - vm_compute. reflexivity.
  - exists self', w', rev. auto.
Defined.

(** ** Registry *)

Module RegistryFacts.
Import ProgFacts.

Lemma blob_path_sha256 (self : Registry.t) (d : OciDigest.t) (h : string) :
  OciDigest.algorithm d = Ok OciDigest.SHA256 ->
  OciDigest.encoded d = Ok h ->
  Registry.blob_path self d
  = Ok (Registry.blobs_path self // "sha256" // Str.take 2 h // h // "data").
Proof. unfold Registry.blob_path. now intros -> ->. Qed.

Lemma blob_path_sha512 (self : Registry.t) (d : OciDigest.t) :
  OciDigest.algorithm d = Ok OciDigest.SHA512 ->
  Registry.blob_path self d = Raise (HTTPException 500 "Invalid digest type").
Proof. unfold Registry.blob_path. now intros ->. Qed.

(** [blob] once the path is known: one binary read, then the handlers. *)
Lemma blob_run (self : Registry.t) (d : OciDigest.t) (p : Path) (w : World) :
  Registry.blob_path self d = Ok p ->
  Registry.blob d self w
  = match fs_read_bytes (fs w) p with
    | Ok content =>
        (Blob.init (OciDigest.value d) content, self,
         world_emit (EvOpenBinary p) w)
    | Raise (FileNotFoundError _) =>
        (Raise (HTTPException 404 "Blob not found"), self,
         world_emit (EvOpenBinary p) w)
    | Raise (OSError e) =>
        (Raise (HTTPException 500 "Internal Server Error (Blob)"), self,
         world_emit
           (EvLogError ("Failed to read blob " +:+ OciDigest.value d
                        +:+ ": " +:+ e))
           (world_emit (EvOpenBinary p) w))
    | Raise e => (Raise e, self, world_emit (EvOpenBinary p) w)
    end.
Proof.
  intros Hp. unfold Registry.blob, Prog.bind, Prog.get, Prog.lift,
    Prog.attempt, Prog.read_bytes, Prog.logger_error, Prog.emit, Prog.raise.
  rewrite Hp. destruct (fs_read_bytes (fs w) p) as [content|[]]; reflexivity.
Qed.

Lemma blob_run_no_path (self : Registry.t) (d : OciDigest.t) (e : exn)
    (w : World) :
  Registry.blob_path self d = Raise e ->
  Registry.blob d self w = (Raise e, self, w).
Proof.
  intros Hp. unfold Registry.blob, Prog.bind, Prog.get, Prog.lift.
  now rewrite Hp.
Qed.

Lemma blob_init_ok (s content : string) :
  DigestFormat.well_formed s -> Blob.init s content = Ok (Blob.mk s content 0).
Proof.
  intros Hw. unfold Blob.init.
  destruct (DigestFacts.validate_cases s) as [[_ ->]|[Hn _]];
    [reflexivity | contradiction].
Qed.

End RegistryFacts.

(** C5. The blob of a valid digest: for sha256 the file is
    root/docker/registry/v2/blobs/sha256/<first two characters of the
    hash>/<hash>/data; [blob] reads it once and returns all its bytes under
    the digest; a missing file gives 404 'Blob not found'; another OS error is
    logged with the digest and gives 500 with the fixed detail 'Internal
    Server Error (Blob)', which holds neither the path nor the OS error text.
    For sha512 the call fails with 500 'Invalid digest type' and leaves the
    world as it was: no file is opened. *)
Theorem blob_store_contract (s : string) (d : OciDigest.t)
    (reg : Registry.t) (w : World)
    (Hd : OciDigest.init s = Ok d) :
  exists a h,
    OciDigest.algorithm d = Ok a
    /\ OciDigest.encoded d = Ok h
    /\ match a with
       | OciDigest.SHA256 =>
           let path := Registry.root reg // "docker" // "registry" // "v2"
                       // "blobs" // "sha256" // Str.take 2 h // h // "data" in
           let opened := world_emit (EvOpenBinary path) w in
           Registry.blob_path reg d = Ok path
           /\ (forall content,
                  fs_read_bytes (fs w) path = Ok content ->
                  Registry.blob d reg w = (Ok (Blob.mk s content 0), reg, opened))
           /\ (forall msg,
                  fs_read_bytes (fs w) path = Raise (FileNotFoundError msg) ->
                  Registry.blob d reg w
                  = (Raise (HTTPException 404 "Blob not found"), reg, opened))
           /\ (forall msg,
                  fs_read_bytes (fs w) path = Raise (OSError msg) ->
                  Registry.blob d reg w
                  = (Raise (HTTPException 500 "Internal Server Error (Blob)"),
                     reg,
                     world_emit
                       (EvLogError ("Failed to read blob " +:+ s +:+ ": " +:+ msg))
                       opened))
       | OciDigest.SHA512 =>
           Registry.blob_path reg d
           = Raise (HTTPException 500 "Invalid digest type")
           /\ Registry.blob d reg w
              = (Raise (HTTPException 500 "Invalid digest type"), reg, w)
       end.
Proof.
  apply DigestFacts.init_ok_inv in Hd as [Hw ->].
  destruct (DigestFacts.well_formed_parts s Hw) as (a & h & Hs & Hh & _).
  destruct (DigestFacts.accessors_of_form a h Hh) as [Ha He].
  rewrite <- Hs in Ha, He. exists a, h.
  split; [exact Ha|]. split; [exact He|].
  destruct a.
  - pose proof (RegistryFacts.blob_path_sha256 reg _ h Ha He) as Hp.
    cbv zeta. split; [exact Hp|].
    split; [|split]; intros x Hx;
      rewrite (RegistryFacts.blob_run _ _ _ w Hp);
      unfold Registry.blobs_path, Registry.base_v2_path in *;
      rewrite Hx; cbn [OciDigest.value]; [|reflexivity|reflexivity].
    now rewrite RegistryFacts.blob_init_ok.
  - pose proof (RegistryFacts.blob_path_sha512 reg _ Ha) as Hp.
    split; [exact Hp|]. now apply RegistryFacts.blob_run_no_path.
Qed.

Lemma blob_store_contract_witness :
  Registry.blob (Samples.digest_of DigestFormat.hex_of_a)
    Samples.sample_registry Samples.sample_world
  = (Ok (Blob.mk DigestFormat.sha256_of_a
           (Samples.dumps (JObj (Samples.manifest_members 2))) 0),
     Samples.sample_registry,
     world_emit (EvOpenBinary (Samples.blob_file DigestFormat.hex_of_a))
       Samples.sample_world)
  /\ Registry.blob (Samples.digest_of Samples.hex_of_d)
       Samples.sample_registry Samples.sample_world
     = (Raise (HTTPException 500 "Internal Server Error (Blob)"),
        Samples.sample_registry,
        world_emit
          (EvLogError ("Failed to read blob sha256:" +:+ Samples.hex_of_d
                       +:+ ": [Errno 21] Is a directory"))
          (world_emit (EvOpenBinary (Samples.blob_file Samples.hex_of_d))
             Samples.sample_world))
  /\ Registry.blob (OciDigest.mk DigestFormat.sha512_of_b)
       Samples.sample_registry Samples.sample_world
     = (Raise (HTTPException 500 "Invalid digest type"),
        Samples.sample_registry, Samples.sample_world).
Proof.
  split; [|split].
  - destruct (blob_store_contract DigestFormat.sha256_of_a
                (Samples.digest_of DigestFormat.hex_of_a)
                Samples.sample_registry Samples.sample_world eq_refl)
      as (a & h & Ha & Hh & H).
    vm_compute in Ha. injection Ha as <-.
    vm_compute in Hh. injection Hh as <-.
    destruct H as (_ & Hread & _). apply Hread. reflexivity.
  - destruct (blob_store_contract ("sha256:" +:+ Samples.hex_of_d)
                (Samples.digest_of Samples.hex_of_d)
                Samples.sample_registry Samples.sample_world eq_refl)
      as (a & h & Ha & Hh & H).
    vm_compute in Ha. injection Ha as <-.
    vm_compute in Hh. injection Hh as <-.
    destruct H as (_ & _ & _ & Herr).
    apply (Herr "[Errno 21] Is a directory"). reflexivity.
  - destruct (blob_store_contract DigestFormat.sha512_of_b
                (OciDigest.mk DigestFormat.sha512_of_b)
                Samples.sample_registry Samples.sample_world eq_refl)
      as (a & h & Ha & Hh & H).
    vm_compute in Ha. injection Ha as <-.
    apply H.
Defined.

(** ** Events of a run *)

Module EmitFacts.

Lemma steps_refl (P : event -> Prop) (w : World) : steps P w w.
Proof.
  unfold steps. repeat split; try reflexivity.
  exists []. split; [now rewrite app_nil_r | constructor].
Qed.

Lemma steps_trans (P : event -> Prop) (w1 w2 w3 : World) :
  steps P w1 w2 -> steps P w2 w3 -> steps P w1 w3.
Proof.
  intros (Hf1 & Hc1 & Ha1 & Hb1 & Ht1 & evs1 & He1 & HP1)
         (Hf2 & Hc2 & Ha2 & Hb2 & Ht2 & evs2 & He2 & HP2).
  unfold steps. repeat split; try congruence; [lia|].
  exists (evs1 ++ evs2). split.
  - now rewrite He2, He1, <- app_assoc.
  - now apply Forall_app.
Qed.

Lemma steps_weaken (P Q : event -> Prop) (w w' : World) :
  (forall ev, P ev -> Q ev) -> steps P w w' -> steps Q w w'.
Proof.
  intros HPQ (Hf & Hc & Ha & Hb & Ht & evs & He & HP).
  unfold steps. repeat split; try assumption.
  exists evs. split; [assumption|]. eapply Forall_impl; eauto.
Qed.

Lemma steps_emit (P : event -> Prop) (ev : event) (w : World) :
  P ev -> steps P w (world_emit ev w).
Proof.
  intros HP. unfold steps, world_emit. simpl. repeat split; try reflexivity.
  exists [ev]. split; [reflexivity | now constructor].
Qed.

Lemma steps_tick (P : event -> Prop) (w : World) : steps P w (world_tick w).
Proof.
  unfold steps, world_tick. simpl. repeat split; try reflexivity; [lia|].
  exists []. split; [now rewrite app_nil_r | constructor].
Qed.

Section Combinators.
Context {S : Type} (P : event -> Prop).

Lemma emits_ret {A} (a : A) : emits (S:=S) P (Prog.ret a).
Proof. intros s w. apply steps_refl. Qed.

Lemma emits_raise {A} (e : exn) : emits (S:=S) (A:=A) P (Prog.raise e).
Proof. intros s w. apply steps_refl. Qed.

Lemma emits_lift {A} (r : Result A) : emits (S:=S) P (Prog.lift r).
Proof. intros s w. apply steps_refl. Qed.

Lemma emits_get : emits (S:=S) P Prog.get.
Proof. intros s w. apply steps_refl. Qed.

Lemma emits_modify (f : S -> S) : emits P (Prog.modify f).
Proof. intros s w. apply steps_refl. Qed.

Lemma emits_ask {A} (f : World -> A) : emits (S:=S) P (Prog.ask f).
Proof. intros s w. apply steps_refl. Qed.

Lemma emits_time : emits (S:=S) P Prog.time_time.
Proof. intros s w. apply steps_tick. Qed.

Lemma emits_iterdir (p : Path) :
  P (EvIterdir p) -> emits (S:=S) P (Prog.iterdir p).
Proof. intros HP s w. now apply steps_emit. Qed.

Lemma emits_rglob (p : Path) (pattern : string) :
  P (EvRglob p pattern) -> emits (S:=S) P (Prog.rglob p pattern).
Proof. intros HP s w. now apply steps_emit. Qed.

Lemma emits_read_text (p : Path) :
  P (EvOpenText p) -> emits (S:=S) P (Prog.read_text p).
Proof. intros HP s w. now apply steps_emit. Qed.

Lemma emits_bind {A B} (m : M S A) (f : A -> M S B) :
  emits P m -> (forall a, emits P (f a)) -> emits P (Prog.bind m f).
Proof.
  intros Hm Hf s w. unfold Prog.bind.
  specialize (Hm s w). destruct (m s w) as [[[a|e] s'] w']; simpl in *.
  - eapply steps_trans; [exact Hm | apply Hf].
  - exact Hm.
Qed.

Lemma emits_for_each {A} (l : list A) (body : A -> M S unit) :
  (forall x, emits P (body x)) -> emits P (Prog.for_each l body).
Proof.
  intros Hb. induction l as [|x l IH]; simpl.
  - apply emits_ret.
  - apply emits_bind; [apply Hb | intros _; exact IH].
Qed.

Lemma emits_for_collect {A B} (l : list A) (body : A -> M S B) :
  (forall x, emits P (body x)) -> emits P (Prog.for_collect l body).
Proof.
  intros Hb. induction l as [|x l IH]; simpl.
  - apply emits_ret.
  - apply emits_bind; [apply Hb|]. intros y.
    apply emits_bind; [exact IH|]. intros ys. apply emits_ret.
Qed.
End Combinators.

Ltac emits_step :=
  first
    [ apply emits_bind; [|intros ?]
    | apply emits_ret | apply emits_raise | apply emits_lift
    | apply emits_get | apply emits_modify | apply emits_ask
    | apply emits_time
    | apply emits_iterdir; exact I
    | apply emits_read_text; exact I
    | apply emits_rglob; exact I
    | apply emits_for_each; intros ?
    | apply emits_for_collect; intros ?
    | match goal with
      | |- emits _ (match ?x with _ => _ end) => destruct x
      | |- emits _ (if ?x then _ else _) => destruct x
      end ].

Lemma emits_repository_load : emits repository_event Repository.load.
Proof.
  unfold Repository.load, Repository.hash_for_tag. repeat emits_step.
Qed.

Lemma emits_registry_load : emits registry_event Registry.load.
Proof. unfold Registry.load. repeat emits_step. Qed.

Lemma emits_weaken {S A} (P Q : event -> Prop) (m : M S A) :
  (forall ev, P ev -> Q ev) -> emits P m -> emits Q m.
Proof. intros HPQ Hm s w. eapply steps_weaken; eauto. Qed.

Lemma emits_repositories : emits registry_event Registry.repositories.
Proof.
  unfold Registry.repositories. repeat emits_step.
Qed.

Lemma emits_on_repository {A} (P : event -> Prop) (name : string)
    (repository : Repository.t) (m : M Repository.t A) :
  emits P m -> emits P (Registry.on_repository name repository m).
Proof.
  intros Hm s w. unfold Registry.on_repository.
  specialize (Hm repository w). now destruct (m repository w) as [[r s'] w'].
Qed.

Lemma emits_repository (name : string) :
  emits cache_event (Registry.repository name).
Proof.
  unfold Registry.repository.
  apply emits_bind.
  - eapply emits_weaken; [|apply emits_repositories]. intros ev; now right.
  - intros repos. repeat emits_step.
    apply emits_on_repository.
    eapply emits_weaken; [|apply emits_repository_load]. intros ev; now left.
Qed.

(** A run of [steps P] with no binary read in [P] reads no blob. *)
Lemma steps_blob_reads (P : event -> Prop) (w w' : World) :
  (forall p, ~ P (EvOpenBinary p)) ->
  steps P w w' -> blob_reads (trace w') = blob_reads (trace w).
Proof.
  intros HP (_ & _ & _ & _ & _ & evs & -> & Hall).
  unfold blob_reads. rewrite omap_app.
  replace (omap _ evs) with (@nil Path); [now rewrite app_nil_r|].
  induction Hall as [|ev evs Hev _ IH]; [reflexivity|].
  destruct ev; simpl; try exact IH. now apply HP in Hev.
Qed.

End EmitFacts.

(** ** The two caches *)

Module CacheFacts.
Import ProgFacts EmitFacts.

(** The loop of [Registry.load] touches neither the world nor the root and
    the load time of the registry. *)
Lemma scan_loop (path : Path) (found : list Path) :
  forall (s : Registry.t) (w : World),
  exists r s',
    Prog.for_each found (fun manifest_path =>
      Prog.bind
        (Prog.lift (PathOps.relative_to (PathOps.parent manifest_path) path))
        (fun rel =>
         Prog.modify (fun self =>
           Registry.set_cached_repositories
             (<[PathOps.as_posix rel :=
                  Repository.init (PathOps.parent manifest_path)
                    (PathOps.as_posix rel)]>
                (Registry.cached_repositories self)) self)))
      s w = (r, s', w)
    /\ Registry.root s' = Registry.root s
    /\ Registry.last_load s' = Registry.last_load s.
Proof.
  induction found as [|x found IH]; intros s w.
  - exists (Ok tt), s. auto.
  - cbn [Prog.for_each]. rewrite bind_run.
    unfold Prog.bind at 1, Prog.lift, Prog.modify.
    destruct (PathOps.relative_to (PathOps.parent x) path) as [rel|e].
    + edestruct IH as (r & s' & E & Hroot & Hlast).
      exists r, s'. split; [exact E|]. split; [exact Hroot | exact Hlast].
    + exists (Raise e), s. auto.
Qed.

Lemma registry_load_run (self : Registry.t) (w : World) :
  Registry.load self w
  = let path := Registry.repositories_path self in
    let w1 := world_emit (EvRglob path "_manifests") w in
    match fs_rglob (fs w) path "_manifests" with
    | Ok found =>
        match
          Prog.for_each found (fun manifest_path =>
            Prog.bind
              (Prog.lift (PathOps.relative_to (PathOps.parent manifest_path) path))
              (fun rel =>
               Prog.modify (fun self =>
                 Registry.set_cached_repositories
                   (<[PathOps.as_posix rel :=
                        Repository.init (PathOps.parent manifest_path)
                          (PathOps.as_posix rel)]>
                      (Registry.cached_repositories self)) self)))
            (Registry.set_cached_repositories ∅ self) w1
        with
        | (Ok _, s', w') =>
            (Ok tt, Registry.set_last_load (clock w' (ticks w')) s', world_tick w')
        | (Raise e, s', w') => (Raise e, s', w')
        end
    | Raise e => (Raise e, Registry.set_cached_repositories ∅ self, w1)
    end.
Proof.
  unfold Registry.load.
  rewrite bind_run. unfold Prog.get at 1. cbv beta iota zeta.
  rewrite bind_run. unfold Prog.modify at 1. cbv beta iota.
  rewrite bind_run. unfold Prog.rglob at 1. cbv beta iota.
  destruct (fs_rglob (fs w) (Registry.repositories_path self) "_manifests")
    as [found|e]; [|reflexivity].
  rewrite bind_run.
  match goal with
  | |- context [match ?m with _ => _ end] => destruct m as [[[[]|e] s'] w']
  end; reflexivity.
Qed.

Lemma registry_load_cases (self : Registry.t) (w : World) :
  let ev := EvRglob (Registry.repositories_path self) "_manifests" in
  (exists s',
      Registry.load self w = (Ok tt, s', world_tick (world_emit ev w))
      /\ Registry.last_load s' = clock w (ticks w)
      /\ Registry.root s' = Registry.root self)
  \/ (exists e s',
         Registry.load self w = (Raise e, s', world_emit ev w)
         /\ Registry.last_load s' = Registry.last_load self
         /\ Registry.root s' = Registry.root self).
Proof.
  cbv zeta. rewrite registry_load_run. cbv zeta.
  destruct (fs_rglob (fs w) (Registry.repositories_path self) "_manifests")
    as [found|e].
  - destruct (scan_loop (Registry.repositories_path self) found
                (Registry.set_cached_repositories ∅ self)
                (world_emit (EvRglob (Registry.repositories_path self)
                               "_manifests") w))
      as ([[]|e] & s' & E & Hroot & Hlast); rewrite E.
    + left. eexists. split; [reflexivity|]. auto.
    + right. exists e, s'. auto.
  - right. eexists _, _. split; [reflexivity|]. auto.
Qed.

Lemma repositories_run (self : Registry.t) (w : World) :
  Registry.repositories self w
  = if PyFloat.gt (clock w (ticks w))
       (PyFloat.add (Registry.last_load self) (registry_load_ttl w))
    then match Registry.load self (world_tick w) with
         | (Ok _, s', w') => (Ok (Registry.cached_repositories s'), s', w')
         | (Raise e, s', w') => (Raise e, s', w')
         end
    else (Ok (Registry.cached_repositories self), self, world_tick w).
Proof.
  unfold Registry.repositories, Prog.bind, Prog.time_time, Prog.get, Prog.ask,
    Prog.ret.
  cbn [registry_load_ttl world_tick].
  destruct (PyFloat.gt (clock w (ticks w))
       (PyFloat.add (Registry.last_load self) (registry_load_ttl w)));
    [|reflexivity].
  now destruct (Registry.load self (world_tick w)) as [[[[]|e] s'] w'].
Qed.

Lemma registry_scans_snoc (tr : list event) (p : Path) (pattern : string) :
  registry_scans (tr ++ [EvRglob p pattern]) = registry_scans tr ++ [p].
Proof. unfold registry_scans. now rewrite omap_app. Qed.

(** [repositories] scans exactly when the cache is stale. *)
Lemma repositories_scans (self : Registry.t) (w : World) :
  registry_scans (trace (Registry.repositories self w).2)
  = registry_scans (trace w)
    ++ (if PyFloat.gt (clock w (ticks w))
       (PyFloat.add (Registry.last_load self) (registry_load_ttl w))
        then [Registry.repositories_path self] else []).
Proof.
  rewrite repositories_run.
  destruct (PyFloat.gt (clock w (ticks w))
       (PyFloat.add (Registry.last_load self) (registry_load_ttl w))).
  - destruct (registry_load_cases self (world_tick w))
      as [(s' & -> & _)|(e & s' & -> & _)]; simpl;
      apply registry_scans_snoc.
  - simpl. now rewrite app_nil_r.
Qed.

Lemma repositories_fresh (self : Registry.t) (w : World) :
  (PyFloat.gt (clock w (ticks w))
       (PyFloat.add (Registry.last_load self) (registry_load_ttl w))) = false ->
  Registry.repositories self w
  = (Ok (Registry.cached_repositories self), self, world_tick w).
Proof. intros H. now rewrite repositories_run, H. Qed.

Lemma repositories_stale_ok (self s' : Registry.t) (w w' : World)
    (repos : gmap string Repository.t) :
  (PyFloat.gt (clock w (ticks w))
       (PyFloat.add (Registry.last_load self) (registry_load_ttl w))) = true ->
  Registry.repositories self w = (Ok repos, s', w') ->
  Registry.last_load s' = clock w (S (ticks w))
  /\ Registry.root s' = Registry.root self
  /\ repos = Registry.cached_repositories s'.
Proof.
  intros Hstale. rewrite repositories_run, Hstale.
  destruct (registry_load_cases self (world_tick w))
    as [(s1 & -> & Hlast & Hroot)|(e & s1 & -> & _)]; [|discriminate].
  intros H. injection H as <- <- <-. auto.
Qed.

(** A reload of a repository begins by listing its revisions root. *)
Lemma repository_load_starts (self : Repository.t) (w : World) :
  exists rest,
    trace (Repository.load self w).2
    = trace w ++ EvIterdir (Repository.revisions_path self) :: rest.
Proof.
  unfold Repository.load.
  rewrite bind_run. unfold Prog.get at 1. cbv beta iota zeta.
  rewrite bind_run. unfold Prog.modify at 1. cbv beta iota.
  rewrite bind_run. unfold Prog.iterdir at 1. cbv beta iota.
  destruct (fs_iterdir (fs w) (Repository.revisions_path self)) as [names|e].
  - match goal with
    | |- context [trace (?m ?s ?w1).2] =>
        assert (Hk : emits (fun _ => True) m)
          by (unfold Repository.hash_for_tag; repeat emits_step);
        destruct (Hk s w1) as (_ & _ & _ & _ & _ & evs & -> & _)
    end.
    exists evs. simpl. now rewrite <- app_assoc.
  - exists []. reflexivity.
Qed.

Lemma repository_run (name : string) (self : Registry.t) (w : World) :
  Registry.repository name self w
  = match Registry.repositories self w with
    | (Raise e, s0, w0) => (Raise e, s0, w0)
    | (Ok repositories, s0, w0) =>
        match repositories !! name with
        | None => (Raise (HTTPException 404 "Repository not found"), s0, w0)
        | Some repository =>
            if PyFloat.gt (clock w0 (ticks w0))
       (PyFloat.add (Repository.last_load repository) (repository_load_ttl w0))
            then
              match Repository.load repository (world_tick w0) with
              | (r, repository', w1) =>
                  (match r with
                   | Ok _ => Ok repository'
                   | Raise e => Raise e
                   end,
                   Registry.set_cached_repositories
                     (<[name := repository']> (Registry.cached_repositories s0))
                     s0,
                   w1)
              end
            else (Ok repository, s0, world_tick w0)
        end
    end.
Proof.
  unfold Registry.repository. rewrite bind_run.
  destruct (Registry.repositories self w) as [[[repos|e] s0] w0];
    [|reflexivity].
  destruct (repos !! name) as [repository|]; [|reflexivity].
  unfold Prog.bind, Prog.time_time, Prog.ask, Prog.ret, Registry.on_repository.
  cbn [repository_load_ttl world_tick].
  destruct (PyFloat.gt (clock w0 (ticks w0))
       (PyFloat.add (Repository.last_load repository) (repository_load_ttl w0)));
    [|reflexivity].
  now destruct (Repository.load repository (world_tick w0)) as [[[[]|e] s'] w'].
Qed.

End CacheFacts.

(** ** Manifest and config resolution *)

Module ResolveFacts.
Import ProgFacts.

Section WithLibraries.
Context {J : JsonLib} {P : Pydantic}.

(** [manifest] up to the revision check. *)
Lemma manifest_gate (name : string) (d : OciDigest.t) (self : Registry.t)
    (w : World) :
  match Registry.repository name self w with
  | (Raise e, s1, w1) => Registry.manifest name d self w = (Raise e, s1, w1)
  | (Ok repository, s1, w1) =>
      Repository.cached_revisions repository !! OciDigest.value d = None ->
      Registry.manifest name d self w
      = (Raise (HTTPException 404 "Revision not found"), s1, w1)
  end.
Proof.
  unfold Registry.manifest. rewrite bind_run.
  destruct (Registry.repository name self w) as [[[repository|e] s1] w1];
    [|reflexivity].
  intros Hnone. rewrite bind_run. unfold Prog.lift at 1, Repository.revision.
  now rewrite Hnone.
Qed.

(** [manifest] once the blob of the revision is in hand. *)
Lemma manifest_decode (name : string) (d d' : OciDigest.t)
    (self s1 s2 : Registry.t) (w w1 w2 : World)
    (repository : Repository.t) (revision : Revision.t) (blob : Blob.t) :
  Registry.repository name self w = (Ok repository, s1, w1) ->
  Repository.cached_revisions repository !! OciDigest.value d = Some revision ->
  OciDigest.init (Revision.digest revision) = Ok d' ->
  Registry.blob d' s1 w1 = (Ok blob, s2, w2) ->
  Registry.manifest name d self w
  = match json_loads (Blob.content blob) with
    | Raise (JSONDecodeError e) =>
        (Raise (HTTPException 500 "Internal Server Error (JSON-blob)"), s2,
         world_emit
           (EvLogError ("Failed to parse manifest "
                        +:+ Revision.digest revision +:+ ": " +:+ e)) w2)
    | Raise e => (Raise e, s2, w2)
    | Ok (JObj data) =>
        if json_eq_str (dict_get "mediaType" data) OciMediaType.oci_image_index
        then
          match OciImageIndex.init data with
          | Ok i => (Ok (Index i), s2, w2)
          | Raise (ValidationError m) =>
              (Raise (HTTPException 500 "Internal Server Error (OciImageIndex)"),
               s2, world_emit (EvLogError (exn_str (ValidationError m))) w2)
          | Raise e => (Raise e, s2, w2)
          end
        else if json_eq_str (dict_get "mediaType" data)
                  OciMediaType.oci_image_manifest
        then
          match OciImageManifest.init data with
          | Ok m => (Ok (Image m), s2, w2)
          | Raise (ValidationError m) =>
              (Raise (HTTPException 500 "Internal Server Error (OciImageManifest)"),
               s2, world_emit (EvLogError (exn_str (ValidationError m))) w2)
          | Raise e => (Raise e, s2, w2)
          end
        else (Raise (HTTPException 500 "Internal Server Error (MediaType)"),
              s2, w2)
    | Ok _ => (Raise (AttributeError "object has no attribute 'get'"), s2, w2)
    end.
Proof.
  intros Hrepo Hrev Hd Hblob.
  unfold Registry.manifest. rewrite bind_run, Hrepo.
  rewrite bind_run. unfold Prog.lift at 1, Repository.revision. rewrite Hrev.
  rewrite bind_run. unfold Prog.lift at 1. rewrite Hd.
  rewrite bind_run, Hblob.
  destruct (json_loads (Blob.content blob)) as [[]|[]]; try reflexivity.
  - destruct (json_eq_str _ OciMediaType.oci_image_index).
    + destruct (OciImageIndex.init members) as [i|[]]; reflexivity.
    + destruct (json_eq_str _ OciMediaType.oci_image_manifest);
        [|reflexivity].
      destruct (OciImageManifest.init members) as [m|[]]; reflexivity.
Qed.

(** [config] once the blob is in hand. *)
Lemma config_decode (d : OciDigest.t) (self s1 : Registry.t) (w w1 : World)
    (blob : Blob.t) :
  Registry.blob d self w = (Ok blob, s1, w1) ->
  Registry.config d self w
  = match json_loads (Blob.content blob) with
    | Raise (JSONDecodeError e) =>
        (Raise (HTTPException 500 "Internal Server Error (JSON-blob)"), s1,
         world_emit
           (EvLogError ("Failed to parse config " +:+ OciDigest.value d
                        +:+ ": " +:+ e)) w1)
    | Raise e => (Raise e, s1, w1)
    | Ok (JObj data) => (OciImageConfig.init data, s1, w1)
    | Ok _ => (Raise (TypeError "argument after ** must be a mapping"), s1, w1)
    end.
Proof.
  intros Hblob. unfold Registry.config. rewrite bind_run, Hblob.
  destruct (json_loads (Blob.content blob)) as [[]|[]]; reflexivity.
Qed.
End WithLibraries.

End ResolveFacts.

(** C1. [manifest] resolves the repository first and gives back whatever
    that raises; resolving reads no blob. With the repository in hand, a
    digest that is not a key of its revision cache is answered with 404
    'Revision not found' in the very state and world the resolution left: no
    blob is read, whatever the blob store holds. So a call that returns a
    manifest, or that reads a blob at all, was made with a digest that is a
    revision of the repository. *)
Theorem manifest_only_for_known_revisions {J : JsonLib} {P : Pydantic}
    (name : string) (d : OciDigest.t)
    (reg reg1 : Registry.t) (w w1 : World) (r1 : Result Repository.t)
    (Hrepo : Registry.repository name reg w = (r1, reg1, w1)) :
  blob_reads (trace w1) = blob_reads (trace w)
  /\ match r1 with
     | Raise e => Registry.manifest name d reg w = (Raise e, reg1, w1)
     | Ok repository =>
         (Repository.cached_revisions repository !! OciDigest.value d = None ->
          Registry.manifest name d reg w
          = (Raise (HTTPException 404 "Revision not found"), reg1, w1))
         /\ (forall r reg2 w2,
                Registry.manifest name d reg w = (r, reg2, w2) ->
                is_ok r = true \/ blob_reads (trace w2) <> blob_reads (trace w) ->
                is_Some (Repository.cached_revisions repository
                           !! OciDigest.value d))
     end.
Proof.
  assert (Hreads : blob_reads (trace w1) = blob_reads (trace w)).
  { pose proof (EmitFacts.emits_repository name reg w) as Hsteps.
    rewrite Hrepo in Hsteps.
    eapply EmitFacts.steps_blob_reads; [|exact Hsteps].
    intros p [H|H]; exact H. }
  split; [exact Hreads|].
  pose proof (ResolveFacts.manifest_gate name d reg w) as Hgate.
  rewrite Hrepo in Hgate.
  destruct r1 as [repository|e]; [|exact Hgate].
  split; [exact Hgate|].
  intros r reg2 w2 Hrun Hobs.
  destruct (Repository.cached_revisions repository !! OciDigest.value d)
    as [revision|] eqn:E; [eauto|].
  rewrite (Hgate eq_refl) in Hrun. injection Hrun as <- <- <-.
  destruct Hobs as [Hok|Hne]; [discriminate | contradiction].
Qed.

(** On the sample registry: the digest eeee... has a blob in the store but
    is not a revision of app, and [manifest] answers 404 without reading a
    blob; the digest aaaa... is a revision and resolves. *)
Lemma manifest_only_for_known_revisions_witness :
  exists reg1 w1,
    @Registry.manifest Samples.sample_json exact_types "app"
      (Samples.digest_of Samples.hex_of_e)
      Samples.sample_registry Samples.sample_world
    = (Raise (HTTPException 404 "Revision not found"), reg1, w1)
    /\ blob_reads (trace w1) = []
    /\ fs_read_bytes (fs w1) (Samples.blob_file Samples.hex_of_e) = Ok "{}".
Proof.
  destruct (Registry.repository "app" Samples.sample_registry Samples.sample_world)
    as [[r1 reg1] w1] eqn:E.
  assert (Hr : match r1 with
               | Ok repository =>
                   Repository.cached_revisions repository
                     !! ("sha256:" +:+ Samples.hex_of_e) = None
               | Raise _ => False
               end).
  { change r1 with (r1, reg1, w1).1.1. rewrite <- E. vm_compute. reflexivity. }
  assert (Hfs : fs_read_bytes (fs w1) (Samples.blob_file Samples.hex_of_e) = Ok "{}").
  { change w1 with (r1, reg1, w1).2. rewrite <- E. vm_compute. reflexivity. }
  destruct (@manifest_only_for_known_revisions Samples.sample_json exact_types
              "app" (Samples.digest_of Samples.hex_of_e) _ _ _ _ _ E)
    as [Hreads H].
  destruct r1 as [repository|e]; [|contradiction].
  destruct H as [H404 _].
  exists reg1, w1. split; [apply H404; exact Hr|]. split; [exact Hreads | exact Hfs].
Defined.

(** What [manifest] does with a stored document that is a JSON object, for
    any [json.loads] and any pydantic coercions: the index media type gives
    the validated index, the manifest media type the validated manifest, and
    every failure (a document that is not JSON, a schema violation, another
    or no media type) is answered with status 500. *)
Lemma manifest_dispatch_on_objects {J : JsonLib} {P : Pydantic}
    (name : string) (d d' : OciDigest.t)
    (reg s1 s2 : Registry.t) (w w1 w2 : World)
    (repository : Repository.t) (revision : Revision.t) (blob : Blob.t)
    (Hrepo : Registry.repository name reg w = (Ok repository, s1, w1))
    (Hrev : Repository.cached_revisions repository !! OciDigest.value d
            = Some revision)
    (Hd : OciDigest.init (Revision.digest revision) = Ok d')
    (Hblob : Registry.blob d' s1 w1 = (Ok blob, s2, w2)) :
  (forall msg,
      json_loads (Blob.content blob) = Raise (JSONDecodeError msg) ->
      (Registry.manifest name d reg w).1.1
      = Raise (HTTPException 500 "Internal Server Error (JSON-blob)"))
  /\ (forall data,
         json_loads (Blob.content blob) = Ok (JObj data) ->
         let mediaType := dict_get "mediaType" data in
         (json_eq_str mediaType OciMediaType.oci_image_index = true ->
          (Registry.manifest name d reg w).1.1
          = match OciImageIndex.init data with
            | Ok i => Ok (Index i)
            | Raise _ =>
                Raise (HTTPException 500 "Internal Server Error (OciImageIndex)")
            end)
         /\ (json_eq_str mediaType OciMediaType.oci_image_manifest = true ->
             (Registry.manifest name d reg w).1.1
             = match OciImageManifest.init data with
               | Ok m => Ok (Image m)
               | Raise _ =>
                   Raise (HTTPException 500 "Internal Server Error (OciImageManifest)")
               end)
         /\ (json_eq_str mediaType OciMediaType.oci_image_index = false ->
             json_eq_str mediaType OciMediaType.oci_image_manifest = false ->
             (Registry.manifest name d reg w).1.1
             = Raise (HTTPException 500 "Internal Server Error (MediaType)"))).
Proof.
  rewrite (ResolveFacts.manifest_decode _ _ _ _ _ _ _ _ _ _ _ _
             Hrepo Hrev Hd Hblob).
  split.
  - intros msg ->. reflexivity.
  - intros data ->. cbv zeta. split; [|split].
    + intros ->. unfold OciImageIndex.init.
      now destruct (OciImageIndex.fields data).
    + intros Hm.
      destruct (json_eq_str (dict_get "mediaType" data)
                  OciMediaType.oci_image_index) eqn:Hi.
      * (* both media types at once: impossible *)
        unfold json_eq_str in Hi, Hm.
        destruct (dict_get "mediaType" data) as [[]|]; try discriminate.
        apply String.eqb_eq in Hi, Hm. subst. discriminate.
      * rewrite Hm. unfold OciImageManifest.init.
        now destruct (OciImageManifest.fields data).
    + intros -> ->. reflexivity.
Qed.

(** C3 (the code differs). A revision whose blob is the JSON document []
    is read and parsed, and then [manifest] raises AttributeError, from
    [data.get] on a list: no handler turns it into the 500 that the other
    malformed documents get, and nothing is logged. *)
Theorem manifest_of_json_array_is_not_handled :
  fs_read_bytes Samples.sample_fs (Samples.blob_file Samples.hex_of_c) = Ok "[]"
  /\ @json_loads Samples.sample_json "[]" = Ok (JArr [])
  /\ (@Registry.manifest Samples.sample_json exact_types "app"
        (Samples.digest_of Samples.hex_of_c)
        Samples.sample_registry Samples.sample_world).1.1
     = Raise (AttributeError "object has no attribute 'get'")
  /\ log_lines
       (trace (@Registry.manifest Samples.sample_json exact_types "app"
                 (Samples.digest_of Samples.hex_of_c)
                 Samples.sample_registry Samples.sample_world).2)
     = []
  /\ (@Registry.manifest Samples.sample_json exact_types "app"
        (Samples.digest_of Samples.hex_of_f)
        Samples.sample_registry Samples.sample_world).1.1
     = Raise (HTTPException 500 "Internal Server Error (JSON-blob)").
Proof. repeat split; vm_compute; reflexivity. Qed.

(** The same for any [json.loads]: a stored document that parses to a JSON
    value other than an object makes [manifest] raise AttributeError. *)
Lemma manifest_of_non_object {J : JsonLib} {P : Pydantic}
    (name : string) (d d' : OciDigest.t)
    (reg s1 s2 : Registry.t) (w w1 w2 : World)
    (repository : Repository.t) (revision : Revision.t) (blob : Blob.t)
    (data : json) :
  Registry.repository name reg w = (Ok repository, s1, w1) ->
  Repository.cached_revisions repository !! OciDigest.value d = Some revision ->
  OciDigest.init (Revision.digest revision) = Ok d' ->
  Registry.blob d' s1 w1 = (Ok blob, s2, w2) ->
  json_loads (Blob.content blob) = Ok data ->
  (forall members, data <> JObj members) ->
  Registry.manifest name d reg w
  = (Raise (AttributeError "object has no attribute 'get'"), s2, w2).
Proof.
  intros Hrepo Hrev Hd Hblob Hdata Hne.
  rewrite (ResolveFacts.manifest_decode _ _ _ _ _ _ _ _ _ _ _ _
             Hrepo Hrev Hd Hblob), Hdata.
  destruct data; try reflexivity. now destruct (Hne members).
Qed.

(** C4 (the code differs). [config] on a blob that holds the JSON object {}:
    the document parses, [OciImageConfig] rejects it (architecture, os and
    rootfs are missing), and the ValidationError leaves [config] as it is:
    nothing is logged and no 500 is raised in its place, unlike the same
    failure in [manifest]. *)
Theorem config_validation_error_is_not_handled :
  fs_read_bytes Samples.sample_fs (Samples.blob_file Samples.hex_of_e) = Ok "{}"
  /\ @json_loads Samples.sample_json "{}" = Ok (JObj [])
  /\ @Registry.config Samples.sample_json exact_types
       (Samples.digest_of Samples.hex_of_e)
       Samples.sample_registry Samples.sample_world
     = (Raise (ValidationError "OciImageConfig"), Samples.sample_registry,
        world_emit (EvOpenBinary (Samples.blob_file Samples.hex_of_e))
          Samples.sample_world)
  /\ @Registry.config Samples.sample_json exact_types
       (Samples.digest_of Samples.hex_of_f)
       Samples.sample_registry Samples.sample_world
     = (Raise (HTTPException 500 "Internal Server Error (JSON-blob)"),
        Samples.sample_registry,
        world_emit
          (EvLogError ("Failed to parse config sha256:" +:+ Samples.hex_of_f
                       +:+ ": Expecting value"))
          (world_emit (EvOpenBinary (Samples.blob_file Samples.hex_of_f))
             Samples.sample_world)).
Proof. repeat split; vm_compute; reflexivity. Qed.

(** The same for any [json.loads] and any coercions: whatever
    [OciImageConfig] raises on the parsed object is what [config] raises, in
    the world the blob read left. *)
Lemma config_passes_validation_errors_on {J : JsonLib} {P : Pydantic}
    (d : OciDigest.t) (reg s1 : Registry.t) (w w1 : World) (blob : Blob.t)
    (data : list (string * json)) (e : exn) :
  Registry.blob d reg w = (Ok blob, s1, w1) ->
  json_loads (Blob.content blob) = Ok (JObj data) ->
  OciImageConfig.init data = Raise e ->
  Registry.config d reg w = (Raise e, s1, w1)
  /\ e = ValidationError "OciImageConfig".
Proof.
  intros Hblob Hdata He.
  rewrite (ResolveFacts.config_decode _ _ _ _ _ _ Hblob), Hdata, He.
  split; [reflexivity|].
  unfold OciImageConfig.init in He.
  destruct (OciImageConfig.fields data); [discriminate | now injection He].
Qed.

(** ** Invariants of a run *)

Module EnsureFacts.
Import ProgFacts.

Section Rules.
Context {S : Type}.

Lemma ensures_bind {A B} (I J : S -> Prop) (m : M S A) (f : A -> M S B) :
  ensures I I m -> (forall a, ensures I J (f a)) -> ensures I J (Prog.bind m f).
Proof.
  intros Hm Hf s w HI. unfold Prog.bind.
  specialize (Hm s w HI). destruct (m s w) as [[[a|e] s'] w'].
  - apply Hf, Hm.
  - exact Hm.
Qed.

(** a program that leaves the state alone keeps every invariant *)
Lemma ensures_same_state {A} (I : S -> Prop) (m : M S A) :
  (forall s w, (m s w).1.2 = s) -> ensures I I m.
Proof.
  intros Hm s w HI. specialize (Hm s w).
  destruct (m s w) as [[[a|e] s'] w']; simpl in Hm; now subst.
Qed.

Lemma ensures_lift_bind {A B} (I J : S -> Prop) (r : Result A) (f : A -> M S B) :
  (forall a, r = Ok a -> ensures I J (f a)) ->
  ensures I J (Prog.bind (Prog.lift r) f).
Proof.
  intros Hf s w HI. unfold Prog.bind, Prog.lift.
  destruct r as [a|e]; [now apply Hf | exact HI].
Qed.

Lemma ensures_modify (I J : S -> Prop) (f : S -> S) :
  (forall s, I s -> J (f s)) -> ensures I J (Prog.modify f).
Proof. intros Hf s w HI. now apply Hf. Qed.

Lemma ensures_for_each {A} (I : S -> Prop) (l : list A) (body : A -> M S unit) :
  (forall x, ensures I I (body x)) -> ensures I I (Prog.for_each l body).
Proof.
  intros Hb. induction l as [|x l IH]; simpl.
  - now apply ensures_same_state.
  - apply ensures_bind; [apply Hb | intros _; exact IH].
Qed.

Lemma ensures_for_collect {A B} (I : S -> Prop) (l : list A) (body : A -> M S B) :
  (forall x, ensures I I (body x)) -> ensures I I (Prog.for_collect l body).
Proof.
  intros Hb. induction l as [|x l IH]; simpl.
  - now apply ensures_same_state.
  - apply ensures_bind; [apply Hb|]. intros y.
    apply ensures_bind; [exact IH|]. intros ys. now apply ensures_same_state.
Qed.

Lemma ensures_weaken {A} (I J J' : S -> Prop) (m : M S A) :
  (forall s, J s -> J' s) -> ensures I J m -> ensures I J' m.
Proof.
  intros HJ Hm s w HI. specialize (Hm s w HI).
  destruct (m s w) as [[[a|e] s'] w']; auto.
Qed.
End Rules.

Lemma revisions_consistent_empty : revisions_consistent ∅.
Proof. intros k rev H. rewrite lookup_empty in H. discriminate. Qed.

Lemma revisions_consistent_insert (m : gmap string Revision.t) (k : string)
    (rev : Revision.t) :
  revisions_consistent m ->
  DigestFormat.well_formed k ->
  Revision.digest rev = k ->
  Forall (fun t => Tag.digest t = k) (Revision.tags rev) ->
  revisions_consistent (<[k := rev]> m).
Proof.
  intros Hm Hw Hd Ht k' rev' H.
  destruct (decide (k = k')) as [<-|Hne].
  - rewrite lookup_insert_eq in H. injection H as <-. auto.
  - rewrite lookup_insert_ne in H by assumption. now apply Hm.
Qed.

Lemma hash_for_tag_state (tag : string) (s : Repository.t) (w : World) :
  (Repository.hash_for_tag tag s w).1.2 = s.
Proof. now rewrite RepositoryFacts.hash_for_tag_run. Qed.

Lemma link_tag_ensures (p : Path) (n : string) (t : PyFloat.t) (tag : Tag.t) :
  ensures (loading p n t) (loading p n t)
    (Prog.bind Prog.get (fun self =>
       match Repository.cached_revisions self !! Tag.digest tag with
       | None => Prog.raise (KeyError (Tag.digest tag))
       | Some revision =>
           Prog.modify (Repository.set_cached_revisions
             (<[Tag.digest tag := Revision.tags_append tag revision]>
                (Repository.cached_revisions self)))
       end)).
Proof.
  intros s w HI. unfold Prog.bind, Prog.get.
  destruct (Repository.cached_revisions s !! Tag.digest tag) as [rev|] eqn:E;
    [|exact HI].
  unfold Prog.modify. destruct HI as (Hp & Hn & Ht & Hc).
  split; [exact Hp|]. split; [exact Hn|]. split; [exact Ht|].
  cbn [Repository.cached_revisions Repository.set_cached_revisions].
  destruct (Hc _ _ E) as (Hw & Hd & Htags).
  apply revisions_consistent_insert; try assumption.
  cbn [Revision.tags Revision.tags_append]. apply Forall_app. split; [assumption|].
  now constructor.
Qed.

Lemma add_revision_ensures (p : Path) (n : string) (t : PyFloat.t) (child : string) :
  ensures (loading p n t) (loading p n t)
    (Prog.bind (Prog.lift (OciDigest.from_raw_digest OciDigest.SHA256 child))
       (fun digest =>
        Prog.bind (Prog.lift (Revision.init (OciDigest.value digest)))
          (fun revision =>
           Prog.modify (fun self =>
             Repository.set_cached_revisions
               (<[OciDigest.value digest := revision]>
                  (Repository.cached_revisions self)) self)))).
Proof.
  apply ensures_lift_bind. intros digest Hd.
  apply DigestFacts.init_ok_inv in Hd as [Hw ->].
  apply ensures_lift_bind. intros revision Hr. cbn [OciDigest.value] in *.
  destruct (RepositoryFacts.revision_init_cases
              (OciDigest.Algorithm_value OciDigest.SHA256 +:+ ":" +:+ child))
    as [[_ E]|[Hn _]]; [|contradiction].
  rewrite E in Hr. injection Hr as <-.
  apply ensures_modify. intros s (Hp & Hn & Ht & Hc).
  split; [exact Hp|]. split; [exact Hn|]. split; [exact Ht|].
  cbn [Repository.cached_revisions Repository.set_cached_revisions].
  apply revisions_consistent_insert; auto.
Qed.

Lemma load_tail_ensures (self : Repository.t) (names : list string) :
  ensures
    (loading (Repository.path self) (Repository.name self)
       (Repository.last_load self))
    (loaded (Repository.path self) (Repository.name self))
    (Prog.bind
       (Prog.for_each names (fun child =>
          Prog.bind (Prog.lift (OciDigest.from_raw_digest OciDigest.SHA256 child))
            (fun digest =>
             Prog.bind (Prog.lift (Revision.init (OciDigest.value digest)))
               (fun revision =>
                Prog.modify (fun self =>
                  Repository.set_cached_revisions
                    (<[OciDigest.value digest := revision]>
                       (Repository.cached_revisions self)) self)))))
       (fun _ =>
        Prog.bind (Prog.iterdir (Repository.tags_path self)) (fun children =>
        Prog.bind
          (Prog.for_collect children (fun child =>
             Prog.bind (Repository.hash_for_tag child) (fun digest =>
               Prog.lift (Tag.init child (OciDigest.value digest)))))
          (fun tags =>
           Prog.bind
             (Prog.for_each tags (fun tag =>
                Prog.bind Prog.get (fun self =>
                  match Repository.cached_revisions self !! Tag.digest tag with
                  | None => Prog.raise (KeyError (Tag.digest tag))
                  | Some revision =>
                      Prog.modify (Repository.set_cached_revisions
                        (<[Tag.digest tag := Revision.tags_append tag revision]>
                           (Repository.cached_revisions self)))
                  end)))
             (fun _ =>
              Prog.bind Prog.time_time (fun now =>
                Prog.modify (Repository.set_last_load now))))))).
Proof.
  apply ensures_bind.
  { apply ensures_for_each. intros child. apply add_revision_ensures. }
  intros _. apply ensures_bind; [now apply ensures_same_state|]. intros children.
  apply ensures_bind.
  { apply ensures_for_collect. intros child.
    apply ensures_bind; [apply ensures_same_state, hash_for_tag_state|].
    intros digest. now apply ensures_same_state. }
  intros tags. apply ensures_bind.
  { apply ensures_for_each. intros tag. apply link_tag_ensures. }
  intros _. apply ensures_bind; [now apply ensures_same_state|]. intros now.
  apply ensures_modify. intros s (Hp & Hn & _ & Hc). now split.
Qed.

(** [load], whatever its outcome. *)
Lemma load_outcome (self s' : Repository.t) (w w' : World) (r : Result unit) :
  Repository.load self w = (r, s', w') ->
  Repository.path s' = Repository.path self
  /\ Repository.name s' = Repository.name self
  /\ revisions_consistent (Repository.cached_revisions s')
  /\ (is_ok r = false -> Repository.last_load s' = Repository.last_load self).
Proof.
  intros E. unfold Repository.load in E.
  rewrite bind_run in E. unfold Prog.get at 1 in E. cbv beta iota zeta in E.
  rewrite bind_run in E. unfold Prog.modify at 1 in E. cbv beta iota in E.
  rewrite bind_run in E. unfold Prog.iterdir at 1 in E. cbv beta iota in E.
  assert (HI : loading (Repository.path self) (Repository.name self)
                 (Repository.last_load self)
                 (Repository.set_cached_revisions ∅ self)).
  { split; [reflexivity|]. split; [reflexivity|]. split; [reflexivity|].
    apply revisions_consistent_empty. }
  destruct (fs_iterdir (fs w) (Repository.revisions_path self)) as [names|e].
  - pose proof (load_tail_ensures self names _
                  (world_emit (EvIterdir (Repository.revisions_path self)) w) HI)
      as H.
    match type of E with
    | ?lhs = _ =>
        match type of H with
        | match ?x with _ => _ end => change x with lhs in H
        end
    end.
    rewrite E in H. destruct r as [[]|e].
    + destruct H as (Hp & Hn & Hc). split; [exact Hp|]. split; [exact Hn|].
      split; [exact Hc | discriminate].
    + destruct H as (Hp & Hn & Ht & Hc). auto.
  - injection E as <- <- <-. destruct HI as (Hp & Hn & Ht & Hc). auto.
Qed.

End EnsureFacts.

(** ** The registry cache, whatever the outcome *)

Module RegistryStateFacts.
Import ProgFacts EnsureFacts RegistryLayout.

Lemma scan_entry_ok (path x : Path) (s s' : Registry.t) (w w' : World) :
  (Prog.bind
     (Prog.lift (PathOps.relative_to (PathOps.parent x) path))
     (fun rel =>
      Prog.modify (fun self =>
        Registry.set_cached_repositories
          (<[PathOps.as_posix rel :=
               Repository.init (PathOps.parent x) (PathOps.as_posix rel)]>
             (Registry.cached_repositories self)) self))) s w = (Ok tt, s', w') ->
  w' = w
  /\ is_ok (PathOps.relative_to (PathOps.parent x) path) = true
  /\ s' = Registry.set_cached_repositories
            (add_repository path (Registry.cached_repositories s) x) s.
Proof.
  unfold Prog.bind, Prog.lift, Prog.modify, add_repository.
  destruct (PathOps.relative_to (PathOps.parent x) path) as [rel|e];
    [|discriminate].
  intros H. injection H as <- <-. auto.
Qed.

(** A scan loop that completes has added every found path. *)
Lemma scan_loop_ok (path : Path) (found : list Path) (self s s' : Registry.t)
    (w w' : World) :
  s = Registry.set_cached_repositories ∅ self ->
  Prog.for_each found (fun manifest_path =>
    Prog.bind
      (Prog.lift (PathOps.relative_to (PathOps.parent manifest_path) path))
      (fun rel =>
       Prog.modify (fun self =>
         Registry.set_cached_repositories
           (<[PathOps.as_posix rel :=
                Repository.init (PathOps.parent manifest_path)
                  (PathOps.as_posix rel)]>
              (Registry.cached_repositories self)) self))) s w
  = (Ok tt, s', w') ->
  s' = Registry.set_cached_repositories
         (foldl (add_repository path) ∅ found) self
  /\ Forall (fun p => is_ok (PathOps.relative_to (PathOps.parent p) path) = true)
       found.
Proof.
  intros Hs Hrun.
  pose (I := fun (pre : list Path) (s' : Registry.t) (w' : World) =>
    s' = Registry.set_cached_repositories
           (foldl (add_repository path) ∅ pre) self
    /\ Forall (fun p => is_ok (PathOps.relative_to (PathOps.parent p) path) = true)
         pre).
  apply (for_each_invariant _ I) with (pre := []) in Hrun; [exact Hrun | |].
  - clear Hrun. intros pre x s1 w1 s2 w2 (-> & Hall) Hstep.
    apply scan_entry_ok in Hstep as (-> & Hok & ->).
    split.
    + rewrite foldl_app. reflexivity.
    + apply Forall_app. split; [assumption | now constructor].
  - split; [exact Hs | constructor].
Qed.

Lemma all_fresh_add (path : Path) (m : gmap string Repository.t) (x : Path) :
  all_fresh m -> all_fresh (add_repository path m x).
Proof.
  intros Hm. unfold add_repository.
  destruct (PathOps.relative_to (PathOps.parent x) path) as [rel|e]; [|exact Hm].
  intros name repo H.
  destruct (decide (PathOps.as_posix rel = name)) as [<-|Hne].
  - rewrite lookup_insert_eq in H. injection H as <-. now eexists.
  - rewrite lookup_insert_ne in H by assumption. now apply Hm.
Qed.

Lemma scan_entry_ensures (path x : Path) (r : Path) (t : PyFloat.t) :
  ensures
    (fun s => Registry.root s = r /\ Registry.last_load s = t
              /\ all_fresh (Registry.cached_repositories s))
    (fun s => Registry.root s = r /\ Registry.last_load s = t
              /\ all_fresh (Registry.cached_repositories s))
    (Prog.bind
       (Prog.lift (PathOps.relative_to (PathOps.parent x) path))
       (fun rel =>
        Prog.modify (fun self =>
          Registry.set_cached_repositories
            (<[PathOps.as_posix rel :=
                 Repository.init (PathOps.parent x) (PathOps.as_posix rel)]>
               (Registry.cached_repositories self)) self))).
Proof.
  apply ensures_lift_bind. intros rel Hrel. apply ensures_modify.
  intros s (Hr & Ht & Hf). split; [exact Hr|]. split; [exact Ht|].
  cbn [Registry.cached_repositories Registry.set_cached_repositories].
  pose proof (all_fresh_add path _ x Hf) as H.
  unfold add_repository in H. now rewrite Hrel in H.
Qed.

(** [Registry.load], whatever its outcome: the root stays, every cached
    repository is fresh, and a load that raises keeps the load time. *)
Lemma registry_load_outcome (self s' : Registry.t) (w w' : World)
    (r : Result unit) :
  Registry.load self w = (r, s', w') ->
  Registry.root s' = Registry.root self
  /\ all_fresh (Registry.cached_repositories s')
  /\ (is_ok r = false -> Registry.last_load s' = Registry.last_load self).
Proof.
  rewrite CacheFacts.registry_load_run. cbv zeta.
  destruct (fs_rglob (fs w) (Registry.repositories_path self) "_manifests")
    as [found|e].
  - pose proof (ensures_for_each _ found _
                  (fun x => scan_entry_ensures (Registry.repositories_path self) x
                              (Registry.root self) (Registry.last_load self))
                  (Registry.set_cached_repositories ∅ self)
                  (world_emit (EvRglob (Registry.repositories_path self)
                                 "_manifests") w)) as H.
    cbv beta in H.
    assert (HI : Registry.root (Registry.set_cached_repositories ∅ self)
                 = Registry.root self
                 /\ Registry.last_load (Registry.set_cached_repositories ∅ self)
                    = Registry.last_load self
                 /\ all_fresh (Registry.cached_repositories
                                 (Registry.set_cached_repositories ∅ self))).
    { split; [reflexivity|]. split; [reflexivity|].
      intros name repo Hl. simpl in Hl. rewrite lookup_empty in Hl. discriminate. }
    specialize (H HI).
    match type of H with
    | match ?x with _ => _ end => destruct x as [[[[]|e] s1] w1]
    end.
    + intros E. injection E as <- <- <-.
      destruct H as (Hr & _ & Hf).
      cbn [Registry.root Registry.set_last_load Registry.cached_repositories is_ok].
      split; [exact Hr|]. split; [exact Hf | discriminate].
    + intros E. injection E as <- <- <-.
      destruct H as (Hr & Ht & Hf). auto.
  - intros E. injection E as <- <- <-.
    split; [reflexivity|]. split; [|reflexivity].
    intros name repo Hl. simpl in Hl. rewrite lookup_empty in Hl. discriminate.
Qed.

Lemma all_fresh_consistent (reg : Registry.t) :
  all_fresh (Registry.cached_repositories reg) -> registry_consistent reg.
Proof.
  intros Hf name repo Hl. destruct (Hf _ _ Hl) as [path ->].
  split; [reflexivity|]. apply revisions_consistent_empty.
Qed.

(** What [repositories] returns is the cache it leaves. *)
Lemma repositories_result (self s' : Registry.t) (w w' : World)
    (repos : gmap string Repository.t) :
  Registry.repositories self w = (Ok repos, s', w') ->
  repos = Registry.cached_repositories s'.
Proof.
  rewrite CacheFacts.repositories_run.
  destruct (PyFloat.gt (clock w (ticks w))
       (PyFloat.add (Registry.last_load self) (registry_load_ttl w))).
  - destruct (Registry.load self (world_tick w)) as [[[[]|e] s1] w1];
      [|discriminate].
    intros H. now injection H as <- <- <-.
  - intros H. now injection H as <- <- <-.
Qed.

Lemma repositories_consistent (self s' : Registry.t) (w w' : World)
    (r : Result (gmap string Repository.t)) :
  registry_consistent self ->
  Registry.repositories self w = (r, s', w') ->
  registry_consistent s' /\ Registry.root s' = Registry.root self.
Proof.
  intros Hc. rewrite CacheFacts.repositories_run.
  destruct (PyFloat.gt (clock w (ticks w))
       (PyFloat.add (Registry.last_load self) (registry_load_ttl w))).
  - destruct (Registry.load self (world_tick w)) as [[r1 s1] w1] eqn:E.
    apply registry_load_outcome in E as (Hroot & Hf & _).
    destruct r1 as [[]|e]; intros H; injection H as <- <- <-;
      (split; [now apply all_fresh_consistent | exact Hroot]).
  - intros H. injection H as <- <- <-. auto.
Qed.

Lemma registry_consistent_insert (reg : Registry.t) (name : string)
    (repo : Repository.t) :
  registry_consistent reg ->
  Repository.name repo = name ->
  revisions_consistent (Repository.cached_revisions repo) ->
  registry_consistent
    (Registry.set_cached_repositories
       (<[name := repo]> (Registry.cached_repositories reg)) reg).
Proof.
  intros Hc Hn Hr name' repo' Hl.
  cbn [Registry.cached_repositories Registry.set_cached_repositories] in Hl.
  destruct (decide (name = name')) as [<-|Hne].
  - rewrite lookup_insert_eq in Hl. injection Hl as <-. auto.
  - rewrite lookup_insert_ne in Hl by assumption. now apply Hc.
Qed.

(** [repository], whatever its outcome, keeps the cache consistent; the
    repository it returns is the one the cache holds under the name. *)
Lemma repository_outcome (name : string) (self s' : Registry.t) (w w' : World)
    (r : Result Repository.t) :
  registry_consistent self ->
  Registry.repository name self w = (r, s', w') ->
  registry_consistent s'
  /\ Registry.root s' = Registry.root self
  /\ (forall repo, r = Ok repo ->
                   Registry.cached_repositories s' !! name = Some repo).
Proof.
  intros Hc. rewrite CacheFacts.repository_run.
  destruct (Registry.repositories self w) as [[r0 s0] w0] eqn:E0.
  destruct (repositories_consistent _ _ _ _ _ Hc E0) as [Hc0 Hroot].
  destruct r0 as [repos|e].
  - apply repositories_result in E0 as ->.
    destruct (Registry.cached_repositories s0 !! name) as [repository|] eqn:El.
    + destruct (PyFloat.gt (clock w0 (ticks w0))
       (PyFloat.add (Repository.last_load repository) (repository_load_ttl w0))).
      * destruct (Repository.load repository (world_tick w0))
          as [[r1 repository'] w1] eqn:E1.
        destruct (load_outcome _ _ _ _ _ E1) as (_ & Hn & Hrc & _).
        destruct (Hc0 _ _ El) as [Hname _].
        intros H. injection H as <- <- <-.
        split; [|split; [exact Hroot|]].
        -- apply registry_consistent_insert; [exact Hc0 | congruence | exact Hrc].
        -- intros repo Hrepo.
           cbn [Registry.cached_repositories Registry.set_cached_repositories].
           destruct r1; [|discriminate]. injection Hrepo as <-.
           apply lookup_insert_eq.
      * intros H. injection H as <- <- <-.
        split; [exact Hc0|]. split; [exact Hroot|].
        intros repo Hrepo. now injection Hrepo as <-.
    + intros H. injection H as <- <- <-.
      split; [exact Hc0|]. split; [exact Hroot|]. discriminate.
  - intros H. injection H as <- <- <-.
    split; [exact Hc0|]. split; [exact Hroot|]. discriminate.
Qed.

End RegistryStateFacts.

(** ** Blob reads and resolution, whatever the outcome *)

Module ResolveStateFacts.
Import ProgFacts.

Lemma bind_inv {S A B} (m : M S A) (f : A -> M S B) (s s2 : S) (w w2 : World)
    (r : Result B) :
  Prog.bind m f s w = (r, s2, w2) ->
  (exists a s1 w1, m s w = (Ok a, s1, w1) /\ f a s1 w1 = (r, s2, w2))
  \/ (exists e, m s w = (Raise e, s2, w2) /\ r = Raise e).
Proof.
  rewrite bind_run. destruct (m s w) as [[[a|e] s1] w1].
  - left. eauto.
  - intros H. injection H as <- <- <-. right. eauto.
Qed.

(** [blob] with a path: the state stays, the file is opened once, the clock
    is not read. *)
Lemma blob_effects (self : Registry.t) (d : OciDigest.t) (p : Path) (w : World) :
  Registry.blob_path self d = Ok p ->
  (Registry.blob d self w).1.2 = self
  /\ blob_reads (trace (Registry.blob d self w).2) = blob_reads (trace w) ++ [p]
  /\ ticks (Registry.blob d self w).2 = ticks w
  /\ fs (Registry.blob d self w).2 = fs w.
Proof.
  intros Hp. rewrite (RegistryFacts.blob_run _ _ _ w Hp).
  assert (Hsnoc : blob_reads (trace w ++ [EvOpenBinary p])
                  = blob_reads (trace w) ++ [p]).
  { unfold blob_reads. now rewrite omap_app. }
  destruct (fs_read_bytes (fs w) p) as [content|[]]; cbn [fst snd];
    try (split; [reflexivity|]; split; [exact Hsnoc|]; split; reflexivity).
  split; [reflexivity|]. split; [|split; reflexivity].
  cbn [world_emit trace]. unfold blob_reads in *.
  rewrite omap_app, Hsnoc. cbn. now rewrite app_nil_r.
Qed.

Lemma blob_state (self : Registry.t) (d : OciDigest.t) (w : World) :
  (Registry.blob d self w).1.2 = self.
Proof.
  destruct (Registry.blob_path self d) as [p|e] eqn:E.
  - apply (blob_effects _ _ _ w E).
  - now rewrite (RegistryFacts.blob_run_no_path _ _ _ w E).
Qed.

Section WithLibraries.
Context {J : JsonLib} {P : Pydantic}.

(** A call of [manifest] that returns went through every stage. *)
Lemma manifest_ok_inv (name : string) (d : OciDigest.t) (self s2 : Registry.t)
    (w w2 : World) (x : Manifest) :
  Registry.manifest name d self w = (Ok x, s2, w2) ->
  exists repository s1 w1 revision d' blob data,
    Registry.repository name self w = (Ok repository, s1, w1)
    /\ Repository.cached_revisions repository !! OciDigest.value d = Some revision
    /\ OciDigest.init (Revision.digest revision) = Ok d'
    /\ Registry.blob d' s1 w1 = (Ok blob, s2, w2)
    /\ json_loads (Blob.content blob) = Ok (JObj data)
    /\ match x with
       | Index i =>
           json_eq_str (dict_get "mediaType" data) OciMediaType.oci_image_index
           = true
           /\ OciImageIndex.init data = Ok i
       | Image m =>
           json_eq_str (dict_get "mediaType" data) OciMediaType.oci_image_manifest
           = true
           /\ OciImageManifest.init data = Ok m
       end.
Proof.
  intros H.
  destruct (Registry.repository name self w) as [[[repository|e] s1] w1] eqn:Er.
  2:{ pose proof (ResolveFacts.manifest_gate name d self w) as Hg.
      rewrite Er in Hg. rewrite Hg in H. discriminate. }
  destruct (Repository.cached_revisions repository !! OciDigest.value d)
    as [revision|] eqn:El.
  2:{ pose proof (ResolveFacts.manifest_gate name d self w) as Hg.
      rewrite Er in Hg. rewrite (Hg El) in H. discriminate. }
  destruct (OciDigest.init (Revision.digest revision)) as [d'|e] eqn:Ed.
  2:{ unfold Registry.manifest in H. rewrite bind_run, Er in H.
      rewrite bind_run in H. unfold Prog.lift at 1, Repository.revision in H.
      rewrite El in H. rewrite bind_run in H. unfold Prog.lift at 1 in H.
      rewrite Ed in H. discriminate. }
  destruct (Registry.blob d' s1 w1) as [[[blob|e] s2'] w2'] eqn:Eb.
  2:{ unfold Registry.manifest in H. rewrite bind_run, Er in H.
      rewrite bind_run in H. unfold Prog.lift at 1, Repository.revision in H.
      rewrite El in H. rewrite bind_run in H. unfold Prog.lift at 1 in H.
      rewrite Ed in H. rewrite bind_run, Eb in H. discriminate. }
  rewrite (ResolveFacts.manifest_decode _ _ _ _ _ _ _ _ _ _ _ _ Er El Ed Eb) in H.
  destruct (json_loads (Blob.content blob)) as [[]|[]] eqn:Ej; try discriminate.
  exists repository, s1, w1, revision, d', blob, members.
  destruct (json_eq_str (dict_get "mediaType" members) OciMediaType.oci_image_index)
    eqn:Ei.
  - destruct (OciImageIndex.init members) as [i|[]] eqn:Ev; try discriminate.
    injection H as <- <- <-. auto 10.
  - destruct (json_eq_str (dict_get "mediaType" members)
                OciMediaType.oci_image_manifest) eqn:Em; [|discriminate].
    destruct (OciImageManifest.init members) as [m|[]] eqn:Ev; try discriminate.
    injection H as <- <- <-. auto 10.
Qed.

(** After the repository is resolved, [manifest] does not touch the state. *)
Lemma manifest_state (name : string) (d : OciDigest.t) (self : Registry.t)
    (w : World) :
  (Registry.manifest name d self w).1.2 = (Registry.repository name self w).1.2.
Proof.
  unfold Registry.manifest. rewrite bind_run.
  destruct (Registry.repository name self w) as [[[repository|e] s1] w1];
    [|reflexivity].
  rewrite bind_run. unfold Prog.lift at 1.
  destruct (Repository.revision repository d) as [revision|e]; [|reflexivity].
  rewrite bind_run. unfold Prog.lift at 1.
  destruct (OciDigest.init (Revision.digest revision)) as [d'|e]; [|reflexivity].
  rewrite bind_run. pose proof (blob_state s1 d' w1) as Hb.
  destruct (Registry.blob d' s1 w1) as [[[blob|e] s2] w2]; cbn [fst snd] in *;
    subst; [|reflexivity].
  destruct (json_loads (Blob.content blob)) as [[]|[]]; try reflexivity.
  destruct (json_eq_str _ OciMediaType.oci_image_index).
  - destruct (OciImageIndex.init members) as [i|[]]; reflexivity.
  - destruct (json_eq_str _ OciMediaType.oci_image_manifest); [|reflexivity].
    destruct (OciImageManifest.init members) as [m|[]]; reflexivity.
Qed.

Lemma config_state (d : OciDigest.t) (self : Registry.t) (w : World) :
  (Registry.config d self w).1.2 = self.
Proof.
  unfold Registry.config. rewrite bind_run. pose proof (blob_state self d w) as Hb.
  destruct (Registry.blob d self w) as [[[blob|e] s2] w2]; cbn [fst snd] in *;
    subst; [|reflexivity].
  destruct (json_loads (Blob.content blob)) as [[]|[]]; reflexivity.
Qed.

End WithLibraries.

Lemma manifest_init_media_type {P : Pydantic} (data : list (string * json))
    (m : OciImageManifest.t) :
  OciImageManifest.init data = Ok m ->
  OciImageManifest.mediaType m = OciMediaType.oci_image_manifest
  /\ OciImageManifest.schemaVersion m = 2.
Proof.
  unfold OciImageManifest.init.
  destruct (OciImageManifest.fields data) as [m'|] eqn:E; [|discriminate].
  intros H. injection H as <-.
  split; [|now apply SchemaFacts.manifest_fields_schema_version in E].
  unfold OciImageManifest.fields in E.
  destruct (validated schema_revision_validator _) as [v|]; [|discriminate].
  cbn [mbind option_bind] in E.
  destruct (validated OciImageManifest.media_type_validator _) as [mt|] eqn:Em;
    [|discriminate].
  cbn [mbind option_bind] in E.
  assert (Hmt : mt = OciMediaType.oci_image_manifest).
  { unfold validated in Em.
    destruct (Field.required data "mediaType" pyd_str) as [v0|]; [|discriminate].
    cbn [mbind option_bind] in Em.
    unfold OciImageManifest.media_type_validator in Em.
    destruct (String.eqb v0 OciMediaType.oci_image_manifest) eqn:Eq;
      cbn [negb] in Em; [|discriminate].
    apply String.eqb_eq in Eq. injection Em as <-. exact Eq. }
  subst mt.
  repeat match type of E with
         | context [mbind _ ?x] => destruct x; simpl in E; [|discriminate]
         end.
  now injection E as <-.
Qed.

Lemma index_init_media_type {P : Pydantic} (data : list (string * json))
    (i : OciImageIndex.t) :
  OciImageIndex.init data = Ok i ->
  OciImageIndex.mediaType i = OciMediaType.oci_image_index
  /\ OciImageIndex.schemaVersion i = 2.
Proof.
  unfold OciImageIndex.init.
  destruct (OciImageIndex.fields data) as [i'|] eqn:E; [|discriminate].
  intros H. injection H as <-.
  split; [|now apply SchemaFacts.index_fields_schema_version in E].
  unfold OciImageIndex.fields in E.
  destruct (validated schema_revision_validator _) as [v|]; [|discriminate].
  cbn [mbind option_bind] in E.
  destruct (validated OciImageIndex.media_type_validator _) as [mt|] eqn:Em;
    [|discriminate].
  cbn [mbind option_bind] in E.
  assert (Hmt : mt = OciMediaType.oci_image_index).
  { unfold validated in Em.
    destruct (Field.required data "mediaType" pyd_str) as [v0|]; [|discriminate].
    cbn [mbind option_bind] in Em.
    unfold OciImageIndex.media_type_validator in Em.
    destruct (String.eqb v0 OciMediaType.oci_image_index) eqn:Eq;
      cbn [negb] in Em; [|discriminate].
    apply String.eqb_eq in Eq. injection Em as <-. exact Eq. }
  subst mt.
  repeat match type of E with
         | context [mbind _ ?x] => destruct x; simpl in E; [|discriminate]
         end.
  now injection E as <-.
Qed.

End ResolveStateFacts.

(** ** What a scan registers *)

Module ScanFacts.
Import ProgFacts RegistryLayout.

Lemma strip_app (base segs : Path) : PathOps.strip base (base ++ segs) = Some segs.
Proof.
  induction base as [|b base IH]; simpl; [reflexivity|].
  now rewrite String.eqb_refl.
Qed.

Lemma relative_to_below (base segs : Path) :
  PathOps.relative_to (base ++ segs) base = Ok segs.
Proof. unfold PathOps.relative_to. now rewrite strip_app. Qed.

Lemma parent_of_marker (base segs : Path) (marker : string) :
  PathOps.parent (base ++ segs ++ [marker]) = base ++ segs.
Proof.
  unfold PathOps.parent. rewrite app_assoc. apply removelast_last.
Qed.

Lemma lookup_scan_inv (path : Path) (found : list Path) :
  forall (m : gmap string Repository.t) (name : string) (repo : Repository.t),
    foldl (add_repository path) m found !! name = Some repo ->
    (exists p rel,
        p ∈ found
        /\ PathOps.relative_to (PathOps.parent p) path = Ok rel
        /\ name = PathOps.as_posix rel
        /\ repo = Repository.init (PathOps.parent p) name)
    \/ m !! name = Some repo.
Proof.
  induction found as [|x found IH] using rev_ind; intros m name repo H.
  - now right.
  - rewrite foldl_app in H. cbn [foldl] in H. unfold add_repository at 1 in H.
    destruct (PathOps.relative_to (PathOps.parent x) path) as [rel|e] eqn:Erel.
    + destruct (decide (PathOps.as_posix rel = name)) as [<-|Hne].
      * rewrite lookup_insert_eq in H. injection H as <-. left.
        exists x, rel. split; [apply elem_of_app; right; now constructor|]. auto.
      * rewrite lookup_insert_ne in H by assumption.
        apply IH in H as [(p & rel' & Hp & Hrel & -> & ->)|H]; [left | now right].
        exists p, rel'. split; [apply elem_of_app; now left|]. auto.
    + apply IH in H as [(p & rel' & Hp & Hrel & -> & ->)|H]; [left | now right].
      exists p, rel'. split; [apply elem_of_app; now left|]. auto.
Qed.

Lemma lookup_scan_in (path : Path) (found : list Path) :
  forall (m : gmap string Repository.t) (p rel : Path),
    p ∈ found ->
    PathOps.relative_to (PathOps.parent p) path = Ok rel ->
    is_Some (foldl (add_repository path) m found !! PathOps.as_posix rel).
Proof.
  induction found as [|x found IH] using rev_ind; intros m p rel Hp Hrel.
  - now apply elem_of_nil in Hp.
  - rewrite foldl_app. cbn [foldl]. unfold add_repository at 1.
    apply elem_of_app in Hp as [Hp|Hp].
    + destruct (PathOps.relative_to (PathOps.parent x) path) as [rel'|e];
        [|now apply (IH m p rel)].
      destruct (decide (PathOps.as_posix rel' = PathOps.as_posix rel)) as [->|Hne].
      * rewrite lookup_insert_eq. eauto.
      * rewrite lookup_insert_ne by assumption. now apply (IH m p rel).
    + apply list_elem_of_singleton in Hp as ->. rewrite Hrel.
      rewrite lookup_insert_eq. eauto.
Qed.

(** A scan that completes. *)
Lemma registry_load_ok_inv (self s' : Registry.t) (w w' : World) :
  Registry.load self w = (Ok tt, s', w') ->
  exists found,
    fs_rglob (fs w) (Registry.repositories_path self) "_manifests" = Ok found
    /\ Forall (fun p => is_ok (PathOps.relative_to (PathOps.parent p)
                                 (Registry.repositories_path self)) = true) found
    /\ s' = Registry.mk (Registry.root self)
              (foldl (add_repository (Registry.repositories_path self)) ∅ found)
              (clock w (ticks w))
    /\ w' = world_tick
              (world_emit (EvRglob (Registry.repositories_path self) "_manifests") w).
Proof.
  rewrite CacheFacts.registry_load_run. cbv zeta.
  destruct (fs_rglob (fs w) (Registry.repositories_path self) "_manifests")
    as [found|e]; [|discriminate].
  destruct (CacheFacts.scan_loop (Registry.repositories_path self) found
              (Registry.set_cached_repositories ∅ self)
              (world_emit (EvRglob (Registry.repositories_path self)
                             "_manifests") w))
    as (r & s1 & E & _ & _).
  rewrite E. destruct r as [[]|e]; [|discriminate].
  apply (RegistryStateFacts.scan_loop_ok _ _ self) in E as [-> Hall];
    [|reflexivity].
  intros H. injection H as <- <-. exists found. auto.
Qed.

End ScanFacts.

(** C6. [repositories] scans the repositories root exactly when the clock
    reading it takes exceeds the registry's last load time plus the registry
    TTL, the sum and the comparison being those of Python floats; otherwise
    it answers from the cache and changes nothing. A scan that completes
    registers what [rglob] finds and records the reading taken at its end as
    the load time, so a later call scans again exactly when its own reading
    exceeds that time plus the TTL: calls within the window add no scan, the
    first call after it adds one. [repository] resolves the name through
    [repositories], fails with 404 when the name is absent, and otherwise
    takes a new reading and reloads the repository found exactly when that
    reading exceeds the repository's own last load time plus the repository
    TTL. The reload is seen in the registry's cache; it starts by listing
    the repository's revisions root, and when it completes the repository
    holds exactly the revisions listed and the reading taken at the end of
    the reload as its load time; when it raises, the load time stays. *)
Theorem ttl_gated_reloads (reg reg0 : Registry.t) (w w0 : World)
    (r0 : Result (gmap string Repository.t))
    (Hcall : Registry.repositories reg w = (r0, reg0, w0)) :
  let path := Registry.repositories_path reg in
  let stale :=
    PyFloat.gt (clock w (ticks w))
      (PyFloat.add (Registry.last_load reg) (registry_load_ttl w)) in
  registry_scans (trace w0)
  = registry_scans (trace w) ++ (if stale then [path] else [])
  /\ (stale = false ->
      r0 = Ok (Registry.cached_repositories reg) /\ reg0 = reg
      /\ w0 = world_tick w)
  /\ (stale = true -> is_ok r0 = true ->
      r0 = Ok (Registry.cached_repositories reg0)
      /\ Registry.last_load reg0 = clock w (S (ticks w))
      /\ (exists found,
             fs_rglob (fs w) path "_manifests" = Ok found
             /\ (forall name repo,
                    Registry.cached_repositories reg0 !! name = Some repo ->
                    exists p rel,
                      p ∈ found
                      /\ PathOps.relative_to (PathOps.parent p) path = Ok rel
                      /\ name = PathOps.as_posix rel
                      /\ repo = Repository.init (PathOps.parent p) name)
             /\ (forall p,
                    p ∈ found ->
                    exists rel,
                      PathOps.relative_to (PathOps.parent p) path = Ok rel
                      /\ is_Some (Registry.cached_repositories reg0
                                    !! PathOps.as_posix rel)))
      /\ forall w2 : World,
          registry_scans (trace (Registry.repositories reg0 w2).2)
          = registry_scans (trace w2)
            ++ (if PyFloat.gt (clock w2 (ticks w2))
                     (PyFloat.add (clock w (S (ticks w))) (registry_load_ttl w2))
                then [path] else []))
  /\ forall name : string,
      match r0 with
      | Raise e => Registry.repository name reg w = (Raise e, reg0, w0)
      | Ok repositories =>
          match repositories !! name with
          | None =>
              Registry.repository name reg w
              = (Raise (HTTPException 404 "Repository not found"), reg0, w0)
          | Some repository =>
              if PyFloat.gt (clock w0 (ticks w0))
                   (PyFloat.add (Repository.last_load repository)
                      (repository_load_ttl w0))
              then
                exists r1 repository' w1 rest,
                  Repository.load repository (world_tick w0)
                  = (r1, repository', w1)
                  /\ Registry.repository name reg w
                     = (match r1 with
                        | Ok _ => Ok repository'
                        | Raise e => Raise e
                        end,
                        Registry.set_cached_repositories
                          (<[name := repository']>
                             (Registry.cached_repositories reg0)) reg0,
                        w1)
                  /\ trace w1
                     = trace w0
                       ++ EvIterdir (Repository.revisions_path repository) :: rest
                  /\ (is_ok r1 = true ->
                      Repository.last_load repository' = clock w0 (S (ticks w0))
                      /\ exists names,
                          fs_iterdir (fs w0) (Repository.revisions_path repository)
                          = Ok names
                          /\ forall k,
                              is_Some (Repository.cached_revisions repository' !! k)
                              <-> exists n,
                                    n ∈ names /\ k = RepositoryLayout.key n)
                  /\ (is_ok r1 = false ->
                      Repository.last_load repository'
                      = Repository.last_load repository)
              else
                Registry.repository name reg w
                = (Ok repository, reg0, world_tick w0)
          end
      end.
Proof.
  cbv zeta. split; [|split; [|split]].
  - pose proof (CacheFacts.repositories_scans reg w) as H.
    now rewrite Hcall in H.
  - intros Hfresh. rewrite (CacheFacts.repositories_fresh _ _ Hfresh) in Hcall.
    now injection Hcall as <- <- <-.
  - intros Hstale Hok. destruct r0 as [repos|e]; [|discriminate].
    destruct (CacheFacts.repositories_stale_ok _ _ _ _ _ Hstale Hcall)
      as (Hlast & Hroot & Hrepos).
    split; [now rewrite Hrepos|]. split; [exact Hlast|]. split.
    + rewrite CacheFacts.repositories_run, Hstale in Hcall.
      destruct (Registry.load reg (world_tick w)) as [[[[]|e] s'] w'] eqn:El;
        [|discriminate].
      injection Hcall as _ <- _.
      apply ScanFacts.registry_load_ok_inv in El
        as (found & Hfound & Hall & -> & _).
      exists found. cbn [Registry.cached_repositories].
      split; [exact Hfound|]. split.
      * intros name repo Hl.
        apply ScanFacts.lookup_scan_inv in Hl as [H|Hl]; [exact H|].
        rewrite lookup_empty in Hl. discriminate.
      * intros p Hp. rewrite Forall_forall in Hall. specialize (Hall p Hp).
        destruct (PathOps.relative_to (PathOps.parent p)
                    (Registry.repositories_path reg)) as [rel|e] eqn:Erel;
          [|discriminate].
        exists rel. split; [reflexivity|].
        now apply (ScanFacts.lookup_scan_in _ _ _ p).
    + intros w2. rewrite CacheFacts.repositories_scans, Hlast.
      unfold Registry.repositories_path, Registry.base_v2_path.
      now rewrite Hroot.
  - intros name. rewrite CacheFacts.repository_run, Hcall.
    destruct r0 as [repos|e]; [|reflexivity].
    destruct (repos !! name) as [repository|]; [|reflexivity].
    destruct (PyFloat.gt (clock w0 (ticks w0))
                (PyFloat.add (Repository.last_load repository)
                   (repository_load_ttl w0)));
      [|reflexivity].
    destruct (CacheFacts.repository_load_starts repository (world_tick w0))
      as [rest Hrest].
    destruct (Repository.load repository (world_tick w0))
      as [[r1 repository'] w1] eqn:El.
    exists r1, repository', w1, rest.
    split; [reflexivity|]. split; [reflexivity|]. split; [exact Hrest|]. split.
    + intros Hok. destruct r1 as [[]|e]; [|discriminate].
      apply RepositoryFacts.load_ok_inv in El
        as (names & tagnames & tags & m & Hnames & _ & _ & _ & _ & Hm & -> & _).
      split; [reflexivity|]. exists names. split; [exact Hnames|].
      intros k. cbn [Repository.cached_revisions].
      rewrite Hm, fmap_is_Some. apply RepositoryFacts.lookup_revisions_iff.
    + intros Hraise.
      destruct (EnsureFacts.load_outcome _ _ _ _ _ El) as (_ & _ & _ & H).
      exact (H Hraise).
Qed.

(** replace the outcome of a run by the run itself *)
Ltac recall E :=
  match type of E with
  | _ = (?r, ?s, ?w) =>
      try (change r with (r, s, w).1.1; rewrite <- E);
      try (change s with (r, s, w).1.2; rewrite <- E);
      try (change w with (r, s, w).2; rewrite <- E)
  end.

(** Three requests for library/app on the sample registry, with a registry
    TTL of 100 and a repository TTL of 3. The first scans the registry and
    reloads the repository, which then holds the four listed revisions and
    the reading 1003 as its load time. The second, two readings later, falls
    within both windows and answers from the caches. The third takes its
    readings at 1010 and 1011: no scan, but the repository is reloaded and
    holds the reading 1012. An unknown name gives 404. On the clock that
    reads 2**53 at the end of the scan and 2**53 + 4 at the next call, a TTL
    of 3 does not make the cache stale, since the float sum is 2**53 + 4. *)
Lemma ttl_gated_reloads_witness :
  let reg := Samples2.sample_registry in
  let path := Registry.repositories_path reg in
  (exists repo reg1 w1,
      Registry.repository "library/app" reg Samples2.slow_scan_world
      = (Ok repo, reg1, w1)
      /\ registry_scans (trace w1) = [path]
      /\ Repository.last_load repo = PyFloat.of_Z 1003
      /\ (forall k,
             is_Some (Repository.cached_revisions repo !! k)
             <-> exists n,
                   n ∈ [Samples2.hex64 "a"; Samples2.hex64 "b";
                        Samples2.hex64 "c"; Samples2.hex64 "d"]
                   /\ k = RepositoryLayout.key n)
      /\ Registry.repository "library/app" reg1 w1
         = (Ok repo, reg1, world_tick (world_tick w1))
      /\ exists repo3 reg3 w3 rest,
          Registry.repository "library/app" reg1
            (mkWorld (fs w1) (clock w1) 10 (trace w1)
               (registry_load_ttl w1) (repository_load_ttl w1))
          = (Ok repo3, reg3, w3)
          /\ trace w3
             = trace w1
               ++ EvIterdir (Repository.revisions_path Samples2.app) :: rest
          /\ registry_scans (trace w3) = [path]
          /\ Repository.last_load repo3 = PyFloat.of_Z 1012)
  /\ (exists reg0 w0,
         Registry.repository "missing" reg Samples2.slow_scan_world
         = (Raise (HTTPException 404 "Repository not found"), reg0, w0))
  /\ exists repos reg0 w0,
      Registry.repositories reg Samples2.rounding_world = (Ok repos, reg0, w0)
      /\ Registry.last_load reg0 = PyFloat.of_Z (2 ^ 53)
      /\ clock w0 (ticks w0) = PyFloat.of_Z (2 ^ 53 + 4)
      /\ registry_load_ttl w0 = PyFloat.of_Z 3
      /\ registry_scans (trace w0) = [path]
      /\ registry_scans (trace (Registry.repositories reg0 w0).2) = [path].
Proof.
  cbv zeta. split; [|split].
  - (* the first request *)
    destruct (Registry.repositories Samples2.sample_registry
                Samples2.slow_scan_world) as [[r0 reg0] w0] eqn:E0.
    destruct (ttl_gated_reloads _ _ _ _ _ E0) as (_ & _ & _ & Hrepo).
    specialize (Hrepo "library/app").
    assert (Hr0 : r0 = Ok (Registry.cached_repositories reg0))
      by (recall E0; vm_compute; reflexivity).
    assert (Hl0 : Registry.cached_repositories reg0 !! "library/app"
                  = Some Samples2.app)
      by (recall E0; vm_compute; reflexivity).
    assert (Hs0 : PyFloat.gt (clock w0 (ticks w0))
                    (PyFloat.add (Repository.last_load Samples2.app)
                       (repository_load_ttl w0)) = true)
      by (recall E0; vm_compute; reflexivity).
    rewrite Hr0, Hl0, Hs0 in Hrepo.
    destruct Hrepo as (r1 & repo & w1 & rest & El & Hrun & _ & Hok & _).
    assert (Hr1 : r1 = Ok tt)
      by (recall El; recall E0; vm_compute; reflexivity).
    subst r1. destruct (Hok eq_refl) as (Hlast & names & Hnames & Hkeys).
    assert (Hfs : fs_iterdir (fs w0) (Repository.revisions_path Samples2.app)
                  = Ok [Samples2.hex64 "a"; Samples2.hex64 "b";
                        Samples2.hex64 "c"; Samples2.hex64 "d"])
      by (recall E0; vm_compute; reflexivity).
    rewrite Hfs in Hnames. injection Hnames as <-.
    assert (Hclock : clock w0 (S (ticks w0)) = PyFloat.of_Z 1003)
      by (recall E0; vm_compute; reflexivity).
    eexists repo, _, w1. split; [exact Hrun|].
    split; [recall El; recall E0; vm_compute; reflexivity|].
    split; [now rewrite Hlast|]. split; [exact Hkeys|]. split.
    + (* the second request *)
      destruct (Registry.repositories
                  (Registry.set_cached_repositories
                     (<["library/app" := repo]>
                        (Registry.cached_repositories reg0)) reg0) w1)
        as [[r2 reg2] w2] eqn:E2.
      destruct (ttl_gated_reloads _ _ _ _ _ E2) as (_ & Hfresh & _ & Hrepo).
      destruct Hfresh as (-> & -> & ->);
        [cbn [Registry.last_load Registry.set_cached_repositories];
         recall El; recall E0; vm_compute; reflexivity|].
      specialize (Hrepo "library/app"). cbv beta iota in Hrepo.
      cbn [Registry.cached_repositories Registry.set_cached_repositories]
        in Hrepo.
      rewrite lookup_insert_eq in Hrepo.
      assert (Hs2 : PyFloat.gt (clock (world_tick w1) (ticks (world_tick w1)))
                      (PyFloat.add (Repository.last_load repo)
                         (repository_load_ttl (world_tick w1))) = false)
        by (recall El; recall E0; vm_compute; reflexivity).
      rewrite Hs2 in Hrepo. exact Hrepo.
    + (* the third request *)
      destruct (Registry.repositories
                  (Registry.set_cached_repositories
                     (<["library/app" := repo]>
                        (Registry.cached_repositories reg0)) reg0)
                  (mkWorld (fs w1) (clock w1) 10 (trace w1)
                     (registry_load_ttl w1) (repository_load_ttl w1)))
        as [[r3 reg3] w3] eqn:E3.
      destruct (ttl_gated_reloads _ _ _ _ _ E3) as (_ & Hfresh & _ & Hrepo).
      destruct Hfresh as (-> & -> & ->);
        [cbn [Registry.last_load Registry.set_cached_repositories
              clock ticks registry_load_ttl];
         recall El; recall E0; vm_compute; reflexivity|].
      specialize (Hrepo "library/app"). cbv beta iota in Hrepo.
      cbn [Registry.cached_repositories Registry.set_cached_repositories]
        in Hrepo.
      rewrite lookup_insert_eq in Hrepo.
      match type of Hrepo with
      | if ?c then _ else _ =>
          assert (Hs3 : c = true)
            by (recall El; recall E0; vm_compute; reflexivity);
          rewrite Hs3 in Hrepo
      end.
      destruct Hrepo as (r4 & repo4 & w4 & rest4 & El4 & Hrun4 & Htr4 & Hok4 & _).
      assert (Hr4 : r4 = Ok tt)
        by (recall El4; recall El; recall E0; vm_compute; reflexivity).
      subst r4. destruct (Hok4 eq_refl) as (Hlast4 & _).
      eexists repo4, _, w4, rest4. split; [exact Hrun4|]. split; [|split].
      * rewrite Htr4.
        replace (Repository.revisions_path repo)
          with (Repository.revisions_path Samples2.app)
          by (recall El; recall E0; vm_compute; reflexivity).
        reflexivity.
      * recall El4; recall El; recall E0; vm_compute; reflexivity.
      * rewrite Hlast4. recall El; recall E0; vm_compute; reflexivity.
  - (* an unknown name *)
    destruct (Registry.repositories Samples2.sample_registry
                Samples2.slow_scan_world) as [[r0 reg0] w0] eqn:E0.
    destruct (ttl_gated_reloads _ _ _ _ _ E0) as (_ & _ & _ & Hrepo).
    specialize (Hrepo "missing").
    assert (Hr0 : r0 = Ok (Registry.cached_repositories reg0))
      by (recall E0; vm_compute; reflexivity).
    assert (Hl0 : Registry.cached_repositories reg0 !! "missing" = None)
      by (recall E0; vm_compute; reflexivity).
    rewrite Hr0, Hl0 in Hrepo. eauto.
  - (* the rounded sum *)
    destruct (Registry.repositories Samples2.sample_registry
                Samples2.rounding_world) as [[r0 reg0] w0] eqn:E0.
    destruct (ttl_gated_reloads _ _ _ _ _ E0) as (Hscan & _ & Hstale & _).
    assert (Hr0 : is_ok r0 = true) by (recall E0; vm_compute; reflexivity).
    destruct (Hstale eq_refl Hr0) as (-> & Hlast & _ & Hnext).
    assert (Hnow : clock w0 (ticks w0) = PyFloat.of_Z (2 ^ 53 + 4))
      by (recall E0; vm_compute; reflexivity).
    assert (Httl : registry_load_ttl w0 = PyFloat.of_Z 3)
      by (recall E0; vm_compute; reflexivity).
    assert (Htr : registry_scans (trace w0)
                  = [Registry.repositories_path Samples2.sample_registry])
      by (recall E0; vm_compute; reflexivity).
    eexists _, reg0, w0. split; [reflexivity|].
    split; [exact Hlast|]. split; [exact Hnow|]. split; [exact Httl|].
    split; [exact Htr|].
    rewrite Hnext, Hnow, Httl, Htr. reflexivity.
Defined.

(** X1. Whatever [Repository.load] does, it leaves the path and the name of
    the repository alone and a cache in which every revision is stored under
    its own, well-formed digest with tags that all point at it; and a load
    that raises does not record a load time, so the cache stays stale. *)
Theorem reload_keeps_repository_consistent
    (self s' : Repository.t) (w w' : World) (r : Result unit)
    (Hrun : Repository.load self w = (r, s', w')) :
  Repository.path s' = Repository.path self
  /\ Repository.name s' = Repository.name self
  /\ revisions_consistent (Repository.cached_revisions s')
  /\ (is_ok r = false -> Repository.last_load s' = Repository.last_load self).
Proof. exact (EnsureFacts.load_outcome _ _ _ _ _ Hrun). Qed.

Lemma reload_keeps_repository_consistent_witness :
  exists e s' w',
    Repository.load Samples2.orphan Samples2.sample_world = (Raise e, s', w')
    /\ Repository.name s' = "orphan"
    /\ Repository.last_load s' = PyFloat.zero
    /\ revisions_consistent (Repository.cached_revisions s').
Proof.
  destruct (Repository.load Samples2.orphan Samples2.sample_world)
    as [[r s'] w'] eqn:E.
  assert (Hr : is_ok r = false).
  { change r with (r, s', w').1.1. rewrite <- E. vm_compute. reflexivity. }
  destruct (reload_keeps_repository_consistent _ _ _ _ _ E) as (_ & Hn & Hc & Ht).
  destruct r as [[]|e]; [discriminate|].
  exists e, s', w'. split; [reflexivity|]. split; [exact Hn|].
  split; [exact (Ht eq_refl) | exact Hc].
Defined.

(** X2. Whatever [Registry.load] does, it keeps the root, and every
    repository left in the cache is as [Repository(path=..., name=...)] makes
    it, stored under its own name, with no revision cached and load time 0:
    the revision caches of before the scan are gone. A scan that raises does
    not record a load time. *)
Theorem scan_leaves_only_fresh_repositories
    (self s' : Registry.t) (w w' : World) (r : Result unit)
    (Hrun : Registry.load self w = (r, s', w')) :
  Registry.root s' = Registry.root self
  /\ (forall name repo,
         Registry.cached_repositories s' !! name = Some repo ->
         Repository.name repo = name
         /\ Repository.cached_revisions repo = ∅
         /\ Repository.last_load repo = PyFloat.zero)
  /\ (is_ok r = false -> Registry.last_load s' = Registry.last_load self).
Proof.
  destruct (RegistryStateFacts.registry_load_outcome _ _ _ _ _ Hrun)
    as (Hroot & Hf & Ht).
  split; [exact Hroot|]. split; [|exact Ht].
  intros name repo Hl. destruct (Hf _ _ Hl) as [path ->]. auto.
Qed.

Lemma scan_leaves_only_fresh_repositories_witness :
  exists s' w' repo,
    Registry.load Samples2.sample_registry Samples2.sample_world = (Ok tt, s', w')
    /\ Registry.cached_repositories s' !! "library/app" = Some repo
    /\ Repository.cached_revisions repo = ∅
    /\ Repository.last_load repo = PyFloat.zero.
Proof.
  destruct (Registry.load Samples2.sample_registry Samples2.sample_world)
    as [[r s'] w'] eqn:E.
  assert (Hr : r = Ok tt).
  { change r with (r, s', w').1.1. rewrite <- E. vm_compute. reflexivity. }
  assert (Hs : is_Some (Registry.cached_repositories s' !! "library/app")).
  { change s' with (r, s', w').1.2. rewrite <- E. vm_compute.
    eexists. reflexivity. }
  subst r. destruct Hs as [repo Hrepo].
  destruct (scan_leaves_only_fresh_repositories _ _ _ _ _ E) as (_ & Hf & _).
  destruct (Hf _ _ Hrepo) as (_ & Hc & Ht).
  exists s', w', repo. auto.
Defined.

(** X3. A scan that completes registers exactly what [rglob] found: every
    cached repository comes from a found [_manifests] path, with the parent
    directory as its path and the parent's path relative to the repositories
    root, joined with '/', as its name; every found path is registered; a
    [_manifests] directory found several segments below the root is
    registered under those segments joined with '/'. The load time is the
    clock reading taken at the end. *)
Theorem scan_registers_what_it_found
    (self s' : Registry.t) (w w' : World)
    (Hrun : Registry.load self w = (Ok tt, s', w')) :
  let path := Registry.repositories_path self in
  exists found,
    fs_rglob (fs w) path "_manifests" = Ok found
    /\ (forall name repo,
           Registry.cached_repositories s' !! name = Some repo ->
           exists p rel,
             p ∈ found
             /\ PathOps.relative_to (PathOps.parent p) path = Ok rel
             /\ name = PathOps.as_posix rel
             /\ repo = Repository.init (PathOps.parent p) name)
    /\ (forall p,
           p ∈ found ->
           exists rel,
             PathOps.relative_to (PathOps.parent p) path = Ok rel
             /\ is_Some (Registry.cached_repositories s' !! PathOps.as_posix rel))
    /\ (forall segment segments,
           path ++ (segment :: segments) ++ ["_manifests"] ∈ found ->
           is_Some (Registry.cached_repositories s'
                      !! Str.join "/" (segment :: segments)))
    /\ Registry.last_load s' = clock w (ticks w).
Proof.
  cbv zeta.
  apply ScanFacts.registry_load_ok_inv in Hrun as (found & Hfound & Hall & -> & _).
  exists found. cbn [Registry.cached_repositories Registry.last_load].
  split; [exact Hfound|]. split; [|split; [|split; [|reflexivity]]].
  - intros name repo Hl.
    apply ScanFacts.lookup_scan_inv in Hl as [H|Hl]; [exact H|].
    rewrite lookup_empty in Hl. discriminate.
  - intros p Hp. rewrite Forall_forall in Hall. specialize (Hall p Hp).
    destruct (PathOps.relative_to (PathOps.parent p)
                (Registry.repositories_path self)) as [rel|e] eqn:Erel;
      [|discriminate].
    exists rel. split; [reflexivity|]. now apply (ScanFacts.lookup_scan_in _ _ _ p).
  - intros segment segments Hp.
    change (Str.join "/" (segment :: segments))
      with (PathOps.as_posix (segment :: segments)).
    apply (ScanFacts.lookup_scan_in _ _ _ _ _ Hp).
    rewrite ScanFacts.parent_of_marker. apply ScanFacts.relative_to_below.
Qed.

Lemma scan_registers_what_it_found_witness :
  exists s' w',
    Registry.load Samples2.sample_registry Samples2.sample_world = (Ok tt, s', w')
    /\ is_Some (Registry.cached_repositories s' !! "library/app")
    /\ Registry.last_load s' = PyFloat.of_Z 1000.
Proof.
  destruct (Registry.load Samples2.sample_registry Samples2.sample_world)
    as [[r s'] w'] eqn:E.
  assert (Hr : r = Ok tt).
  { change r with (r, s', w').1.1. rewrite <- E. vm_compute. reflexivity. }
  subst r.
  destruct (scan_registers_what_it_found _ _ _ _ E)
    as (found & Hfound & _ & _ & Hnested & Hlast).
  vm_compute in Hfound. injection Hfound as <-.
  exists s', w'. split; [reflexivity|]. split; [|exact Hlast].
  apply (Hnested "library" ["app"]). apply elem_of_cons. now left.
Defined.

(** ** The handlers and the state *)

Module HandlerStateFacts.
Import ProgFacts ResolveStateFacts.

Lemma repository_result_cached (name : string) (self s' : Registry.t)
    (w w' : World) (repo : Repository.t) :
  Registry.repository name self w = (Ok repo, s', w') ->
  Registry.cached_repositories s' !! name = Some repo.
Proof.
  rewrite CacheFacts.repository_run.
  destruct (Registry.repositories self w) as [[[repos|e] s0] w0] eqn:E0;
    [|discriminate].
  apply RegistryStateFacts.repositories_result in E0 as ->.
  destruct (Registry.cached_repositories s0 !! name) as [repository|] eqn:El;
    [|discriminate].
  destruct (PyFloat.gt (clock w0 (ticks w0))
       (PyFloat.add (Repository.last_load repository) (repository_load_ttl w0))).
  - destruct (Repository.load repository (world_tick w0))
      as [[[[]|e] repository'] w1]; [|discriminate].
    intros H. injection H as <- <- <-.
    cbn [Registry.cached_repositories Registry.set_cached_repositories].
    apply lookup_insert_eq.
  - intros H. now injection H as <- <- <-.
Qed.

Lemma blob_path_root (s1 s2 : Registry.t) (d : OciDigest.t) :
  Registry.root s1 = Registry.root s2 ->
  Registry.blob_path s1 d = Registry.blob_path s2 d.
Proof.
  intros H. unfold Registry.blob_path, Registry.blobs_path, Registry.base_v2_path.
  now rewrite H.
Qed.

Section WithLibraries.
Context {J : JsonLib} {P : Pydantic}.

Lemma read_repository_state (name : string) (self : Registry.t) (w : World) :
  (Routes.read_repository name self w).1.2 = (Registry.repository name self w).1.2.
Proof.
  unfold Routes.read_repository. rewrite bind_run.
  destruct (Registry.repository name self w) as [[[repository|e] s1] w1];
    [|reflexivity].
  unfold Prog.bind, Prog.lift, Prog.ret.
  now destruct (Repository.revisions repository).
Qed.

Lemma read_revision_state (revision name : string) (self s' : Registry.t)
    (w w' : World) (r : Result Routes.RevisionResponse) :
  Routes.read_revision revision name self w = (r, s', w') ->
  s' = self \/ exists d, s' = (Registry.manifest name d self w).1.2.
Proof.
  unfold Routes.read_revision. rewrite bind_run. unfold Prog.lift at 1.
  destruct (OciDigest.init revision) as [d|e];
    [|intros H; injection H as <- <- <-; now left].
  intros H. right. exists d. rewrite bind_run in H.
  destruct (Registry.manifest name d self w) as [[[[m|i]|e] s1] w1];
    cbn [fst snd]; [| |now injection H as <- <- <-].
  - rewrite bind_run in H. unfold Prog.lift at 1 in H.
    destruct (OciDigest.init _) as [d'|e]; [|now injection H as <- <- <-].
    rewrite bind_run in H. pose proof (config_state d' s1 w1) as Hs.
    destruct (Registry.config d' s1 w1) as [[[c|e] s2] w2]; cbn [fst snd] in *;
      subst; [|now injection H as <- <- <-].
    destruct (OciImageConfig.config c); now injection H as <- <- <-.
  - unfold Prog.bind, Prog.lift, Prog.ret in H.
    destruct (mapM_result Routes.index_entry (OciImageIndex.manifests i));
      now injection H as <- <- <-.
Qed.

End WithLibraries.

End HandlerStateFacts.

(** X4. The repository that [repository] returns is the object the
    registry's cache holds under that name; in a consistent registry its name
    is the name asked for and its revision cache is consistent. *)
Theorem repository_returns_the_cached_object
    (name : string) (reg reg' : Registry.t) (w w' : World) (repo : Repository.t)
    (Hrun : Registry.repository name reg w = (Ok repo, reg', w')) :
  Registry.cached_repositories reg' !! name = Some repo
  /\ (registry_consistent reg ->
      Repository.name repo = name
      /\ revisions_consistent (Repository.cached_revisions repo)).
Proof.
  pose proof (HandlerStateFacts.repository_result_cached _ _ _ _ _ _ Hrun) as Hl.
  split; [exact Hl|]. intros Hc.
  destruct (RegistryStateFacts.repository_outcome _ _ _ _ _ _ Hc Hrun)
    as (Hc' & _ & _).
  exact (Hc' _ _ Hl).
Qed.

Lemma repository_returns_the_cached_object_witness :
  exists repo reg' w',
    Registry.repository "library/app" Samples2.sample_registry Samples2.sample_world
    = (Ok repo, reg', w')
    /\ Registry.cached_repositories reg' !! "library/app" = Some repo.
Proof.
  destruct (Registry.repository "library/app" Samples2.sample_registry
              Samples2.sample_world) as [[r reg'] w'] eqn:E.
  assert (Hr : is_ok r = true).
  { change r with (r, reg', w').1.1. rewrite <- E. vm_compute. reflexivity. }
  destruct r as [repo|e]; [|discriminate].
  exists repo, reg', w'. split; [reflexivity|].
  apply (repository_returns_the_cached_object _ _ _ _ _ _ E).
Defined.

(** X5. Consistency of the registry (every cached repository stored under
    its own name, every cached revision under its own well-formed digest,
    every tag in the list of the revision it points at) holds of a new
    registry and is kept by every operation, whether it returns or raises;
    [blob] and [config] do not change the registry at all. *)
Theorem registry_stays_consistent {J : JsonLib} {P : Pydantic}
    (reg : Registry.t) (w : World) (Hc : registry_consistent reg) :
  registry_consistent (Registry.repositories reg w).1.2
  /\ (forall name, registry_consistent (Registry.repository name reg w).1.2)
  /\ (forall name d, registry_consistent (Registry.manifest name d reg w).1.2)
  /\ (forall d, (Registry.blob d reg w).1.2 = reg)
  /\ (forall d, (Registry.config d reg w).1.2 = reg)
  /\ (forall name, registry_consistent (Routes.read_repository name reg w).1.2)
  /\ (forall revision name,
         registry_consistent (Routes.read_revision revision name reg w).1.2).
Proof.
  assert (Hrepo : forall name, registry_consistent (Registry.repository name reg w).1.2).
  { intros name.
    destruct (Registry.repository name reg w) as [[r s'] w'] eqn:E.
    now destruct (RegistryStateFacts.repository_outcome _ _ _ _ _ _ Hc E). }
  assert (Hman : forall name d,
             registry_consistent (Registry.manifest name d reg w).1.2).
  { intros name d. rewrite ResolveStateFacts.manifest_state. apply Hrepo. }
  split; [|split; [exact Hrepo|split; [exact Hman|split; [|split; [|split]]]]].
  - destruct (Registry.repositories reg w) as [[r s'] w'] eqn:E.
    now destruct (RegistryStateFacts.repositories_consistent _ _ _ _ _ Hc E).
  - intros d. apply ResolveStateFacts.blob_state.
  - intros d. apply ResolveStateFacts.config_state.
  - intros name. rewrite HandlerStateFacts.read_repository_state. apply Hrepo.
  - intros revision name.
    destruct (Routes.read_revision revision name reg w) as [[r s'] w'] eqn:E.
    destruct (HandlerStateFacts.read_revision_state _ _ _ _ _ _ _ E)
      as [->|[d ->]]; [exact Hc | apply Hman].
Qed.

Lemma new_registry_is_consistent (root : Path) :
  registry_consistent (Registry.init root).
Proof.
  intros name repo H. cbn [Registry.init Registry.cached_repositories] in H.
  rewrite lookup_empty in H. discriminate.
Qed.

Lemma registry_stays_consistent_witness :
  registry_consistent
    (@Routes.read_revision Samples2.sample_json exact_types
       (Samples2.sha "a") "library/app"
       Samples2.sample_registry Samples2.sample_world).1.2.
Proof.
  apply (@registry_stays_consistent Samples2.sample_json exact_types
           Samples2.sample_registry Samples2.sample_world).
  apply new_registry_is_consistent.
Defined.

(** X6. [blob] keeps nothing: with a path for the digest, every call opens
    the file once, whatever the outcome, takes no clock reading and leaves
    the registry as it was, so a second call for the same digest reads the
    file again. *)
Theorem blob_is_read_from_disk_every_time
    (reg : Registry.t) (d : OciDigest.t) (p : Path) (w : World)
    (Hp : Registry.blob_path reg d = Ok p) :
  let first := Registry.blob d reg w in
  let second := Registry.blob d first.1.2 first.2 in
  first.1.2 = reg
  /\ blob_reads (trace first.2) = blob_reads (trace w) ++ [p]
  /\ ticks first.2 = ticks w
  /\ blob_reads (trace second.2) = blob_reads (trace w) ++ [p; p].
Proof.
  cbv zeta.
  destruct (ResolveStateFacts.blob_effects reg d p w Hp) as (Hs & Hr & Ht & _).
  split; [exact Hs|]. split; [exact Hr|]. split; [exact Ht|].
  rewrite Hs.
  destruct (ResolveStateFacts.blob_effects reg d p (Registry.blob d reg w).2 Hp)
    as (_ & Hr2 & _).
  rewrite Hr2, Hr, <- app_assoc. reflexivity.
Qed.

Lemma blob_is_read_from_disk_every_time_witness :
  blob_reads
    (trace (Registry.blob (Samples2.digest_a)
              (Registry.blob (Samples2.digest_a) Samples2.sample_registry
                 Samples2.sample_world).1.2
              (Registry.blob (Samples2.digest_a) Samples2.sample_registry
                 Samples2.sample_world).2).2)
  = [Samples2.blob_file "a"; Samples2.blob_file "a"].
Proof.
  apply (blob_is_read_from_disk_every_time Samples2.sample_registry
           Samples2.digest_a (Samples2.blob_file "a") Samples2.sample_world).
  reflexivity.
Defined.

(** X7. Two valid digests that [blob_path] sends to the same file are the
    same digest. *)
Theorem blob_path_is_injective
    (reg : Registry.t) (s1 s2 : string) (d1 d2 : OciDigest.t) (p : Path)
    (H1 : OciDigest.init s1 = Ok d1) (H2 : OciDigest.init s2 = Ok d2)
    (Hp1 : Registry.blob_path reg d1 = Ok p)
    (Hp2 : Registry.blob_path reg d2 = Ok p) :
  d1 = d2.
Proof.
  apply DigestFacts.init_ok_inv in H1 as [Hw1 ->].
  apply DigestFacts.init_ok_inv in H2 as [Hw2 ->].
  destruct (DigestFacts.well_formed_parts s1 Hw1) as (a1 & h1 & -> & Hh1 & _).
  destruct (DigestFacts.well_formed_parts s2 Hw2) as (a2 & h2 & -> & Hh2 & _).
  destruct (DigestFacts.accessors_of_form a1 h1 Hh1) as [Ha1 He1].
  destruct (DigestFacts.accessors_of_form a2 h2 Hh2) as [Ha2 He2].
  unfold Registry.blob_path in Hp1, Hp2.
  rewrite Ha1, He1 in Hp1. rewrite Ha2, He2 in Hp2.
  destruct a1; [|discriminate]. destruct a2; [|discriminate].
  cbn [rbind negb Registry.Algorithm_eqb] in Hp1, Hp2.
  injection Hp1 as <-. injection Hp2 as Hp.
  unfold path_div in Hp.
  apply app_inj_tail in Hp as [Hp _]. apply app_inj_tail in Hp as [_ Hh].
  now subst.
Qed.

Lemma blob_path_is_injective_witness :
  OciDigest.init (Samples2.sha "a") = Ok Samples2.digest_a
  /\ Registry.blob_path Samples2.sample_registry Samples2.digest_a
     = Ok (Samples2.blob_file "a")
  /\ OciDigest.mk (Samples2.sha "a") = Samples2.digest_a.
Proof.
  assert (Hd : OciDigest.init (Samples2.sha "a") = Ok Samples2.digest_a)
    by (vm_compute; reflexivity).
  assert (Hp : Registry.blob_path Samples2.sample_registry Samples2.digest_a
               = Ok (Samples2.blob_file "a")) by (vm_compute; reflexivity).
  split; [exact Hd|]. split; [exact Hp|].
  exact (blob_path_is_injective Samples2.sample_registry
           (Samples2.sha "a") (Samples2.sha "a")
           (OciDigest.mk (Samples2.sha "a")) Samples2.digest_a
           (Samples2.blob_file "a") Hd Hd Hp Hp).
Defined.

(** X8. What [manifest] returns is a validated document of the type that
    its media type names: an image has schemaVersion 2 and the image
    manifest media type, an index has schemaVersion 2 and the image index
    media type. *)
Theorem manifest_returns_validated_documents {J : JsonLib} {P : Pydantic}
    (name : string) (d : OciDigest.t) (reg reg' : Registry.t) (w w' : World)
    (x : Manifest)
    (Hrun : Registry.manifest name d reg w = (Ok x, reg', w')) :
  match x with
  | Image m =>
      OciImageManifest.schemaVersion m = 2
      /\ OciImageManifest.mediaType m = OciMediaType.oci_image_manifest
  | Index i =>
      OciImageIndex.schemaVersion i = 2
      /\ OciImageIndex.mediaType i = OciMediaType.oci_image_index
  end.
Proof.
  apply ResolveStateFacts.manifest_ok_inv in Hrun
    as (repository & s1 & w1 & revision & d' & blob & data & _ & _ & _ & _ & _ & H).
  destruct x as [m|i]; destruct H as [_ Hinit].
  - now destruct (ResolveStateFacts.manifest_init_media_type _ _ Hinit).
  - now destruct (ResolveStateFacts.index_init_media_type _ _ Hinit).
Qed.

Lemma manifest_returns_validated_documents_witness :
  exists i reg' w',
    @Registry.manifest Samples2.sample_json exact_types "library/app"
      (Samples2.digest_of "c") Samples2.sample_registry Samples2.sample_world
    = (Ok (Index i), reg', w')
    /\ OciImageIndex.schemaVersion i = 2
    /\ OciImageIndex.mediaType i = OciMediaType.oci_image_index.
Proof.
  destruct (@Registry.manifest Samples2.sample_json exact_types "library/app"
              (Samples2.digest_of "c") Samples2.sample_registry
              Samples2.sample_world) as [[r reg'] w'] eqn:E.
  assert (Hr : match r with Ok (Index _) => True | _ => False end).
  { change r with (r, reg', w').1.1. rewrite <- E. vm_compute. exact I. }
  destruct r as [[m|i]|e]; try contradiction.
  exists i, reg', w'. split; [reflexivity|].
  apply (@manifest_returns_validated_documents Samples2.sample_json exact_types
           _ _ _ _ _ _ _ E).
Defined.

(** X9. In a consistent registry, a call of [manifest] that returns was made
    with a well-formed digest and has read exactly one blob, the one at
    [blob_path] of that digest. *)
Theorem manifest_reads_the_blob_of_its_digest {J : JsonLib} {P : Pydantic}
    (name : string) (d : OciDigest.t) (reg reg' : Registry.t) (w w' : World)
    (x : Manifest)
    (Hc : registry_consistent reg)
    (Hrun : Registry.manifest name d reg w = (Ok x, reg', w')) :
  DigestFormat.well_formed (OciDigest.value d)
  /\ exists p,
      Registry.blob_path reg d = Ok p
      /\ blob_reads (trace w') = blob_reads (trace w) ++ [p].
Proof.
  apply ResolveStateFacts.manifest_ok_inv in Hrun
    as (repository & s1 & w1 & revision & d' & blob & data
        & Hrepo & Hrev & Hd & Hblob & _).
  destruct (RegistryStateFacts.repository_outcome _ _ _ _ _ _ Hc Hrepo)
    as (Hc1 & Hroot & Hcached).
  destruct (Hc1 _ _ (Hcached _ eq_refl)) as [_ Hrc].
  destruct (Hrc _ _ Hrev) as (Hw & Hdig & _).
  split; [exact Hw|].
  rewrite Hdig in Hd. apply DigestFacts.init_ok_inv in Hd as [_ ->].
  replace (OciDigest.mk (OciDigest.value d)) with d in Hblob by now destruct d.
  destruct (Registry.blob_path s1 d) as [p|e] eqn:Ep.
  - exists p. split; [now rewrite <- (HandlerStateFacts.blob_path_root s1 reg)|].
    destruct (ResolveStateFacts.blob_effects s1 d p w1 Ep) as (_ & Hr & _).
    rewrite Hblob in Hr. cbn [snd] in Hr. rewrite Hr. f_equal.
    pose proof (EmitFacts.emits_repository name reg w) as Hsteps.
    rewrite Hrepo in Hsteps.
    eapply EmitFacts.steps_blob_reads; [|exact Hsteps].
    intros q [H|H]; exact H.
  - rewrite (RegistryFacts.blob_run_no_path _ _ _ w1 Ep) in Hblob. discriminate.
Qed.

Lemma manifest_reads_the_blob_of_its_digest_witness :
  exists x reg' w',
    @Registry.manifest Samples2.sample_json exact_types "library/app"
      Samples2.digest_a Samples2.sample_registry Samples2.sample_world
    = (Ok x, reg', w')
    /\ blob_reads (trace w') = [Samples2.blob_file "a"].
Proof.
  destruct (@Registry.manifest Samples2.sample_json exact_types "library/app"
              Samples2.digest_a Samples2.sample_registry
              Samples2.sample_world) as [[r reg'] w'] eqn:E.
  assert (Hr : is_ok r = true).
  { change r with (r, reg', w').1.1. rewrite <- E. vm_compute. reflexivity. }
  destruct r as [x|e]; [|discriminate].
  destruct (@manifest_reads_the_blob_of_its_digest Samples2.sample_json
              exact_types _ _ _ _ _ _ _
              (new_registry_is_consistent _) E) as (_ & p & Hp & Hreads).
  vm_compute in Hp. injection Hp as <-.
  exists x, reg', w'. split; [reflexivity | exact Hreads].
Defined.

(** ** The responses of the handlers *)

Module HandlerFacts.
Import ProgFacts.

Lemma revisions_of_valid_keys (l : list (string * Revision.t)) :
  Forall (fun kv => DigestFormat.well_formed kv.1) l ->
  mapM_result
    (fun kv => rbind (OciDigest.init kv.1) (fun d => Ok (d, kv.2))) l
  = Ok (map (fun kv => (OciDigest.mk kv.1, kv.2)) l).
Proof.
  induction 1 as [|[k rev] l Hk _ IH]; [reflexivity|].
  cbn [mapM_result map fst snd] in *.
  destruct (DigestFacts.init_cases k) as [[_ ->]|[Hn _]]; [|contradiction].
  cbn [rbind]. now rewrite IH.
Qed.

Lemma revisions_dict_snoc (items : list (OciDigest.t * Revision.t))
    (item : OciDigest.t * Revision.t) :
  Routes.revisions_dict (items ++ [item])
  = <[OciDigest.value item.1 := ResponseLayout.tags_entry item.2]> (Routes.revisions_dict items).
Proof. unfold Routes.revisions_dict. now rewrite foldl_app. Qed.

Lemma revisions_dict_in (l : list (string * Revision.t)) :
  NoDup l.*1 ->
  forall k rev,
    (k, rev) ∈ l ->
    Routes.revisions_dict (map (fun kv => (OciDigest.mk kv.1, kv.2)) l) !! k
    = Some (ResponseLayout.tags_entry rev).
Proof.
  induction l as [|[k' rev'] l IH] using rev_ind; intros Hnd k rev Hin.
  - now apply elem_of_nil in Hin.
  - rewrite fmap_app in Hnd. apply NoDup_app in Hnd as (Hnd & Hdisj & _).
    rewrite map_app. cbn [map]. rewrite revisions_dict_snoc. cbn [fst snd OciDigest.value].
    apply elem_of_app in Hin as [Hin|Hin].
    + rewrite lookup_insert_ne; [now apply IH|].
      intros <-. apply (Hdisj k').
      * apply list_elem_of_fmap. now exists (k', rev).
      * cbn. apply elem_of_cons. now left.
    + apply list_elem_of_singleton in Hin. injection Hin as -> ->.
      apply lookup_insert_eq.
Qed.

Lemma revisions_dict_out (l : list (string * Revision.t)) (k : string) :
  k ∉ l.*1 ->
  Routes.revisions_dict (map (fun kv => (OciDigest.mk kv.1, kv.2)) l) !! k = None.
Proof.
  induction l as [|[k' rev'] l IH] using rev_ind; intros Hk.
  - reflexivity.
  - rewrite fmap_app in Hk. rewrite map_app. cbn [map].
    rewrite revisions_dict_snoc. cbn [fst snd OciDigest.value].
    rewrite lookup_insert_ne.
    + apply IH. intros H. apply Hk, elem_of_app. now left.
    + intros <-. apply Hk, elem_of_app. right. cbn. apply elem_of_cons. now left.
Qed.

Lemma revisions_dict_of_cache (m : gmap string Revision.t) (k : string) :
  Routes.revisions_dict
    (map (fun kv => (OciDigest.mk kv.1, kv.2)) (map_to_list m)) !! k
  = ResponseLayout.tags_entry <$> (m !! k).
Proof.
  destruct (m !! k) as [rev|] eqn:E.
  - apply revisions_dict_in; [apply NoDup_fst_map_to_list|].
    now apply elem_of_map_to_list.
  - apply revisions_dict_out. intros H.
    apply list_elem_of_fmap in H as ([k' rev] & -> & H).
    apply elem_of_map_to_list in H. cbn in E. congruence.
Qed.

Lemma index_entry_cases (m : OciContentDescriptor.t) :
  (~ DigestFormat.well_formed (OciContentDescriptor.digest m)
   /\ Routes.index_entry m = Raise (ValidationError "OciDigest"))
  \/ (DigestFormat.well_formed (OciContentDescriptor.digest m)
      /\ OciContentDescriptor.platform m = None
      /\ Routes.index_entry m
         = Raise (AttributeError "'NoneType' object has no attribute 'os'"))
  \/ (DigestFormat.well_formed (OciContentDescriptor.digest m)
      /\ exists e, Routes.index_entry m = Ok e /\ ResponseLayout.listed m e).
Proof.
  unfold Routes.index_entry.
  destruct (DigestFacts.init_cases (OciContentDescriptor.digest m))
    as [[Hw ->]|[Hw ->]]; [|now left].
  right. cbn [rbind OciDigest.value].
  destruct (OciContentDescriptor.platform m) as [p|] eqn:Ep; [right | now left].
  split; [exact Hw|]. eexists. split; [reflexivity|].
  split; [reflexivity|]. exists p. auto.
Qed.

Lemma index_entries_ok (l : list OciContentDescriptor.t) :
  Forall (fun m => DigestFormat.well_formed (OciContentDescriptor.digest m)
                   /\ is_Some (OciContentDescriptor.platform m)) l ->
  exists entries,
    mapM_result Routes.index_entry l = Ok entries /\ Forall2 ResponseLayout.listed l entries.
Proof.
  induction 1 as [|m l [Hw [p Hp]] _ (entries & IH & Hall)].
  - exists []. split; [reflexivity | constructor].
  - destruct (index_entry_cases m) as [[Hn _]|[(_ & Hnone & _)|(_ & e & He & Hl)]];
      [contradiction | congruence |].
    exists (e :: entries). cbn [mapM_result]. rewrite He, IH.
    split; [reflexivity | now constructor].
Qed.

Lemma index_entries_fail (pre post : list OciContentDescriptor.t)
    (m : OciContentDescriptor.t) (e : exn) :
  Forall (fun m => DigestFormat.well_formed (OciContentDescriptor.digest m)
                   /\ is_Some (OciContentDescriptor.platform m)) pre ->
  Routes.index_entry m = Raise e ->
  mapM_result Routes.index_entry (pre ++ m :: post) = Raise e.
Proof.
  intros Hpre He. induction Hpre as [|x pre [Hw [p Hp]] _ IH].
  - cbn [app mapM_result]. now rewrite He.
  - destruct (index_entry_cases x) as [[Hn _]|[(_ & Hnone & _)|(_ & y & Hy & _)]];
      [contradiction | congruence |].
    cbn [app mapM_result]. rewrite Hy. cbn [rbind]. now rewrite IH.
Qed.

Section WithLibraries.
Context {J : JsonLib} {P : Pydantic}.

Lemma read_revision_run (revision name : string) (self : Registry.t) (w : World) :
  DigestFormat.well_formed revision ->
  Routes.read_revision revision name self w
  = match Registry.manifest name (OciDigest.mk revision) self w with
    | (Raise e, s1, w1) => (Raise e, s1, w1)
    | (Ok (Index i), s1, w1) =>
        (match mapM_result Routes.index_entry (OciImageIndex.manifests i) with
         | Ok entries => Ok (Routes.IndexResponse entries)
         | Raise e => Raise e
         end, s1, w1)
    | (Ok (Image m), s1, w1) =>
        match OciDigest.init
                (OciContentDescriptor.digest (OciImageManifest.config m)) with
        | Raise e => (Raise e, s1, w1)
        | Ok d' =>
            match Registry.config d' s1 w1 with
            | (Raise e, s2, w2) => (Raise e, s2, w2)
            | (Ok c, s2, w2) =>
                (match OciImageConfig.config c with
                 | None =>
                     Raise (AttributeError
                              "'NoneType' object has no attribute 'Env'")
                 | Some rt =>
                     Ok (Routes.ImageResponse
                           (Routes.mkMetadata (OciImageConfig.created c)
                              (OciImageConfig.author c)
                              (OciImageManifest.size m)
                              (OciImageManifest.annotations m))
                           (Routes.mkConfiguration
                              (OciImageConfig.Config.Env rt)
                              (OciImageConfig.Config.Entrypoint rt)
                              (OciImageConfig.Config.Cmd rt)
                              (OciImageConfig.Config.WorkingDir rt))
                           (map Routes.layer_entry (OciImageManifest.layers m)))
                 end, s2, w2)
            end
        end
    end.
Proof.
  intros Hw. unfold Routes.read_revision. rewrite bind_run. unfold Prog.lift at 1.
  destruct (DigestFacts.init_cases revision) as [[_ ->]|[Hn _]]; [|contradiction].
  rewrite bind_run.
  destruct (Registry.manifest name (OciDigest.mk revision) self w)
    as [[[[m|i]|e] s1] w1]; [| |reflexivity].
  - rewrite bind_run. unfold Prog.lift at 1.
    destruct (OciDigest.init _) as [d'|e]; [|reflexivity].
    rewrite bind_run.
    destruct (Registry.config d' s1 w1) as [[[c|e] s2] w2]; [|reflexivity].
    now destruct (OciImageConfig.config c).
  - unfold Prog.bind, Prog.lift, Prog.ret.
    now destruct (mapM_result Routes.index_entry (OciImageIndex.manifests i)).
Qed.

End WithLibraries.

End HandlerFacts.

(** X10. [read_repository] gives back what [repository] raises; when the
    repository is found in a consistent registry, the response has one entry
    per cached revision, under the revision's digest, listing the names of
    its tags in order. *)
Theorem read_repository_lists_revisions_and_tags
    (name : string) (reg reg' : Registry.t) (w w' : World)
    (r : Result Repository.t)
    (Hc : registry_consistent reg)
    (Hrun : Registry.repository name reg w = (r, reg', w')) :
  match r with
  | Raise e => Routes.read_repository name reg w = (Raise e, reg', w')
  | Ok repo =>
      exists response,
        Routes.read_repository name reg w = (Ok response, reg', w')
        /\ forall k,
            Routes.revisions response !! k
            = (fun rev => Routes.mkTags (map Tag.name (Revision.tags rev)))
                <$> (Repository.cached_revisions repo !! k)
  end.
Proof.
  unfold Routes.read_repository. rewrite ProgFacts.bind_run, Hrun.
  destruct r as [repo|e]; [|reflexivity].
  destruct (RegistryStateFacts.repository_outcome _ _ _ _ _ _ Hc Hrun)
    as (Hc' & _ & Hcached).
  destruct (Hc' _ _ (Hcached _ eq_refl)) as [_ Hrc].
  unfold Prog.bind, Prog.lift, Prog.ret, Repository.revisions.
  rewrite HandlerFacts.revisions_of_valid_keys.
  - eexists. split; [reflexivity|]. intros k.
    cbn [Routes.revisions]. apply HandlerFacts.revisions_dict_of_cache.
  - apply Forall_forall. intros [k rev] Hin.
    apply elem_of_map_to_list in Hin. now destruct (Hrc _ _ Hin).
Qed.

Lemma read_repository_lists_revisions_and_tags_witness :
  exists response reg' w',
    Routes.read_repository "library/app" Samples2.sample_registry
      Samples2.sample_world = (Ok response, reg', w')
    /\ Routes.revisions response !! Samples2.sha "a"
       = Some (Routes.mkTags ["latest"]).
Proof.
  destruct (Registry.repository "library/app" Samples2.sample_registry
              Samples2.sample_world) as [[r reg'] w'] eqn:E.
  assert (Hr : match r with
               | Ok repo =>
                   (fun rev => Routes.mkTags (map Tag.name (Revision.tags rev)))
                     <$> (Repository.cached_revisions repo !! Samples2.sha "a")
                   = Some (Routes.mkTags ["latest"])
               | Raise _ => False
               end).
  { change r with (r, reg', w').1.1. rewrite <- E. vm_compute. reflexivity. }
  pose proof (read_repository_lists_revisions_and_tags _ _ _ _ _ _
                (new_registry_is_consistent _) E) as H.
  destruct r as [repo|e]; [|contradiction].
  destruct H as (response & Hresp & Hk).
  exists response, reg', w'. split; [exact Hresp|]. now rewrite Hk.
Defined.

(** X11. [read_revision] rejects a revision string that is not a well-formed
    digest with a validation error before it touches the registry or the
    world: no scan, no clock reading, no file opened. With a well-formed
    digest, whatever [manifest] raises (404 for an unknown repository or
    revision, 500 for a malformed stored manifest) is what it raises. *)
Theorem read_revision_rejects_malformed_digests {J : JsonLib} {P : Pydantic}
    (revision name : string) (reg : Registry.t) (w : World) :
  (~ DigestFormat.well_formed revision ->
   Routes.read_revision revision name reg w
   = (Raise (ValidationError "OciDigest"), reg, w))
  /\ (DigestFormat.well_formed revision ->
      forall e reg' w',
        Registry.manifest name (OciDigest.mk revision) reg w = (Raise e, reg', w') ->
        Routes.read_revision revision name reg w = (Raise e, reg', w')).
Proof.
  split.
  - intros Hn. unfold Routes.read_revision.
    rewrite ProgFacts.bind_run. unfold Prog.lift at 1.
    destruct (DigestFacts.init_cases revision) as [[Hw _]|[_ ->]];
      [contradiction | reflexivity].
  - intros Hw e reg' w' Hm.
    now rewrite (HandlerFacts.read_revision_run _ _ _ _ Hw), Hm.
Qed.

Lemma read_revision_rejects_malformed_digests_witness :
  @Routes.read_revision Samples2.sample_json exact_types "latest" "library/app"
    Samples2.sample_registry Samples2.sample_world
  = (Raise (ValidationError "OciDigest"), Samples2.sample_registry,
     Samples2.sample_world)
  /\ exists reg' w',
      @Routes.read_revision Samples2.sample_json exact_types
        (Samples2.sha "f") "library/app"
        Samples2.sample_registry Samples2.sample_world
      = (Raise (HTTPException 404 "Revision not found"), reg', w').
Proof.
  split.
  - apply (proj1 (@read_revision_rejects_malformed_digests Samples2.sample_json
                    exact_types "latest" "library/app" _ _)).
    intros [(h & E & _)|(h & E & _)]; discriminate.
  - destruct (@Registry.manifest Samples2.sample_json exact_types "library/app"
                (OciDigest.mk (Samples2.sha "f")) Samples2.sample_registry
                Samples2.sample_world) as [[r reg'] w'] eqn:E.
    assert (Hr : r = Raise (HTTPException 404 "Revision not found")).
    { change r with (r, reg', w').1.1. rewrite <- E. vm_compute. reflexivity. }
    subst r. exists reg', w'.
    apply (proj2 (@read_revision_rejects_malformed_digests Samples2.sample_json
                    exact_types (Samples2.sha "f") "library/app" _ _));
      [|exact E].
    left. exists (Samples2.hex64 "f"). repeat split; reflexivity.
Defined.

(** X12. [read_revision] on an image index: when every listed manifest has a
    well-formed digest and a platform, the response lists them in order,
    each with its digest and 'os-architecture'; the first listed manifest
    that lacks one of the two makes the call raise, a validation error for
    the digest, AttributeError for the missing platform. *)
Theorem read_revision_of_an_index {J : JsonLib} {P : Pydantic}
    (revision name : string) (reg reg' : Registry.t) (w w' : World)
    (i : OciImageIndex.t)
    (Hw : DigestFormat.well_formed revision)
    (Hrun : Registry.manifest name (OciDigest.mk revision) reg w
            = (Ok (Index i), reg', w')) :
  let complete m :=
    DigestFormat.well_formed (OciContentDescriptor.digest m)
    /\ is_Some (OciContentDescriptor.platform m) in
  (Forall complete (OciImageIndex.manifests i) ->
   exists entries,
     Routes.read_revision revision name reg w
     = (Ok (Routes.IndexResponse entries), reg', w')
     /\ Forall2 ResponseLayout.listed (OciImageIndex.manifests i) entries)
  /\ (forall pre m post,
         OciImageIndex.manifests i = pre ++ m :: post ->
         Forall complete pre ->
         (~ DigestFormat.well_formed (OciContentDescriptor.digest m) ->
          Routes.read_revision revision name reg w
          = (Raise (ValidationError "OciDigest"), reg', w'))
         /\ (DigestFormat.well_formed (OciContentDescriptor.digest m) ->
             OciContentDescriptor.platform m = None ->
             Routes.read_revision revision name reg w
             = (Raise (AttributeError "'NoneType' object has no attribute 'os'"),
                reg', w'))).
Proof.
  cbv zeta. rewrite (HandlerFacts.read_revision_run _ _ _ _ Hw), Hrun. split.
  - intros Hall.
    destruct (HandlerFacts.index_entries_ok _ Hall) as (entries & -> & Hl). eauto.
  - intros pre m post -> Hpre. split.
    + intros Hn.
      destruct (HandlerFacts.index_entry_cases m)
        as [[_ He]|[(Hw' & _)|(Hw' & _)]]; try contradiction.
      now rewrite (HandlerFacts.index_entries_fail _ _ _ _ Hpre He).
    + intros Hw' Hnone.
      destruct (HandlerFacts.index_entry_cases m)
        as [[Hn _]|[(_ & _ & He)|(_ & e & _ & _ & p & Hp & _)]];
        [contradiction | | congruence].
      now rewrite (HandlerFacts.index_entries_fail _ _ _ _ Hpre He).
Qed.

Lemma read_revision_of_an_index_witness :
  (exists reg' w',
      @Routes.read_revision Samples2.sample_json exact_types
        (Samples2.sha "c") "library/app"
        Samples2.sample_registry Samples2.sample_world
      = (Ok (Routes.IndexResponse
               [Routes.mkIndexEntry (Samples2.sha "a") "linux-amd64"]),
         reg', w'))
  /\ exists reg' w',
      @Routes.read_revision Samples2.sample_json exact_types
        (Samples2.sha "d") "library/app"
        Samples2.sample_registry Samples2.sample_world
      = (Raise (AttributeError "'NoneType' object has no attribute 'os'"),
         reg', w').
Proof.
  split.
  - destruct (@Registry.manifest Samples2.sample_json exact_types "library/app"
                (OciDigest.mk (Samples2.sha "c")) Samples2.sample_registry
                Samples2.sample_world) as [[r reg'] w'] eqn:E.
    assert (Hr : match r with
                 | Ok (Index i) =>
                     map (fun m => (OciContentDescriptor.digest m,
                                    OciContentDescriptor.platform m))
                       (OciImageIndex.manifests i)
                     = [(Samples2.sha "a",
                         Some (OciPlatform.mk "amd64" "linux" None None None None))]
                 | _ => False
                 end).
    { change r with (r, reg', w').1.1. rewrite <- E. vm_compute. reflexivity. }
    destruct r as [[m|i]|e]; try contradiction.
    destruct (OciImageIndex.manifests i) as [|m [|m' l]] eqn:El; try discriminate.
    injection Hr as Hd Hp.
    assert (Hwf : DigestFormat.well_formed (Samples2.sha "c")).
    { left. exists (Samples2.hex64 "c"). repeat split; reflexivity. }
    destruct (@read_revision_of_an_index Samples2.sample_json exact_types
                (Samples2.sha "c") "library/app" _ _ _ _ i Hwf E) as [Hall _].
    destruct Hall as (entries & Hrun & Hl).
    + rewrite El. constructor; [|constructor]. rewrite Hd, Hp. split; [|eauto].
      left. exists (Samples2.hex64 "a"). repeat split; reflexivity.
    + exists reg', w'. rewrite Hrun. rewrite El in Hl.
      inversion Hl as [|? e ? l' [He1 (p & Hp' & He2)] Hl']; subst.
      inversion Hl'; subst.
      rewrite Hp in Hp'. injection Hp' as <-.
      destruct e as [ed ep]. cbn in He1, He2. rewrite Hd in He1.
      rewrite He1, He2. reflexivity.
  - destruct (@Registry.manifest Samples2.sample_json exact_types "library/app"
                (OciDigest.mk (Samples2.sha "d")) Samples2.sample_registry
                Samples2.sample_world) as [[r reg'] w'] eqn:E.
    assert (Hr : match r with
                 | Ok (Index i) =>
                     map (fun m => (OciContentDescriptor.digest m,
                                    OciContentDescriptor.platform m))
                       (OciImageIndex.manifests i)
                     = [(Samples2.sha "a", None)]
                 | _ => False
                 end).
    { change r with (r, reg', w').1.1. rewrite <- E. vm_compute. reflexivity. }
    destruct r as [[m|i]|e]; try contradiction.
    destruct (OciImageIndex.manifests i) as [|m [|m' l]] eqn:El; try discriminate.
    injection Hr as Hd Hp.
    assert (Hwf : DigestFormat.well_formed (Samples2.sha "d")).
    { left. exists (Samples2.hex64 "d"). repeat split; reflexivity. }
    destruct (@read_revision_of_an_index Samples2.sample_json exact_types
                (Samples2.sha "d") "library/app" _ _ _ _ i Hwf E) as [_ Hfail].
    exists reg', w'.
    apply (Hfail [] m []); [exact El | constructor | | exact Hp].
    rewrite Hd. left. exists (Samples2.hex64 "a"). repeat split; reflexivity.
Defined.

(** X13. [read_revision] on an image manifest reads the config named by the
    manifest's config descriptor and, when the config has runtime settings,
    answers with the config's creation date and author, a size that is the
    config size plus the sizes of the layers, the runtime environment,
    entrypoint, command and working directory, and one entry per layer in
    order. A config without runtime settings makes it raise AttributeError;
    a config digest that is not well formed, and whatever [config] raises,
    are raised as they are. *)
Theorem read_revision_of_an_image {J : JsonLib} {P : Pydantic}
    (revision name : string) (reg reg' : Registry.t) (w w' : World)
    (m : OciImageManifest.t)
    (Hw : DigestFormat.well_formed revision)
    (Hrun : Registry.manifest name (OciDigest.mk revision) reg w
            = (Ok (Image m), reg', w')) :
  let digest := OciContentDescriptor.digest (OciImageManifest.config m) in
  (~ DigestFormat.well_formed digest ->
   Routes.read_revision revision name reg w
   = (Raise (ValidationError "OciDigest"), reg', w'))
  /\ (DigestFormat.well_formed digest ->
      forall r c reg2 w2,
        Registry.config (OciDigest.mk digest) reg' w' = (r, reg2, w2) ->
        (forall e, r = Raise e ->
                   Routes.read_revision revision name reg w = (Raise e, reg2, w2))
        /\ (r = Ok c ->
            OciImageConfig.config c = None ->
            Routes.read_revision revision name reg w
            = (Raise (AttributeError "'NoneType' object has no attribute 'Env'"),
               reg2, w2))
        /\ (forall rt,
               r = Ok c ->
               OciImageConfig.config c = Some rt ->
               Routes.read_revision revision name reg w
               = (Ok (Routes.ImageResponse
                        (Routes.mkMetadata (OciImageConfig.created c)
                           (OciImageConfig.author c)
                           (OciContentDescriptor.size (OciImageManifest.config m)
                            + sum_sizes (OciImageManifest.layers m))
                           (OciImageManifest.annotations m))
                        (Routes.mkConfiguration
                           (OciImageConfig.Config.Env rt)
                           (OciImageConfig.Config.Entrypoint rt)
                           (OciImageConfig.Config.Cmd rt)
                           (OciImageConfig.Config.WorkingDir rt))
                        (map Routes.layer_entry (OciImageManifest.layers m))),
                  reg2, w2))).
Proof.
  cbv zeta. rewrite (HandlerFacts.read_revision_run _ _ _ _ Hw), Hrun.
  destruct (DigestFacts.init_cases
              (OciContentDescriptor.digest (OciImageManifest.config m)))
    as [[Hw' ->]|[Hn ->]].
  - split; [intros; contradiction|]. intros _ r c reg2 w2 ->.
    split; [|split].
    + now intros e ->.
    + now intros -> ->.
    + intros rt -> ->. unfold OciImageManifest.size.
      now rewrite SchemaFacts.fold_size_acc.
  - split; [reflexivity | intros; contradiction].
Qed.

Lemma read_revision_of_an_image_witness :
  (exists response reg' w',
      @Routes.read_revision Samples2.sample_json exact_types
        (Samples2.sha "a") "library/app"
        Samples2.sample_registry Samples2.sample_world
      = (Ok response, reg', w')
      /\ match response with
         | Routes.ImageResponse metadata configuration layers =>
             Routes.size metadata = 225 /\ length layers = 2%nat
         | _ => False
         end).
Proof.
  destruct (@Registry.manifest Samples2.sample_json exact_types "library/app"
              (OciDigest.mk (Samples2.sha "a")) Samples2.sample_registry
              Samples2.sample_world) as [[r reg'] w'] eqn:E.
  assert (Hr : match r with
               | Ok (Image m) =>
                   OciContentDescriptor.digest (OciImageManifest.config m)
                   = Samples2.sha "e"
                   /\ OciContentDescriptor.size (OciImageManifest.config m) = 100
                   /\ map OciContentDescriptor.size (OciImageManifest.layers m)
                      = [50; 75]
               | _ => False
               end).
  { change r with (r, reg', w').1.1. rewrite <- E. vm_compute. auto. }
  destruct r as [[m|i]|e]; try contradiction.
  destruct Hr as (Hd & Hs & Hl).
  destruct (@Registry.config Samples2.sample_json exact_types
              (OciDigest.mk (Samples2.sha "e")) reg' w') as [[rc reg2] w2] eqn:Ec.
  assert (Hc : match rc with
               | Ok c => is_Some (OciImageConfig.config c)
               | Raise _ => False
               end).
  { change rc with (rc, reg2, w2).1.1. rewrite <- Ec.
    assert (Hs1 : reg' = (reg', w').1) by reflexivity.
    pose proof (f_equal (fun x => x.1.2) E) as Hreg.
    pose proof (f_equal (fun x => fs x.2) E) as Hfs. cbn in Hreg, Hfs.
    unfold Registry.config. rewrite ProgFacts.bind_run.
    assert (Hp : Registry.blob_path reg' (OciDigest.mk (Samples2.sha "e"))
                 = Ok (Samples2.blob_file "e")).
    { rewrite (HandlerStateFacts.blob_path_root reg' Samples2.sample_registry);
        [reflexivity|].
      rewrite <- Hreg.
      change (Registry.root
                (@Registry.manifest Samples2.sample_json exact_types
                   "library/app" (OciDigest.mk (Samples2.sha "a"))
                   Samples2.sample_registry Samples2.sample_world).1.2
              = Registry.root Samples2.sample_registry).
      vm_compute. reflexivity. }
    rewrite (RegistryFacts.blob_run _ _ _ w' Hp), <- Hfs.
    vm_compute. eexists. reflexivity. }
  destruct rc as [c|e]; [|contradiction]. destruct Hc as [rt Hrt].
  assert (Hwf : DigestFormat.well_formed (Samples2.sha "a")).
  { left. exists (Samples2.hex64 "a"). repeat split; reflexivity. }
  destruct (@read_revision_of_an_image Samples2.sample_json exact_types
              (Samples2.sha "a") "library/app" _ _ _ _ m Hwf E) as [_ Himg].
  cbv zeta in Himg. rewrite Hd in Himg.
  assert (Hwe : DigestFormat.well_formed (Samples2.sha "e")).
  { left. exists (Samples2.hex64 "e"). repeat split; reflexivity. }
  destruct (Himg Hwe (Ok c) c reg2 w2 Ec) as (_ & _ & Hok).
  eexists _, reg2, w2. split; [apply (Hok rt eq_refl Hrt)|].
  cbn [Routes.size]. rewrite Hs. split.
  - destruct (OciImageManifest.layers m) as [|l1 [|l2 [|l3 ls]]];
      try discriminate.
    injection Hl as H1 H2. unfold sum_sizes. cbn. lia.
  - rewrite length_map. rewrite <- (length_map OciContentDescriptor.size), Hl.
    reflexivity.
Defined.

(** ** Loads that do not complete *)

Module LoadRunFacts.
Import ProgFacts RepositoryLayout.

Lemma all_append (p : ascii -> bool) (a b : string) :
  Str.all p (a +:+ b) = Str.all p a && Str.all p b.
Proof.
  induction a as [|c a IH]; [reflexivity|].
  cbn [String.append Str.all]. now rewrite IH, andb_assoc.
Qed.

Lemma all_impl (p q : ascii -> bool) (s : string) :
  (forall c, p c = true -> q c = true) ->
  Str.all p s = true -> Str.all q s = true.
Proof.
  intros Hpq. induction s as [|c s IH]; [reflexivity|].
  cbn [Str.all]. intros H. apply andb_prop in H as [Hc Hs].
  now rewrite (Hpq _ Hc), IH.
Qed.

(** A well-formed digest holds no line feed. *)
Lemma well_formed_no_line_feed (s : string) :
  DigestFormat.well_formed s ->
  Str.all (fun c => negb (Ascii.eqb c "010"%char)) s = true.
Proof.
  intros Hw.
  destruct (DigestFacts.well_formed_parts s Hw) as (a & h & -> & Hh & _).
  rewrite all_append.
  assert (Hrest : Str.all (fun c => negb (Ascii.eqb c "010"%char)) (":" +:+ h)
                  = true).
  { cbn [String.append Str.all]. cbn [Ascii.eqb Bool.eqb negb andb].
    revert Hh. apply all_impl. intros c Hc.
    destruct (Ascii.eqb_spec c "010"%char) as [->|_]; [discriminate | reflexivity]. }
  rewrite Hrest. now destruct a.
Qed.

Lemma line_feed_not_well_formed (content : string) :
  ~ DigestFormat.well_formed (content +:+ String "010"%char EmptyString).
Proof.
  intros Hw. apply well_formed_no_line_feed in Hw.
  rewrite all_append in Hw. cbn [Str.all] in Hw.
  rewrite Ascii.eqb_refl in Hw. cbn [negb andb] in Hw.
  rewrite andb_false_r in Hw. discriminate.
Qed.

(** *** The three loops of [load], run forward *)

Section Loops.
Variable add_body : string -> M Repository.t unit.
Hypothesis add_body_eq :
  forall child self w,
    add_body child self w
    = (Prog.bind (Prog.lift (OciDigest.from_raw_digest OciDigest.SHA256 child))
         (fun digest =>
          Prog.bind (Prog.lift (Revision.init (OciDigest.value digest)))
            (fun revision =>
             Prog.modify (fun self =>
               Repository.set_cached_revisions
                 (<[OciDigest.value digest := revision]>
                    (Repository.cached_revisions self)) self)))) self w.

Lemma add_body_run (child : string) (self : Repository.t) (w : World) :
  DigestFormat.well_formed (key child) ->
  add_body child self w
  = (Ok tt,
     Repository.set_cached_revisions
       (add_revision (Repository.cached_revisions self) child) self, w).
Proof.
  intros Hw. rewrite add_body_eq.
  unfold Prog.bind, Prog.lift, Prog.modify, OciDigest.from_raw_digest.
  change (OciDigest.Algorithm_value OciDigest.SHA256 +:+ ":" +:+ child)
    with (key child).
  destruct (DigestFacts.init_cases (key child)) as [[_ ->]|[Hn _]];
    [|contradiction].
  cbn [OciDigest.value].
  destruct (RepositoryFacts.revision_init_cases (key child)) as [[_ ->]|[Hn _]];
    [|contradiction].
  reflexivity.
Qed.

Lemma add_revisions_run (names : list string) :
  Forall (fun n => DigestFormat.well_formed (key n)) names ->
  forall (self : Repository.t) (w : World),
    Prog.for_each names add_body self w
    = (Ok tt,
       Repository.set_cached_revisions
         (foldl add_revision (Repository.cached_revisions self) names) self, w).
Proof.
  induction 1 as [|n names Hn _ IH]; intros self w.
  - now destruct self.
  - cbn [Prog.for_each foldl]. rewrite bind_run, (add_body_run _ _ _ Hn), IH.
    reflexivity.
Qed.

Variable tag_body : string -> M Repository.t Tag.t.
Hypothesis tag_body_eq :
  forall child self w,
    tag_body child self w
    = (Prog.bind (Repository.hash_for_tag child)
         (fun digest => Prog.lift (Tag.init child (OciDigest.value digest))))
        self w.

Lemma tag_body_run (child content : string) (self : Repository.t) (w : World) :
  fs_read_text (fs w) (link self child) = Ok content ->
  tag_body child self w
  = (if OciDigest.init content is Ok _ then Ok (Tag.mk child content)
     else Raise (ValidationError "OciDigest"),
     self, world_emit (EvOpenText (link self child)) w).
Proof.
  intros Hread.
  rewrite tag_body_eq, bind_run, RepositoryFacts.hash_for_tag_run, Hread.
  cbn [rbind].
  destruct (DigestFacts.init_cases content) as [[Hw ->]|[Hw ->]]; [|reflexivity].
  unfold Prog.lift. cbn [OciDigest.value].
  now destruct (RepositoryFacts.tag_init_cases child content) as [[_ ->]|[Hn _]].
Qed.

Lemma read_tags_run (f : FS) (self : Repository.t)
    (tagnames contents : list string) :
  LinkLayout.good_links f self tagnames contents ->
  forall w, fs w = f ->
    exists w',
      Prog.for_collect tagnames tag_body self w
      = (Ok (zip_with Tag.mk tagnames contents), self, w')
      /\ fs w' = f.
Proof.
  induction 1 as [|n c tagnames contents [Hread Hw] _ IH]; intros w Hf.
  - exists w. split; [reflexivity | exact Hf].
  - cbn [Prog.for_collect zip_with]. rewrite bind_run.
    rewrite <- Hf in Hread. rewrite (tag_body_run _ _ _ _ Hread).
    destruct (DigestFacts.init_cases c) as [[_ ->]|[Hn _]]; [|contradiction].
    destruct (IH (world_emit (EvOpenText (link self n)) w) Hf) as (w' & E & Hf').
    exists w'. rewrite bind_run, E. split; [reflexivity | exact Hf'].
Qed.

Lemma read_tags_fail (f : FS) (self : Repository.t)
    (pre contents post : list string) (n c : string) :
  LinkLayout.good_links f self pre contents ->
  fs_read_text f (link self n) = Ok c ->
  ~ DigestFormat.well_formed c ->
  forall w, fs w = f ->
    exists w',
      Prog.for_collect (pre ++ n :: post) tag_body self w
      = (Raise (ValidationError "OciDigest"), self, w').
Proof.
  intros Hpre Hread Hbad.
  induction Hpre as [|n0 c0 pre contents [Hread0 Hw0] _ IH]; intros w Hf.
  - cbn [app Prog.for_collect]. rewrite bind_run.
    rewrite <- Hf in Hread. rewrite (tag_body_run _ _ _ _ Hread).
    destruct (DigestFacts.init_cases c) as [[Hw _]|[_ ->]]; [contradiction|].
    eauto.
  - cbn [app Prog.for_collect]. rewrite bind_run.
    rewrite <- Hf in Hread0. rewrite (tag_body_run _ _ _ _ Hread0).
    destruct (DigestFacts.init_cases c0) as [[_ ->]|[Hn _]]; [|contradiction].
    destruct (IH (world_emit (EvOpenText (link self n0)) w) Hf) as (w' & E).
    exists w'. now rewrite bind_run, E.
Qed.

Variable link_body : Tag.t -> M Repository.t unit.
Hypothesis link_body_eq :
  forall tag self w,
    link_body tag self w
    = match Repository.cached_revisions self !! Tag.digest tag with
      | None => (Raise (KeyError (Tag.digest tag)), self, w)
      | Some revision =>
          (Ok tt,
           Repository.set_cached_revisions
             (<[Tag.digest tag := Revision.tags_append tag revision]>
                (Repository.cached_revisions self)) self, w)
      end.

Lemma link_tags_run (keys : list string) (tags : list Tag.t) :
  forall (self : Repository.t) (w : World),
    (forall k, is_Some (Repository.cached_revisions self !! k) <-> k ∈ keys) ->
    exists self',
      Prog.for_each tags link_body self w
      = (match first_orphan keys tags with
         | None => Ok tt
         | Some t => Raise (KeyError (Tag.digest t))
         end, self', w)
      /\ Repository.last_load self' = Repository.last_load self
      /\ (forall k, is_Some (Repository.cached_revisions self' !! k) <-> k ∈ keys).
Proof.
  induction tags as [|t tags IH]; intros self w Hdom.
  - exists self. auto.
  - cbn [Prog.for_each]. rewrite bind_run, link_body_eq.
    unfold first_orphan. cbn [find]. fold (first_orphan keys tags).
    destruct (Repository.cached_revisions self !! Tag.digest t) as [rev|] eqn:El.
    + rewrite bool_decide_eq_true_2 by (apply Hdom; now rewrite El).
      cbn [negb].
      destruct (IH (Repository.set_cached_revisions
                      (<[Tag.digest t := Revision.tags_append t rev]>
                         (Repository.cached_revisions self)) self) w)
        as (self' & E & Hl & Hdom').
      * intros k. cbn [Repository.cached_revisions Repository.set_cached_revisions].
        rewrite lookup_insert_is_Some, <- Hdom.
        destruct (decide (Tag.digest t = k)) as [<-|Hne].
        -- rewrite El. split; eauto.
        -- split; [now intros [?|[_ ?]] | auto].
      * exists self'. auto.
    + rewrite bool_decide_eq_false_2.
      * exists self. auto.
      * intros Hin. apply Hdom in Hin. rewrite El in Hin. now destruct Hin.
Qed.

End Loops.

Lemma keys_after_revisions (names : list string) (k : string) :
  is_Some (foldl add_revision (∅ : gmap string Revision.t) names !! k)
  <-> k ∈ key <$> names.
Proof.
  split.
  - intros [r Hr].
    apply RepositoryFacts.lookup_add_revisions_inv in Hr
      as [(n & Hn & -> & _)|Hr]; [|now rewrite lookup_empty in Hr].
    apply list_elem_of_fmap. eauto.
  - intros Hk. apply list_elem_of_fmap in Hk as (n & -> & Hn).
    rewrite (RepositoryFacts.lookup_add_revisions_in _ _ _ Hn). eauto.
Qed.

(** [load] up to the end of its second loop, when the revision directories
    are listed and well named. *)
Lemma load_run (self : Repository.t) (w : World) (names tagnames : list string) :
  fs_iterdir (fs w) (Repository.revisions_path self) = Ok names ->
  Forall (fun n => DigestFormat.well_formed (key n)) names ->
  fs_iterdir (fs w) (Repository.tags_path self) = Ok tagnames ->
  let self1 :=
    Repository.set_cached_revisions (foldl add_revision ∅ names) self in
  let w1 :=
    world_emit (EvIterdir (Repository.tags_path self))
      (world_emit (EvIterdir (Repository.revisions_path self)) w) in
  Repository.load self w
  = match Prog.for_collect tagnames
            (fun child =>
               Prog.bind (Repository.hash_for_tag child)
                 (fun digest =>
                    Prog.lift (Tag.init child (OciDigest.value digest))))
            self1 w1 with
    | (Raise e, s2, w2) => (Raise e, s2, w2)
    | (Ok tags, s2, w2) =>
        match Prog.for_each tags
                (fun tag =>
                   Prog.bind Prog.get (fun self =>
                     match Repository.cached_revisions self !! Tag.digest tag with
                     | None => Prog.raise (KeyError (Tag.digest tag))
                     | Some revision =>
                         Prog.modify (Repository.set_cached_revisions
                           (<[Tag.digest tag := Revision.tags_append tag revision]>
                              (Repository.cached_revisions self)))
                     end)) s2 w2 with
        | (Raise e, s3, w3) => (Raise e, s3, w3)
        | (Ok _, s3, w3) =>
            (Ok tt, Repository.set_last_load (clock w3 (ticks w3)) s3,
             world_tick w3)
        end
    end.
Proof.
  intros Hnames Hvalid Htags. cbv zeta.
  unfold Repository.load. rewrite bind_run. unfold Prog.get at 1.
  cbv beta iota zeta.
  rewrite bind_run. unfold Prog.modify at 1. cbv beta iota.
  rewrite bind_run. unfold Prog.iterdir at 1. cbv beta iota.
  rewrite Hnames.
  rewrite bind_run.
  rewrite (add_revisions_run _ (fun _ _ _ => eq_refl) names Hvalid).
  rewrite bind_run. unfold Prog.iterdir at 1. cbv beta iota.
  change (fs (world_emit (EvIterdir (Repository.revisions_path self)) w))
    with (fs w).
  rewrite Htags.
  rewrite bind_run.
  cbn [Repository.set_cached_revisions Repository.cached_revisions
       Repository.path Repository.name Repository.last_load].
  match goal with
  | |- match ?m with _ => _ end = match ?m' with _ => _ end =>
      change m' with m; destruct m as [[[tags|e] s2] w2]; [|reflexivity]
  end.
  rewrite bind_run.
  match goal with
  | |- match ?m with _ => _ end = match ?m' with _ => _ end =>
      change m' with m; destruct m as [[[[]|e] s3] w3]; reflexivity
  end.
Qed.

End LoadRunFacts.

(** X14. A link file whose text ends with a line feed is never accepted:
    no well-formed digest holds a line feed, so [hash_for_tag] opens the
    link and raises the validation error of OciDigest, the repository
    unchanged. *)
Theorem hash_for_tag_rejects_trailing_line_feed
    (tag content : string) (self : Repository.t) (w : World)
    (Hread : fs_read_text (fs w) (RepositoryLayout.link self tag)
             = Ok (content +:+ String "010"%char EmptyString)) :
  Repository.hash_for_tag tag self w
  = (Raise (ValidationError "OciDigest"), self,
     world_emit (EvOpenText (RepositoryLayout.link self tag)) w).
Proof.
  rewrite RepositoryFacts.hash_for_tag_run, Hread. cbn [rbind].
  destruct (DigestFacts.init_cases (content +:+ String "010"%char EmptyString))
    as [[Hw _]|[_ ->]]; [|reflexivity].
  now apply LoadRunFacts.line_feed_not_well_formed in Hw.
Qed.

Lemma hash_for_tag_rejects_trailing_line_feed_witness :
  Repository.hash_for_tag "v1" Samples2.newline Samples2.sample_world
  = (Raise (ValidationError "OciDigest"), Samples2.newline,
     world_emit (EvOpenText (RepositoryLayout.link Samples2.newline "v1"))
       Samples2.sample_world).
Proof.
  apply (hash_for_tag_rejects_trailing_line_feed "v1" (Samples2.sha "a")).
  vm_compute. reflexivity.
Defined.

(** X15. When the revision directories are listed and well named, the
    first tag whose link file is readable but does not hold a well-formed
    digest makes [load] raise the validation error of OciDigest. The
    repository is left with one revision per listed directory, none of them
    with a tag, and with its former load time. *)
Theorem load_raises_on_malformed_link
    (self : Repository.t) (w : World)
    (names pre contents post : list string) (n c : string)
    (Hnames : fs_iterdir (fs w) (Repository.revisions_path self) = Ok names)
    (Hvalid : Forall (fun child =>
                        DigestFormat.well_formed (RepositoryLayout.key child))
                names)
    (Htags : fs_iterdir (fs w) (Repository.tags_path self)
             = Ok (pre ++ n :: post))
    (Hpre : LinkLayout.good_links (fs w) self pre contents)
    (Hread : fs_read_text (fs w) (RepositoryLayout.link self n) = Ok c)
    (Hbad : ~ DigestFormat.well_formed c) :
  exists w',
    Repository.load self w
    = (Raise (ValidationError "OciDigest"),
       Repository.set_cached_revisions
         (foldl RepositoryLayout.add_revision ∅ names) self, w').
Proof.
  rewrite (LoadRunFacts.load_run _ _ _ _ Hnames Hvalid Htags). cbv zeta.
  edestruct (LoadRunFacts.read_tags_fail _ (fun _ _ _ => eq_refl) (fs w)
               (Repository.set_cached_revisions
                  (foldl RepositoryLayout.add_revision ∅ names) self)
               pre contents post n c) as (w' & E);
    [exact Hpre | exact Hread | exact Hbad | | rewrite E; eauto].
  reflexivity.
Qed.

Lemma load_raises_on_malformed_link_witness :
  exists w',
    Repository.load Samples2.newline Samples2.sample_world
    = (Raise (ValidationError "OciDigest"),
       Repository.set_cached_revisions
         (foldl RepositoryLayout.add_revision ∅ [Samples2.hex64 "a"])
         Samples2.newline, w').
Proof.
  apply (load_raises_on_malformed_link Samples2.newline Samples2.sample_world
           [Samples2.hex64 "a"] [] [] [] "v1"
           (Samples2.sha "a" +:+ String "010"%char EmptyString)).
  - vm_compute. reflexivity.
  - constructor; [|constructor].
    left. exists (Samples2.hex64 "a"). repeat split; reflexivity.
  - vm_compute. reflexivity.
  - constructor.
  - vm_compute. reflexivity.
  - apply LoadRunFacts.line_feed_not_well_formed.
Defined.

(** X16. When the revision directories are listed and well named and every
    tag has a readable link holding a well-formed digest, [load] completes
    exactly when every tag points at one of the listed revisions; otherwise
    it raises KeyError with the digest of the first tag that points
    elsewhere, and the load time of the repository is not advanced. *)
Theorem load_raises_key_error_for_orphan_tag
    (self : Repository.t) (w : World) (names tagnames contents : list string)
    (Hnames : fs_iterdir (fs w) (Repository.revisions_path self) = Ok names)
    (Hvalid : Forall (fun child =>
                        DigestFormat.well_formed (RepositoryLayout.key child))
                names)
    (Htags : fs_iterdir (fs w) (Repository.tags_path self) = Ok tagnames)
    (Hlinks : LinkLayout.good_links (fs w) self tagnames contents) :
  match first_orphan (RepositoryLayout.key <$> names)
          (zip_with Tag.mk tagnames contents) with
  | None => exists self' w', Repository.load self w = (Ok tt, self', w')
  | Some t =>
      exists self' w',
        Repository.load self w = (Raise (KeyError (Tag.digest t)), self', w')
        /\ Repository.last_load self' = Repository.last_load self
  end.
Proof.
  rewrite (LoadRunFacts.load_run _ _ _ _ Hnames Hvalid Htags). cbv zeta.
  edestruct (LoadRunFacts.read_tags_run _ (fun _ _ _ => eq_refl) (fs w)
               (Repository.set_cached_revisions
                  (foldl RepositoryLayout.add_revision ∅ names) self)
               tagnames contents Hlinks) as (w2 & -> & _); [reflexivity|].
  edestruct (LoadRunFacts.link_tags_run
               (fun tag =>
                  Prog.bind Prog.get (fun self =>
                    match Repository.cached_revisions self !! Tag.digest tag with
                    | None => Prog.raise (KeyError (Tag.digest tag))
                    | Some revision =>
                        Prog.modify (Repository.set_cached_revisions
                          (<[Tag.digest tag := Revision.tags_append tag revision]>
                             (Repository.cached_revisions self)))
                    end))) as (self' & -> & Hl & _).
  - intros tag s w0. unfold Prog.bind, Prog.get.
    now destruct (Repository.cached_revisions s !! Tag.digest tag).
  - intros k. apply (LoadRunFacts.keys_after_revisions names k).
  - destruct (first_orphan _ _) as [t|]; eauto.
Qed.

Lemma load_raises_key_error_for_orphan_tag_witness :
  (exists self' w',
      Repository.load Samples2.orphan Samples2.sample_world
      = (Raise (KeyError (Samples2.sha "f")), self', w')
      /\ Repository.last_load self' = Repository.last_load Samples2.orphan)
  /\ exists self' w',
      Repository.load Samples2.app Samples2.sample_world = (Ok tt, self', w').
Proof.
  assert (Hw : forall c, DigestFormat.lower_hex c = true ->
                         DigestFormat.well_formed (Samples2.sha c)).
  { intros c Hc. left. exists (Samples2.hex64 c). split; [reflexivity|].
    split; [reflexivity|]. cbn. now rewrite Hc. }
  split.
  - pose proof (load_raises_key_error_for_orphan_tag Samples2.orphan
                  Samples2.sample_world [Samples2.hex64 "a"] ["stale"]
                  [Samples2.sha "f"]) as H.
    assert (Ho : first_orphan (RepositoryLayout.key <$> [Samples2.hex64 "a"])
                   (zip_with Tag.mk ["stale"] [Samples2.sha "f"])
                 = Some (Tag.mk "stale" (Samples2.sha "f")))
      by (vm_compute; reflexivity).
    rewrite Ho in H. apply H.
    + vm_compute. reflexivity.
    + constructor; [|constructor]. now apply (Hw "a"%char).
    + vm_compute. reflexivity.
    + constructor; [|constructor]. split; [vm_compute; reflexivity|].
      now apply (Hw "f"%char).
  - pose proof (load_raises_key_error_for_orphan_tag Samples2.app
                  Samples2.sample_world
                  [Samples2.hex64 "a"; Samples2.hex64 "b"; Samples2.hex64 "c";
                   Samples2.hex64 "d"] ["latest"] [Samples2.sha "a"]) as H.
    assert (Ho : first_orphan
                   (RepositoryLayout.key
                      <$> [Samples2.hex64 "a"; Samples2.hex64 "b";
                           Samples2.hex64 "c"; Samples2.hex64 "d"])
                   (zip_with Tag.mk ["latest"] [Samples2.sha "a"])
                 = None)
      by (vm_compute; reflexivity).
    rewrite Ho in H. apply H.
    + vm_compute. reflexivity.
    + constructor; [now apply (Hw "a"%char)|].
      constructor; [now apply (Hw "b"%char)|].
      constructor; [now apply (Hw "c"%char)|].
      constructor; [now apply (Hw "d"%char)|]. constructor.
    + vm_compute. reflexivity.
    + constructor; [|constructor]. split; [vm_compute; reflexivity|].
      now apply (Hw "a"%char).
Defined.
